(** * Rules admin console: the dashboard's filter / sort / status-toggle logic

    A shallow embedding of the browser-side scripts of the rules admin
    templates (the dashboard page and the rule detail page) and of the
    sidebar script, together with the part of the Jinja templates that
    produces the rows the scripts read.

    The DOM is modelled as a store of row elements indexed by node identity:
    the script's [allRules] array holds references into that store next to
    copies of the rows' data attributes, and that aliasing is what several of
    the properties below depend on. *)

From Stdlib Require Import ZArith Ascii DecimalString.
From stdpp Require Import gmap strings list sorting.

Local Open Scope Z_scope.

(** ** JavaScript primitives used by the scripts *)

Module Js.

(** [String.prototype.toLowerCase], on the ASCII range. *)
Definition lower_ascii (c : ascii) : ascii :=
  let n := nat_of_ascii c in
  if ((65 <=? n)%nat && (n <=? 90)%nat)%bool then ascii_of_nat (n + 32) else c.

Fixpoint toLowerCase (s : string) : string :=
  match s with
  | EmptyString => EmptyString
  | String c s' => String (lower_ascii c) (toLowerCase s')
  end.

(** White space removed by [String.prototype.trim], on the ASCII range:
    TAB, LF, VT, FF, CR and SPACE. *)
Definition is_white_space (c : ascii) : bool :=
  let n := nat_of_ascii c in
  ((9 <=? n)%nat && (n <=? 13)%nat)%bool || (n =? 32)%nat.

Fixpoint trimStart (s : string) : string :=
  match s with
  | EmptyString => EmptyString
  | String c s' => if is_white_space c then trimStart s' else s
  end.

Fixpoint trimEnd (s : string) : string :=
  match s with
  | EmptyString => EmptyString
  | String c s' =>
      match trimEnd s' with
      | EmptyString => if is_white_space c then EmptyString else String c EmptyString
      | t => String c t
      end
  end.

Definition trim (s : string) : string := trimEnd (trimStart s).

(** [s.includes(t)]: [t] occurs in [s] as a contiguous substring. *)
Fixpoint includes (s t : string) : bool :=
  String.prefix t s ||
  match s with
  | EmptyString => false
  | String _ s' => includes s' t
  end.

(** Truthiness of a string: only the empty string is falsy. *)
Definition truthy_str (s : string) : bool := negb (String.eqb s "").

(** [a || d] on strings. *)
Definition or_default (a d : string) : string := if truthy_str a then a else d.

(** The JSON values the toggle endpoint's [is_active] member is read as. *)
Inductive value :=
| Undefined
| Null
| Bool (b : bool)
| Str (s : string).

Definition truthy (v : value) : bool :=
  match v with
  | Undefined | Null => false
  | Bool b => b
  | Str s => truthy_str s
  end.

(** [ToString], applied when a value is stored into a [dataset] entry. *)
Definition ToString (v : value) : string :=
  match v with
  | Undefined => "undefined"
  | Null => "null"
  | Bool true => "true"
  | Bool false => "false"
  | Str s => s
  end.

(** A JavaScript number as far as the comparators need it: an integer, or
    [None] for NaN. *)
Definition number := option Z.

(** [b - a] on two [Date] objects: the difference of their time values,
    NaN when either is an Invalid Date. *)
Definition date_sub (b a : number) : number :=
  match b, a with
  | Some tb, Some ta => Some (tb - ta)
  | _, _ => None
  end.

(** [SortCompare] of [Array.prototype.sort]: a comparator result that is
    NaN counts as [+0]. *)
Definition SortCompare {A} (comparefn : A → A → number) (x y : A) : Z :=
  match comparefn x y with
  | Some v => v
  | None => 0
  end.

(** [Array.prototype.sort] is required to be stable; for a consistent
    comparator every stable sort returns the same array.  It is modelled
    as a stable insertion sort: an element stays in front of the later
    elements it does not compare greater than. *)
(** [x] may stand in front of [y]. *)
Definition le {A} (comparefn : A → A → number) (x y : A) : Prop :=
  SortCompare comparefn x y <= 0.

Fixpoint insert {A} (comparefn : A → A → number) (x : A) (l : list A) : list A :=
  match l with
  | [] => [x]
  | y :: l' =>
      if SortCompare comparefn x y <=? 0 then x :: y :: l'
      else y :: insert comparefn x l'
  end.

Fixpoint sort {A} (comparefn : A → A → number) (l : list A) : list A :=
  match l with
  | [] => []
  | x :: l' => insert comparefn x (sort comparefn l')
  end.

(** [DOMTokenList.add] and [DOMTokenList.remove] for one token. *)
Definition classList_add (c : string) (l : list string) : list string :=
  if bool_decide (c ∈ l) then l else l ++ [c].

Definition classList_remove (c : string) (l : list string) : list string :=
  filter (λ x, x ≠ c) l.

End Js.

(** ** Browser built-ins the scripts call but do not define

    [String.prototype.localeCompare] (a collation: negative, zero or
    positive) and the time value of [new Date(s)] for a string [s]
    ([None] for an Invalid Date). *)

Class Builtins := {
  localeCompare : string → string → Z;
  Date_parse : string → option Z;
}.

(** ** The server side: rule documents and the expressions of the templates *)

Module Server.

(** A key of a rule document: missing, stored as [None], or stored. *)
Inductive field (A : Type) :=
| Absent
| PyNone
| Present (a : A).
Arguments Absent {A}.
Arguments PyNone {A}.
Arguments Present {A} a.

(** The rule document handed to the templates.  The two dates carry the
    text [str()] gives for the stored value. *)
Record Rule := {
  rule_id : string;
  name : string;
  description : string;
  query : string;
  action : string;
  is_active : field bool;
  max_results : nat;
  count_processed : nat;
  created_date : field string;
  modified_date : field string;
}.

(** [rule.get('is_active', True)]: the default applies to a missing key
    only; [None] stands for Python's [None]. *)
Definition get_is_active (rule : Rule) : option bool :=
  match is_active rule with
  | Absent => Some true
  | PyNone => None
  | Present b => Some b
  end.

(** Truth value of that expression in [{% if ... %}]. *)
Definition is_active_truth (rule : Rule) : bool :=
  match get_is_active rule with
  | Some b => b
  | None => false
  end.

(** [{{ rule.get('is_active', True) }}]. *)
Definition is_active_text (rule : Rule) : string :=
  match get_is_active rule with
  | Some true => "True"
  | Some false => "False"
  | None => "None"
  end.

(** [{{ rule.created_date }}] and [{{ rule.modified_date }}]: an undefined
    expression prints nothing, [None] prints as [None]. *)
Definition date_text (d : field string) : string :=
  match d with
  | Absent => ""
  | PyNone => "None"
  | Present s => s
  end.

(** The [lower] filter, on the ASCII range. *)
Definition lower (s : string) : string := Js.toLowerCase s.

End Server.

(** ** What a [fetch] of the toggle endpoint settles to *)

Inductive Body :=
| JsonRejects (message : string)       (* [response.json()] rejects, or reading
                                         [data.is_active] throws *)
| JsonData (is_active : Js.value).     (* [data.is_active] *)

Inductive FetchResult :=
| FetchRejects (message : string)      (* network error *)
| Response (ok : bool) (body : Body).

(** The two outcomes the pages treat as failure, and the rest. *)
Definition failed (r : FetchResult) : bool :=
  match r with
  | Response true (JsonData _) => false
  | _ => true
  end.

(** ** The dashboard page *)

Module Dashboard.

(** One [<tr class="rule-row">] of the table with the descendants the
    script reads or writes. *)
Record RowElem := {
  classList : list string;          (* class tokens of the row *)
  dataset_name : string;
  dataset_action : string;
  dataset_created : string;
  dataset_modified : string;
  dataset_description : string;
  dataset_active : string;
  style_display : string;
  link_classList : list string;     (* class tokens of [.rule-name a] *)
  pause_icon : bool;                (* a [.bi-pause-circle] child is present *)
  query_preview : string;           (* text of [.query-preview] *)
  checked : bool;                   (* the row's status switch *)
  onchange_ruleId : string;         (* the id written into its [onchange] *)
}.

(** An entry of the script's [allRules] array. *)
Record RuleObj := {
  element : nat;
  name : string;
  action : string;
  description : string;
  created : string;
  modified : string;
  active : string;
  query : string;
}.

(** A call of [toggleRuleStatus] suspended at [await fetch]. *)
Record Toggle := {
  ruleId : string;
  checkbox : nat;                      (* the row holding the switch *)
  originalChecked : bool;
}.

Record Page := {
  rows : gmap nat RowElem;             (* the row elements, by node identity *)
  tbody : list nat;                    (* children of [#rulesTableBody], in order *)
  allRules : list RuleObj;
  searchInput : string;
  filterAll : bool;
  action_filter : list (string * bool);  (* [.action-filter] boxes: value, checked *)
  filterActive : bool;
  filterInactive : bool;
  rulesCount : option nat;             (* text of [#rulesCount]; [None]: no such element *)
  alerts : list string;
  console : list string;
  pending : list Toggle;
}.

Definition set_rows (f : gmap nat RowElem → gmap nat RowElem) (p : Page) : Page :=
  {| rows := f (rows p); tbody := tbody p; allRules := allRules p;
     searchInput := searchInput p; filterAll := filterAll p;
     action_filter := action_filter p; filterActive := filterActive p;
     filterInactive := filterInactive p; rulesCount := rulesCount p;
     alerts := alerts p; console := console p; pending := pending p |}.

Definition set_allRules (a : list RuleObj) (p : Page) : Page :=
  {| rows := rows p; tbody := tbody p; allRules := a;
     searchInput := searchInput p; filterAll := filterAll p;
     action_filter := action_filter p; filterActive := filterActive p;
     filterInactive := filterInactive p; rulesCount := rulesCount p;
     alerts := alerts p; console := console p; pending := pending p |}.

Definition set_tbody (t : list nat) (p : Page) : Page :=
  {| rows := rows p; tbody := t; allRules := allRules p;
     searchInput := searchInput p; filterAll := filterAll p;
     action_filter := action_filter p; filterActive := filterActive p;
     filterInactive := filterInactive p; rulesCount := rulesCount p;
     alerts := alerts p; console := console p; pending := pending p |}.

Definition set_searchInput (s : string) (p : Page) : Page :=
  {| rows := rows p; tbody := tbody p; allRules := allRules p;
     searchInput := s; filterAll := filterAll p;
     action_filter := action_filter p; filterActive := filterActive p;
     filterInactive := filterInactive p; rulesCount := rulesCount p;
     alerts := alerts p; console := console p; pending := pending p |}.

Definition set_action_boxes (all : bool) (boxes : list (string * bool)) (p : Page) : Page :=
  {| rows := rows p; tbody := tbody p; allRules := allRules p;
     searchInput := searchInput p; filterAll := all;
     action_filter := boxes; filterActive := filterActive p;
     filterInactive := filterInactive p; rulesCount := rulesCount p;
     alerts := alerts p; console := console p; pending := pending p |}.

Definition set_status_boxes (a i : bool) (p : Page) : Page :=
  {| rows := rows p; tbody := tbody p; allRules := allRules p;
     searchInput := searchInput p; filterAll := filterAll p;
     action_filter := action_filter p; filterActive := a;
     filterInactive := i; rulesCount := rulesCount p;
     alerts := alerts p; console := console p; pending := pending p |}.

Definition set_rulesCount (c : option nat) (p : Page) : Page :=
  {| rows := rows p; tbody := tbody p; allRules := allRules p;
     searchInput := searchInput p; filterAll := filterAll p;
     action_filter := action_filter p; filterActive := filterActive p;
     filterInactive := filterInactive p; rulesCount := c;
     alerts := alerts p; console := console p; pending := pending p |}.

Definition alert (msg : string) (p : Page) : Page :=
  {| rows := rows p; tbody := tbody p; allRules := allRules p;
     searchInput := searchInput p; filterAll := filterAll p;
     action_filter := action_filter p; filterActive := filterActive p;
     filterInactive := filterInactive p; rulesCount := rulesCount p;
     alerts := alerts p ++ [msg]; console := console p; pending := pending p |}.

Definition console_warn (msg : string) (p : Page) : Page :=
  {| rows := rows p; tbody := tbody p; allRules := allRules p;
     searchInput := searchInput p; filterAll := filterAll p;
     action_filter := action_filter p; filterActive := filterActive p;
     filterInactive := filterInactive p; rulesCount := rulesCount p;
     alerts := alerts p; console := console p ++ [msg]; pending := pending p |}.

Definition set_pending (q : list Toggle) (p : Page) : Page :=
  {| rows := rows p; tbody := tbody p; allRules := allRules p;
     searchInput := searchInput p; filterAll := filterAll p;
     action_filter := action_filter p; filterActive := filterActive p;
     filterInactive := filterInactive p; rulesCount := rulesCount p;
     alerts := alerts p; console := console p; pending := q |}.

(** Writes to one row element. *)
Definition set_display (d : string) (r : RowElem) : RowElem :=
  {| classList := classList r; dataset_name := dataset_name r;
     dataset_action := dataset_action r; dataset_created := dataset_created r;
     dataset_modified := dataset_modified r;
     dataset_description := dataset_description r;
     dataset_active := dataset_active r; style_display := d;
     link_classList := link_classList r; pause_icon := pause_icon r;
     query_preview := query_preview r; checked := checked r;
     onchange_ruleId := onchange_ruleId r |}.

Definition set_checked (c : bool) (r : RowElem) : RowElem :=
  {| classList := classList r; dataset_name := dataset_name r;
     dataset_action := dataset_action r; dataset_created := dataset_created r;
     dataset_modified := dataset_modified r;
     dataset_description := dataset_description r;
     dataset_active := dataset_active r; style_display := style_display r;
     link_classList := link_classList r; pause_icon := pause_icon r;
     query_preview := query_preview r; checked := c;
     onchange_ruleId := onchange_ruleId r |}.

(** The template's row for one rule ([{% for rule in rules %}]). *)
Definition render_row (rule : Server.Rule) : RowElem :=
  let on := Server.is_active_truth rule in
  {| classList := "rule-row" :: (if on then [] else ["table-secondary"]);
     dataset_name := Server.lower (Server.name rule);
     dataset_action := Server.action rule;
     dataset_created := Server.date_text (Server.created_date rule);
     dataset_modified := Server.date_text (Server.modified_date rule);
     dataset_description := Server.lower (Server.description rule);
     dataset_active := Server.is_active_text rule;
     style_display := "";
     link_classList :=
       ["text-decoration-none"; if on then "text-dark" else "text-muted"];
     pause_icon := negb on;
     query_preview := Server.query rule;
     checked := on;
     onchange_ruleId := Server.rule_id rule |}.

(** The object literal the script builds from a row, with its [||]
    defaults. *)
Definition rule_of_row (e : nat) (row : RowElem) : RuleObj :=
  {| element := e;
     name := Js.or_default (dataset_name row) "";
     action := Js.or_default (dataset_action row) "";
     description := Js.or_default (dataset_description row) "";
     created := Js.or_default (dataset_created row) "";
     modified := Js.or_default (dataset_modified row) "";
     active := Js.or_default (dataset_active row) "True";
     query := Js.toLowerCase (Js.or_default (query_preview row) "") |}.

(** [Array.from(document.querySelectorAll('.rule-row')).map(...)]. *)
Definition snapshot (p : Page) : list RuleObj :=
  omap (λ e, rule_of_row e <$> rows p !! e) (tbody p).

(** [Array.from(tbody.querySelectorAll('.rule-row'))]: the rows of the
    table in document order, each with its node identity. *)
Definition rule_rows (p : Page) : list (nat * RowElem) :=
  omap (λ e, pair e <$> rows p !! e) (tbody p).

Definition row_list (p : Page) : list RowElem := (rule_rows p).*2.

(** The pairs of [l] are rows of [p] under their own identities. *)
Definition bound (p : Page) (l : list (nat * RowElem)) : Prop :=
  ∀ e row, (e, row) ∈ l → rows p !! e = Some row.

(** The values of the checked [.action-filter] and [.status-filter] boxes,
    in document order. *)
Definition actionFilters (p : Page) : list string :=
  (filter (λ cb, cb.2 = true) (action_filter p)).*1.

Definition statusFilters (p : Page) : list string :=
  (if filterActive p then ["active"] else []) ++
  (if filterInactive p then ["inactive"] else []).

Definition matchesSearch (searchTerm : string) (rule : RuleObj) : bool :=
  negb (Js.truthy_str searchTerm)
  || (Js.truthy_str (name rule) && Js.includes (name rule) searchTerm)
  || (Js.truthy_str (description rule) && Js.includes (description rule) searchTerm)
  || (Js.truthy_str (query rule) && Js.includes (query rule) searchTerm).

Definition matchesAction (all : bool) (selected : list string) (rule : RuleObj) : bool :=
  all || bool_decide (action rule ∈ selected).

Definition ruleIsActive (rule : RuleObj) : bool := String.eqb (active rule) "True".

Definition matchesStatus (selected : list string) (rule : RuleObj) : bool :=
  (bool_decide ("active" ∈ selected) && ruleIsActive rule)
  || (bool_decide ("inactive" ∈ selected) && negb (ruleIsActive rule)).

Definition matches (searchTerm : string) (all : bool) (acts stats : list string)
    (rule : RuleObj) : bool :=
  matchesSearch searchTerm rule && matchesAction all acts rule
  && matchesStatus stats rule.

Definition display_for (b : bool) : string := if b then "" else "none".

(** One round of the [allRules.forEach] loop: the row is shown or hidden
    through the reference the entry holds, and counted when shown. *)
Definition filter_rule (searchTerm : string) (all : bool) (acts stats : list string)
    (st : gmap nat RowElem * nat) (rule : RuleObj) : gmap nat RowElem * nat :=
  if matches searchTerm all acts stats rule
  then (alter (set_display "") (element rule) st.1, S st.2)
  else (alter (set_display "none") (element rule) st.1, st.2).

(** [filterRules()].  Nothing inside its [try] block throws on a page the
    template produced, so the [catch] branch is not modelled. *)
Definition filterRules (p : Page) : Page :=
  let searchTerm := Js.trim (Js.toLowerCase (searchInput p)) in
  let all := filterAll p in
  let acts := actionFilters p in
  let stats := statusFilters p in
  let p1 :=
    match allRules p with
    | [] => set_allRules (snapshot p)
              (console_warn "allRules is empty, reinitializing..." p)
    | _ => p
    end in
  let st := foldl (filter_rule searchTerm all acts stats) (rows p1, 0%nat) (allRules p1) in
  set_rulesCount (match rulesCount p1 with Some _ => Some st.2 | None => None end)
    (set_rows (λ _, st.1) p1).

(** The page as the template renders it for [rules], with one action box
    per key of [action_types]; rows get node identities [0], [1], ... in
    document order.  The count line and the table exist only inside
    [{% if rules %}]. *)
Definition render (action_types : list string) (rules : list Server.Rule) : Page :=
  {| rows := map_seq 0 (render_row <$> rules);
     tbody := seq 0 (length rules);
     allRules := [];
     searchInput := "";
     filterAll := true;
     action_filter := (λ k, (k, true)) <$> action_types;
     filterActive := true;
     filterInactive := true;
     rulesCount := match rules with [] => None | _ => Some (length rules) end;
     alerts := [];
     console := [];
     pending := [] |}.

(** The [DOMContentLoaded] listener. *)
Definition DOMContentLoaded (p : Page) : Page :=
  filterRules (set_allRules (snapshot p) p).

Definition loadRules (action_types : list string) (rules : list Server.Rule) : Page :=
  DOMContentLoaded (render action_types rules).

(** The success branch's restyling of the row, [if (data.is_active)]. *)
Definition restyle (on : bool) (r : RowElem) : RowElem :=
  {| classList :=
       if on then Js.classList_remove "table-secondary" (classList r)
       else Js.classList_add "table-secondary" (classList r);
     dataset_name := dataset_name r;
     dataset_action := dataset_action r; dataset_created := dataset_created r;
     dataset_modified := dataset_modified r;
     dataset_description := dataset_description r;
     dataset_active := dataset_active r; style_display := style_display r;
     link_classList :=
       if on
       then Js.classList_add "text-dark"
              (Js.classList_remove "text-muted" (link_classList r))
       else Js.classList_add "text-muted"
              (Js.classList_remove "text-dark" (link_classList r));
     pause_icon := negb on;
     query_preview := query_preview r; checked := checked r;
     onchange_ruleId := onchange_ruleId r |}.

Definition set_dataset_active (s : string) (r : RowElem) : RowElem :=
  {| classList := classList r; dataset_name := dataset_name r;
     dataset_action := dataset_action r; dataset_created := dataset_created r;
     dataset_modified := dataset_modified r;
     dataset_description := dataset_description r;
     dataset_active := s; style_display := style_display r;
     link_classList := link_classList r; pause_icon := pause_icon r;
     query_preview := query_preview r; checked := checked r;
     onchange_ruleId := onchange_ruleId r |}.

(** [toggleRuleStatus(ruleId, checkbox)] up to [await fetch]: the handler
    runs after the browser has flipped the switch, so [originalChecked] is
    the flipped state. *)
Definition toggleRuleStatus_begin (id : string) (box : nat) (p : Page) : Page :=
  match rows p !! box with
  | Some row =>
      set_pending
        (pending p ++ [{| ruleId := id; checkbox := box; originalChecked := checked row |}]) p
  | None => p
  end.

(** The rest of [toggleRuleStatus], run when the fetch settles. *)
Definition toggleRuleStatus_settle (t : Toggle) (r : FetchResult) (p : Page) : Page :=
  let revert := set_rows (alter (set_checked (negb (originalChecked t))) (checkbox t)) in
  match r with
  | Response true (JsonData v) =>
      set_rows
        (alter (λ row, set_dataset_active (Js.ToString v) (restyle (Js.truthy v) row))
           (checkbox t)) p
  | Response true (JsonRejects m) | FetchRejects m =>
      alert ("Error toggling rule status: " +:+ m) (revert p)
  | Response false _ =>
      alert "Failed to toggle rule status" (revert p)
  end.

(** What the user and the network can do to the page. *)
Inductive Event :=
| Input (s : string)                    (* edits the search box *)
| ChangeFilterAll                       (* clicks the All Types box *)
| ChangeActionFilter (i : nat)          (* clicks the i-th action box *)
| ChangeStatusFilter (active : bool)    (* clicks the Active / Inactive box *)
| ChangeSort (value : string)           (* picks a sort key *)
| ChangeStatusSwitch (e : nat)          (* clicks the switch of row e *)
| FetchSettles (k : nat) (r : FetchResult).  (* the k-th pending fetch settles *)

Section events.
Context `{Builtins}.

(** The comparator of [sortRules]; [modified] is also the [default]
    case. *)
Definition compare_rows (sortBy : string) (a b : RowElem) : Js.number :=
  if String.eqb sortBy "name" then
    Some (localeCompare (dataset_name a) (dataset_name b))
  else if String.eqb sortBy "action" then
    Some (localeCompare (dataset_action a) (dataset_action b))
  else if String.eqb sortBy "created" then
    Js.date_sub (Date_parse (dataset_created b)) (Date_parse (dataset_created a))
  else
    Js.date_sub (Date_parse (dataset_modified b)) (Date_parse (dataset_modified a)).

(** [sortRules(sortBy)]: the rows are sorted, re-appended in that order,
    and [allRules] is rebuilt from the rows' current data attributes.  (On a
    page without rules there is no table and the call throws before it has
    changed anything; here it returns the same empty page.) *)
Definition sortRules (sortBy : string) (p : Page) : Page :=
  let sorted := Js.sort (λ a b, compare_rows sortBy a.2 b.2) (rule_rows p) in
  let p1 := set_tbody (sorted.*1) p in
  set_allRules (snapshot p1) p1.

(** Row [e] carries a name that collates equal to [s]. *)
Definition name_equiv (p : Page) (s : string) (e : nat) : bool :=
  match rows p !! e with
  | Some row => localeCompare s (dataset_name row) =? 0
  | None => false
  end.

(** The time value of a row's modified date. *)
Definition modified_time (row : RowElem) : option Z :=
  Date_parse (dataset_modified row).

(** [a] is dated, [b] is dated, and [a] is at least as new as [b]. *)
Definition newer_or_same (a b : RowElem) : Prop :=
  ∃ ta tb, modified_time a = Some ta ∧ modified_time b = Some tb ∧ tb <= ta.

(** Each control runs its inline handler first and then the listener the
    script registered, if any. *)
Definition step (ev : Event) (p : Page) : Page :=
  match ev with
  | Input s => filterRules (set_searchInput s p)
  | ChangeFilterAll =>
      let p1 := filterRules (set_action_boxes (negb (filterAll p)) (action_filter p) p) in
      filterRules
        (set_action_boxes (filterAll p1)
           ((λ cb, (cb.1, filterAll p1)) <$> action_filter p1) p1)
  | ChangeActionFilter i =>
      match action_filter p !! i with
      | Some cb =>
          let p1 :=
            filterRules
              (set_action_boxes (filterAll p) (<[i := (cb.1, negb cb.2)]> (action_filter p)) p) in
          filterRules
            (set_action_boxes (forallb snd (action_filter p1)) (action_filter p1) p1)
      | None => p
      end
  | ChangeStatusFilter true =>
      filterRules (set_status_boxes (negb (filterActive p)) (filterInactive p) p)
  | ChangeStatusFilter false =>
      filterRules (set_status_boxes (filterActive p) (negb (filterInactive p)) p)
  | ChangeSort value => sortRules value p
  | ChangeStatusSwitch e =>
      match rows p !! e with
      | Some row =>
          toggleRuleStatus_begin (onchange_ruleId row) e
            (set_rows (alter (set_checked (negb (checked row))) e) p)
      | None => p
      end
  | FetchSettles k r =>
      match pending p !! k with
      | Some t => toggleRuleStatus_settle t r (set_pending (delete k (pending p)) p)
      | None => p
      end
  end.

Definition run (evs : list Event) (p : Page) : Page :=
  foldl (λ q ev, step ev q) p evs.

End events.

(** The array the loop of [filterRules] runs over. *)
Definition loop_rules (p : Page) : list RuleObj :=
  match allRules p with
  | [] => snapshot p
  | l => l
  end.

(** The rows and the count the loop ends with. *)
Definition loop_result (p : Page) : gmap nat RowElem * nat :=
  foldl
    (filter_rule (Js.trim (Js.toLowerCase (searchInput p))) (filterAll p)
       (actionFilters p) (statusFilters p))
    (rows p, 0%nat) (loop_rules p).

(** A row still carries what the template wrote for the rule it was drawn
    from: node [e] is the row of the [e]-th rule. *)
Definition row_of_rule (rules : list Server.Rule) (e : nat) (row : RowElem) : Prop :=
  ∃ rule, rules !! e = Some rule
    ∧ dataset_name row = Server.lower (Server.name rule)
    ∧ dataset_description row = Server.lower (Server.description rule)
    ∧ dataset_action row = Server.action rule
    ∧ query_preview row = Server.query rule.

Definition obj_of_rule (rules : list Server.Rule) (r : RuleObj) : Prop :=
  ∃ rule, rules !! element r = Some rule
    ∧ name r = Server.lower (Server.name rule)
    ∧ description r = Server.lower (Server.description rule)
    ∧ action r = Server.action rule
    ∧ query r = Js.toLowerCase (Server.query rule).

(** What holds of the page of [rules] whatever the user has done. *)
Record inv (rules : list Server.Rule) (p : Page) : Prop := {
  inv_nodup : NoDup (tbody p);
  inv_dom : ∀ e, e ∈ tbody p ↔ is_Some (rows p !! e);
  inv_all : element <$> allRules p = tbody p;
  inv_len : length (tbody p) = length rules;
  inv_count : rules ≠ [] ↔ is_Some (rulesCount p);
  inv_rows : map_Forall (row_of_rule rules) (rows p);
  inv_objs : Forall (obj_of_rule rules) (allRules p);
}.

(** How the two listeners keep All Types and the action boxes in step. *)
Definition boxes_inv (kinds : list string) (p : Page) : Prop :=
  length (action_filter p) = length kinds
  ∧ (kinds ≠ [] → filterAll p = forallb snd (action_filter p)).

(** The rows a user sees: those not hidden by [display: none]. *)
Definition shown (p : Page) (e : nat) : bool :=
  match rows p !! e with
  | Some row => negb (String.eqb (style_display row) "none")
  | None => false
  end.

Definition visible (p : Page) : list nat :=
  filter (λ e, shown p e = true) (tbody p).

End Dashboard.

(** ** The rule detail page *)

Module Detail.

Record Badge := {
  className : string;
  innerHTML : string;
}.

(** The parts of the document the page's script touches.  The script takes
    [document.querySelector('.badge')], the first [.badge] element of the
    whole document: [badges_before] are the ones that precede the status
    badge next to the rule's name. *)
Record Page := {
  checked : bool;                 (* [#status-toggle] *)
  status_text : string;           (* text of [#status-text] *)
  badges_before : list Badge;
  status_badge : Badge;
  alerts : list string;
  pending : list bool;            (* [originalChecked] of the suspended calls *)
}.

Definition quote : string := String "034"%char EmptyString.

Definition icon (cls : string) : string :=
  "<i class=" +:+ quote +:+ cls +:+ quote +:+ "></i>".

(** The badge and text the success branch writes. *)
Definition badge_for (on : bool) : Badge :=
  if on
  then {| className := "badge bg-success ms-2";
          innerHTML := icon "bi bi-play-circle me-1" +:+ "Active" |}
  else {| className := "badge bg-secondary ms-2";
          innerHTML := icon "bi bi-pause-circle me-1" +:+ "Inactive" |}.

Definition text_for (on : bool) : string :=
  if on then "Rule is active and processing emails"
  else "Rule is inactive and not processing emails".

Definition set_checked (c : bool) (p : Page) : Page :=
  {| checked := c; status_text := status_text p; badges_before := badges_before p;
     status_badge := status_badge p; alerts := alerts p; pending := pending p |}.

Definition alert (msg : string) (p : Page) : Page :=
  {| checked := checked p; status_text := status_text p;
     badges_before := badges_before p; status_badge := status_badge p;
     alerts := alerts p ++ [msg]; pending := pending p |}.

Definition set_pending (q : list bool) (p : Page) : Page :=
  {| checked := checked p; status_text := status_text p;
     badges_before := badges_before p; status_badge := status_badge p;
     alerts := alerts p; pending := q |}.

(** The success branch: the text, then the first badge of the document. *)
Definition show_status (on : bool) (p : Page) : Page :=
  {| checked := checked p;
     status_text := text_for on;
     badges_before :=
       match badges_before p with
       | [] => []
       | _ :: bs => badge_for on :: bs
       end;
     status_badge :=
       match badges_before p with
       | [] => badge_for on
       | _ :: _ => status_badge p
       end;
     alerts := alerts p; pending := pending p |}.

(** The user clicks the switch: the browser flips it and the handler runs
    up to [await fetch]. *)
Definition toggleRuleStatus_begin (p : Page) : Page :=
  let p1 := set_checked (negb (checked p)) p in
  set_pending (pending p1 ++ [checked p1]) p1.

Definition toggleRuleStatus_settle (originalChecked : bool) (r : FetchResult)
    (p : Page) : Page :=
  match r with
  | Response true (JsonData v) => show_status (Js.truthy v) p
  | Response true (JsonRejects m) | FetchRejects m =>
      alert ("Error toggling rule status: " +:+ m)
        (set_checked (negb originalChecked) p)
  | Response false _ =>
      alert "Failed to toggle rule status" (set_checked (negb originalChecked) p)
  end.

Inductive Event :=
| ChangeStatusSwitch
| FetchSettles (k : nat) (r : FetchResult).

Definition step (ev : Event) (p : Page) : Page :=
  match ev with
  | ChangeStatusSwitch => toggleRuleStatus_begin p
  | FetchSettles k r =>
      match pending p !! k with
      | Some o => toggleRuleStatus_settle o r (set_pending (delete k (pending p)) p)
      | None => p
      end
  end.

End Detail.

(** ** The sidebar's rule list *)

Module Sidebar.

(** A rule as [/api/rules] returns it, with the members the search reads. *)
Record Rule := {
  rule_id : string;
  name : string;
  description : string;
  query : string;
  action : string;
}.

Record State := {
  rulesData : list Rule;
  rendered : list Rule;          (* the rules [renderRulesList] last drew *)
}.

(** Members every object literal inherits from [Object.prototype]; looking
    one of them up in the [names] table yields a function or an object, not
    a string. *)
Definition inherited : list string :=
  ["constructor"; "__proto__"; "hasOwnProperty"; "isPrototypeOf";
   "propertyIsEnumerable"; "toLocaleString"; "toString"; "valueOf";
   "__defineGetter__"; "__defineSetter__"; "__lookupGetter__"; "__lookupSetter__"].

Definition names : list (string * string) :=
  [("sms", "SMS"); ("bank-sync", "Bank"); ("archive", "Archive");
   ("email-forward", "Email"); ("webhook", "Webhook"); ("mark-read", "Read")].

(** [getActionName(action)], i.e. [names[action] || action]; [None] when
    the result is not a string. *)
Definition getActionName (action : string) : option string :=
  match list_to_map (M := gmap string string) names !! action with
  | Some n => Some n
  | None => if bool_decide (action ∈ inherited) then None else Some action
  end.

(** The first four tests of the callback of [rulesData.filter]: the term
    occurs in the lower-cased name, description, query or action. *)
Definition in_text (term : string) (rule : Rule) : bool :=
  Js.includes (Js.toLowerCase (name rule)) term
  || Js.includes (Js.toLowerCase (description rule)) term
  || Js.includes (Js.toLowerCase (query rule)) term
  || Js.includes (Js.toLowerCase (action rule)) term.

(** The callback of [rulesData.filter]; [None] when it throws, which is
    when [getActionName(...)] has no [toLowerCase]. *)
Definition keep (term : string) (rule : Rule) : option bool :=
  if Js.includes (Js.toLowerCase (name rule)) term
     || Js.includes (Js.toLowerCase (description rule)) term
     || Js.includes (Js.toLowerCase (query rule)) term
     || Js.includes (Js.toLowerCase (action rule)) term
  then Some true
  else (λ n, Js.includes (Js.toLowerCase n) term) <$> getActionName (action rule).

Fixpoint filter_rules (term : string) (l : list Rule) : option (list Rule) :=
  match l with
  | [] => Some []
  | rule :: l' =>
      b ← keep term rule;
      rest ← filter_rules term l';
      Some (if b : bool then rule :: rest else rest)
  end.

Definition renderRulesList (rules : list Rule) (st : State) : State :=
  {| rulesData := rulesData st; rendered := rules |}.

(** [filterRules(searchTerm)]; an exception leaves the list as it was. *)
Definition filterRules (searchTerm : string) (st : State) : State :=
  let term := Js.trim (Js.toLowerCase searchTerm) in
  if String.eqb term "" then renderRulesList (rulesData st) st
  else
    match filter_rules term (rulesData st) with
    | Some filteredRules => renderRulesList filteredRules st
    | None => st
    end.

End Sidebar.

(** ** Stand-ins for the built-ins, used to run the model on examples *)

Module Sample.

(** Comparison by code units, a consistent collation. *)
Definition codeunit_compare (a b : string) : Z :=
  match String.compare a b with
  | Lt => -1
  | Eq => 0
  | Gt => 1
  end.

Definition digit (c : ascii) : option Z :=
  let n := nat_of_ascii c in
  if ((48 <=? n)%nat && (n <=? 57)%nat)%bool then Some (Z.of_nat (n - 48)) else None.

(** Reads exactly [n] decimal digits. *)
Fixpoint digits (n : nat) (acc : Z) (s : string) : option (Z * string) :=
  match n, s with
  | O, _ => Some (acc, s)
  | S n', String c s' => d ← digit c; digits n' (10 * acc + d) s'
  | S _, EmptyString => None
  end.

Definition expect (c : ascii) (s : string) : option string :=
  match s with
  | String c' s' => if bool_decide (c = c') then Some s' else None
  | EmptyString => None
  end.

Definition leap (y : Z) : bool :=
  ((y mod 4 =? 0) && negb (y mod 100 =? 0)) || (y mod 400 =? 0).

Definition days_in_month (y m : Z) : Z :=
  if m =? 2 then (if leap y then 29 else 28)
  else if (m =? 4) || (m =? 6) || (m =? 9) || (m =? 11) then 30 else 31.

(** Days since 1970-01-01 of a date of the proleptic Gregorian calendar. *)
Definition days_from_civil (y m d : Z) : Z :=
  let y' := if m <=? 2 then y - 1 else y in
  let era := y' / 400 in
  let yoe := y' - era * 400 in
  let doy := (153 * (if m <=? 2 then m + 9 else m - 3) + 2) / 5 + d - 1 in
  let doe := yoe * 365 + yoe / 4 - yoe / 100 + doy in
  era * 146097 + doe - 719468.

(** The date-time string format every engine must parse, in its full UTC
    form [YYYY-MM-DDTHH:mm:ss.sssZ]; any other text is an Invalid Date
    here. *)
Definition parse_iso (s : string) : option Z :=
  '(y, s) ← digits 4 0 s; s ← expect "-" s;
  '(mo, s) ← digits 2 0 s; s ← expect "-" s;
  '(d, s) ← digits 2 0 s; s ← expect "T" s;
  '(h, s) ← digits 2 0 s; s ← expect ":" s;
  '(mi, s) ← digits 2 0 s; s ← expect ":" s;
  '(sec, s) ← digits 2 0 s; s ← expect "." s;
  '(ms, s) ← digits 3 0 s; s ← expect "Z" s;
  if String.eqb s ""
     && (1 <=? mo) && (mo <=? 12) && (1 <=? d) && (d <=? days_in_month y mo)
     && (h <=? 23) && (mi <=? 59) && (sec <=? 59)
  then Some ((((days_from_civil y mo d * 24 + h) * 60 + mi) * 60 + sec) * 1000 + ms)
  else None.

Definition builtins : Builtins :=
  {| localeCompare := codeunit_compare; Date_parse := parse_iso |}.

End Sample.

(** A two-rule page used in the examples below. *)
Module Scenario.
Import Dashboard.

Definition alpha : Server.Rule :=
  {| Server.rule_id := "1"; Server.name := "Alpha"; Server.description := "first";
     Server.query := "from:bank"; Server.action := "sms";
     Server.is_active := Server.Present true;
     Server.max_results := 10; Server.count_processed := 0;
     Server.created_date := Server.Present "2024-01-01T00:00:00.000Z";
     Server.modified_date := Server.Present "2024-03-01T00:00:00.000Z" |}.

Definition beta : Server.Rule :=
  {| Server.rule_id := "2"; Server.name := "Beta"; Server.description := "second";
     Server.query := "label:old"; Server.action := "archive";
     Server.is_active := Server.Present false;
     Server.max_results := 5; Server.count_processed := 3;
     Server.created_date := Server.Present "2024-02-01T00:00:00.000Z";
     Server.modified_date := Server.PyNone |}.

Definition kinds : list string :=
  ["sms"; "bank-sync"; "archive"; "email-forward"; "webhook"; "mark-read"].

Definition page : Page := loadRules kinds [alpha; beta].

Definition gamma : Server.Rule :=
  {| Server.rule_id := "3"; Server.name := "alpha"; Server.description := "third";
     Server.query := "is:unread"; Server.action := "webhook";
     Server.is_active := Server.Absent;
     Server.max_results := 1; Server.count_processed := 0;
     Server.created_date := Server.Present "2024-04-01T00:00:00.000Z";
     Server.modified_date := Server.Present "2024-05-01T12:30:00.000Z" |}.

(** A page on which every rule is dated. *)
Definition dated_page : Page := loadRules kinds [alpha; gamma].

(** The sidebar with the first of the two rules loaded. *)
Definition sidebar : Sidebar.State :=
  {| Sidebar.rulesData :=
       [{| Sidebar.rule_id := "1"; Sidebar.name := "Alpha";
           Sidebar.description := "first"; Sidebar.query := "from:bank";
           Sidebar.action := "sms" |}];
     Sidebar.rendered := [] |}.

(** The sidebar after both rules were drawn, the second rule's action being
    the name of a member every object inherits. *)
Definition sidebar_valueOf : Sidebar.State :=
  {| Sidebar.rulesData :=
       [{| Sidebar.rule_id := "1"; Sidebar.name := "Alpha";
           Sidebar.description := "first"; Sidebar.query := "from:bank";
           Sidebar.action := "sms" |};
        {| Sidebar.rule_id := "2"; Sidebar.name := "Beta";
           Sidebar.description := "second"; Sidebar.query := "label:old";
           Sidebar.action := "valueOf" |}];
     Sidebar.rendered :=
       [{| Sidebar.rule_id := "1"; Sidebar.name := "Alpha";
           Sidebar.description := "first"; Sidebar.query := "from:bank";
           Sidebar.action := "sms" |};
        {| Sidebar.rule_id := "2"; Sidebar.name := "Beta";
           Sidebar.description := "second"; Sidebar.query := "label:old";
           Sidebar.action := "valueOf" |}] |}.

(** Two rules whose names differ in case only. *)
Definition lower_a : Server.Rule :=
  {| Server.rule_id := "4"; Server.name := "a"; Server.description := "lower";
     Server.query := "is:read"; Server.action := "sms";
     Server.is_active := Server.Present true;
     Server.max_results := 1; Server.count_processed := 0;
     Server.created_date := Server.Present "2024-01-01T00:00:00.000Z";
     Server.modified_date := Server.Present "2024-01-01T00:00:00.000Z" |}.

Definition upper_a : Server.Rule :=
  {| Server.rule_id := "5"; Server.name := "A"; Server.description := "upper";
     Server.query := "is:read"; Server.action := "sms";
     Server.is_active := Server.Present true;
     Server.max_results := 1; Server.count_processed := 0;
     Server.created_date := Server.Present "2024-01-01T00:00:00.000Z";
     Server.modified_date := Server.Present "2024-01-01T00:00:00.000Z" |}.

(** The detail page of the first rule. *)
Definition detail : Detail.Page :=
  {| Detail.checked := true;
     Detail.status_text := Detail.text_for true;
     Detail.badges_before := [];
     Detail.status_badge := Detail.badge_for true;
     Detail.alerts := [];
     Detail.pending := [] |}.
End Scenario.

(** ** Statements that are put to the test below, for given built-ins *)

Module Stated.
Import Dashboard.

(** With no action box checked and All Types unchecked, the same rows are
    visible as with every action selected. *)
Definition empty_selection_unrestricted (B : Builtins) : Prop :=
  ∀ (kinds : list string) (rules : list Server.Rule) (evs : list Event),
    filterAll (run evs (loadRules kinds rules)) = false →
    actionFilters (run evs (loadRules kinds rules)) = [] →
    visible (filterRules (run evs (loadRules kinds rules)))
    = visible (filterRules
                (set_action_boxes true ((λ k, (k, true)) <$> kinds)
                   (run evs (loadRules kinds rules)))).

(** Whatever is shown after a search contains the search term in its
    lower-cased name, description or query: on the dashboard and in the
    sidebar. *)
Definition search_reads_three_fields (B : Builtins) : Prop :=
  (∀ (kinds : list string) (rules : list Server.Rule)
     (evs : list Event) (e : nat) (rule : Server.Rule),
     searchInput (run evs (loadRules kinds rules)) ≠ "" →
     rules !! e = Some rule →
     e ∈ visible (filterRules (run evs (loadRules kinds rules))) →
     let t := Js.trim (Js.toLowerCase (searchInput (run evs (loadRules kinds rules)))) in
     Js.includes (Js.toLowerCase (Server.name rule)) t = true
     ∨ Js.includes (Js.toLowerCase (Server.description rule)) t = true
     ∨ Js.includes (Js.toLowerCase (Server.query rule)) t = true)
  ∧ (∀ (st : Sidebar.State) (searchTerm : string) (rule : Sidebar.Rule),
       searchTerm ≠ "" →
       rule ∈ Sidebar.rendered (Sidebar.filterRules searchTerm st) →
       let t := Js.trim (Js.toLowerCase searchTerm) in
       Js.includes (Js.toLowerCase (Sidebar.name rule)) t = true
       ∨ Js.includes (Js.toLowerCase (Sidebar.description rule)) t = true
       ∨ Js.includes (Js.toLowerCase (Sidebar.query rule)) t = true).

(** After a sort by modification date the dated rules come newest first
    and every rule without a date comes after every rule with one. *)
Definition undated_rules_last (B : Builtins) : Prop :=
  ∀ (kinds : list string) (rules : list Server.Rule) (evs : list Event)
    (i j : nat) (a b : RowElem),
    row_list (sortRules "modified" (run evs (loadRules kinds rules))) !! i = Some a →
    row_list (sortRules "modified" (run evs (loadRules kinds rules))) !! j = Some b →
    (i < j)%nat →
    match modified_time a, modified_time b with
    | Some ta, Some tb => tb <= ta
    | Some _, None => True
    | None, Some _ => False
    | None, None => True
    end.

(** The names the rows show, in table order: row [e] was drawn from the
    [e]-th rule and shows its name. *)
Definition displayed_names (rules : list Server.Rule) (p : Page) : list string :=
  omap (λ e, Server.name <$> rules !! e) (tbody p).

(** After a sort by name the names of the rules are in non-decreasing
    order of [localeCompare], when that is a consistent comparator. *)
Definition sorted_by_displayed_name (B : Builtins) : Prop :=
  (∀ a b, Z.sgn (localeCompare b a) = - Z.sgn (localeCompare a b)) →
  (∀ a b c, localeCompare a b <= 0 → localeCompare b c <= 0 → localeCompare a c <= 0) →
  ∀ (kinds : list string) (rules : list Server.Rule) (evs : list Event),
    StronglySorted (λ a b, localeCompare a b <= 0)
      (displayed_names rules (sortRules "name" (run evs (loadRules kinds rules)))).

End Stated.

(** ** More of the dashboard: the other sort keys, and the template's look
    for a given state *)

Module DashboardExt.
Import Dashboard.

Section keys.
Context `{Builtins}.

(** Row [e] carries an action that collates equal to [s]. *)
Definition action_equiv (p : Page) (s : string) (e : nat) : bool :=
  match rows p !! e with
  | Some row => localeCompare s (dataset_action row) =? 0
  | None => false
  end.

(** The time value of a row's creation date. *)
Definition created_time (row : RowElem) : option Z :=
  Date_parse (dataset_created row).

(** [a] and [b] carry creation dates, and [a] is at least as new as [b]. *)
Definition created_newer_or_same (a b : RowElem) : Prop :=
  ∃ ta tb, created_time a = Some ta ∧ created_time b = Some tb ∧ tb <= ta.

(** Rows in action order, and where the actions tie in the order of the
    lower-cased names the rows carry ([data-name]). *)
Definition by_action_then_name (a b : RowElem) : Prop :=
  localeCompare (dataset_action a) (dataset_action b) <= 0
  ∧ (localeCompare (dataset_action b) (dataset_action a) <= 0 →
     localeCompare (dataset_name a) (dataset_name b) <= 0).

End keys.

(** The rule document with its flag set to [b]. *)
Definition with_active (b : bool) (rule : Server.Rule) : Server.Rule :=
  {| Server.rule_id := Server.rule_id rule;
     Server.name := Server.name rule;
     Server.description := Server.description rule;
     Server.query := Server.query rule;
     Server.action := Server.action rule;
     Server.is_active := Server.Present b;
     Server.max_results := Server.max_results rule;
     Server.count_processed := Server.count_processed rule;
     Server.created_date := Server.created_date rule;
     Server.modified_date := Server.modified_date rule |}.

(** The class of the action badge the templates write
    ([{% if rule.action == 'sms' %}bg-success{% elif ... %}]). *)
Definition badge_class (action : string) : string :=
  if String.eqb action "sms" then "bg-success"
  else if String.eqb action "bank-sync" then "bg-info"
  else if String.eqb action "archive" then "bg-warning"
  else if String.eqb action "email-forward" then "bg-primary"
  else if String.eqb action "webhook" then "bg-secondary"
  else if String.eqb action "mark-read" then "bg-dark"
  else "bg-dark".

(** The events that re-order the table: a choice of sort key. *)
Definition reorders (ev : Event) : bool :=
  match ev with
  | ChangeSort _ => true
  | _ => false
  end.

(** The count line shows the number of rows on display. *)
Definition count_shown (p : Page) : Prop :=
  rulesCount p = Some (length (visible p)).

(** The page with each of [msgs] shown in an alert, in turn. *)
Definition alert_all (msgs : list string) (p : Page) : Page :=
  foldl (λ q msg, alert msg q) p msgs.

(** A click on the switch of row [e] whose request then fails with [r]. *)
Definition failed_toggle (p : Page) (er : nat * FetchResult) : list Event :=
  [ChangeStatusSwitch er.1; FetchSettles (length (pending p)) er.2].

End DashboardExt.

(** ** The rest of the sidebar script: opening and closing, the list, the
    keyboard, the theme *)

Module Shell.

(** What [#sidebarContent] holds. *)
Inductive Content :=
| Placeholder                             (* as the page is delivered *)
| Notice (isFiltered : bool)              (* the note drawn for an empty list *)
| Items (rules : list Sidebar.Rule) (active : option nat)
    (* one item per rule; [active]: the item given the class [active] *)
| LoadError.                              (* the message of the [catch] *)

Record State := {
  sidebarOpen : bool;                     (* the script's flag *)
  rulesSidebar_open : bool;               (* [#rulesSidebar] has class [open] *)
  sidebarOverlay_show : bool;             (* [#sidebarOverlay] has class [show] *)
  mainContent_sidebar_open : bool;        (* [#mainContent] has class [sidebar-open] *)
  searchRules : string;                   (* value of [#searchRules] *)
  rulesData : list Sidebar.Rule;
  sidebarContent : Content;
  pathname : string;                      (* [window.location.pathname] *)
  fetching : nat;                         (* calls of [loadRulesList] not yet settled *)
}.

Definition set_open (b : bool) (s : State) : State :=
  {| sidebarOpen := b; rulesSidebar_open := b; sidebarOverlay_show := b;
     mainContent_sidebar_open := b; searchRules := searchRules s;
     rulesData := rulesData s; sidebarContent := sidebarContent s;
     pathname := pathname s; fetching := fetching s |}.

Definition set_searchRules (v : string) (s : State) : State :=
  {| sidebarOpen := sidebarOpen s; rulesSidebar_open := rulesSidebar_open s;
     sidebarOverlay_show := sidebarOverlay_show s;
     mainContent_sidebar_open := mainContent_sidebar_open s; searchRules := v;
     rulesData := rulesData s; sidebarContent := sidebarContent s;
     pathname := pathname s; fetching := fetching s |}.

Definition set_rulesData (d : list Sidebar.Rule) (s : State) : State :=
  {| sidebarOpen := sidebarOpen s; rulesSidebar_open := rulesSidebar_open s;
     sidebarOverlay_show := sidebarOverlay_show s;
     mainContent_sidebar_open := mainContent_sidebar_open s;
     searchRules := searchRules s; rulesData := d;
     sidebarContent := sidebarContent s;
     pathname := pathname s; fetching := fetching s |}.

Definition set_sidebarContent (c : Content) (s : State) : State :=
  {| sidebarOpen := sidebarOpen s; rulesSidebar_open := rulesSidebar_open s;
     sidebarOverlay_show := sidebarOverlay_show s;
     mainContent_sidebar_open := mainContent_sidebar_open s;
     searchRules := searchRules s; rulesData := rulesData s;
     sidebarContent := c;
     pathname := pathname s; fetching := fetching s |}.

Definition set_fetching (n : nat) (s : State) : State :=
  {| sidebarOpen := sidebarOpen s; rulesSidebar_open := rulesSidebar_open s;
     sidebarOverlay_show := sidebarOverlay_show s;
     mainContent_sidebar_open := mainContent_sidebar_open s;
     searchRules := searchRules s; rulesData := rulesData s;
     sidebarContent := sidebarContent s;
     pathname := pathname s; fetching := n |}.

(** The rules whose items are in the list. *)
Definition drawn (s : State) : list Sidebar.Rule :=
  match sidebarContent s with
  | Items rules _ => rules
  | _ => []
  end.

(** [s] without the prefix [pre], when it starts with it. *)
Fixpoint strip_prefix (pre s : string) : option string :=
  match pre, s with
  | EmptyString, _ => Some s
  | String a pre', String b s' =>
      if Ascii.eqb a b then strip_prefix pre' s' else None
  | String _ _, EmptyString => None
  end.

Fixpoint no_slash (s : string) : bool :=
  match s with
  | EmptyString => true
  | String c s' => negb (Ascii.eqb c "/") && no_slash s'
  end.

(** The number of [/] in [s]. *)
Fixpoint count_slash (s : string) : nat :=
  match s with
  | EmptyString => 0
  | String c s' => (if Ascii.eqb c "/" then 1 else 0) + count_slash s'
  end.

(** The regular expression [\/rule\/([^\/]+)$] tried at the start of [s]:
    the captured group, when [s] is [/rule/] followed by one or more
    characters other than [/] and nothing else. *)
Definition match_here (s : string) : option string :=
  match strip_prefix "/rule/" s with
  | Some x => if negb (String.eqb x "") && no_slash x then Some x else None
  | None => None
  end.

(** [path.match(...)]: the leftmost position at which the expression
    matches. *)
Fixpoint match_rule (path : string) : option string :=
  match match_here path with
  | Some x => Some x
  | None =>
      match path with
      | EmptyString => None
      | String _ rest => match_rule rest
      end
  end.

(** [getCurrentRuleId()] for a given [window.location.pathname]. *)
Definition getCurrentRuleId (path : string) : option string := match_rule path.

(** The address [selectRule(ruleId)] assigns to [window.location.href]; it
    is the next page's [pathname] as long as [ruleId] needs no escaping. *)
Definition selectRule (ruleId : string) : string := "/rule/" +:+ ruleId.

(** The index of the item [content.querySelector('[data-rule-id=...]')]
    finds for the current rule id: the first one carrying it. *)
Definition current_item (path : string) (rules : list Sidebar.Rule) : option nat :=
  match getCurrentRuleId path with
  | Some id => fst <$> list_find (λ rule, Sidebar.rule_id rule = id) rules
  | None => None
  end.

(** [renderRulesList(rules)]. *)
Definition renderRulesList (rules : list Sidebar.Rule) (s : State) : State :=
  match rules with
  | [] =>
      set_sidebarContent
        (Notice (negb (String.eqb (Js.trim (searchRules s)) ""))) s
  | _ => set_sidebarContent (Items rules (current_item (pathname s) rules)) s
  end.

(** [loadRulesList()] up to the fetch. *)
Definition loadRulesList (s : State) : State := set_fetching (S (fetching s)) s.

Definition openSidebar (s : State) : State :=
  loadRulesList (set_searchRules "" (set_open true s)).

Definition closeSidebar (s : State) : State := set_open false s.

Definition toggleSidebar (s : State) : State :=
  if sidebarOpen s then closeSidebar s else openSidebar s.

(** [filterRules(searchTerm)] with what it draws; an exception leaves the
    list as it was. *)
Definition filterRules (searchTerm : string) (s : State) : State :=
  let term := Js.trim (Js.toLowerCase searchTerm) in
  if String.eqb term "" then renderRulesList (rulesData s) s
  else
    match Sidebar.filter_rules term (rulesData s) with
    | Some filteredRules => renderRulesList filteredRules s
    | None => s
    end.

Definition clearSearch (s : State) : State :=
  renderRulesList (rulesData s) (set_searchRules "" s).

(** [names[action] || action] for an action that names no inherited
    member. *)
Definition action_name (action : string) : string :=
  default action (list_to_map (M := gmap string string) Sidebar.names !! action).

(** The test of the search on one rule, where nothing throws. *)
Definition hits (term : string) (rule : Sidebar.Rule) : bool :=
  Js.includes (Js.toLowerCase (Sidebar.name rule)) term
  || Js.includes (Js.toLowerCase (Sidebar.description rule)) term
  || Js.includes (Js.toLowerCase (Sidebar.query rule)) term
  || Js.includes (Js.toLowerCase (Sidebar.action rule)) term
  || Js.includes (Js.toLowerCase (action_name (Sidebar.action rule))) term.

(** What the user and the network can do to the sidebar. *)
Inductive Event :=
| ClickToggle                 (* the list button or the sidebar's close button *)
| ClickOverlay                (* a click beside the sidebar *)
| KeyUp (value : string)      (* a key released in the search box holding [value] *)
| ClickClear                  (* the Clear Search button of the note *)
| KeyEscape
| KeyCtrlSlash
| RulesArrive (data : list Sidebar.Rule)   (* a fetch of the list succeeds *)
| RulesFail.                  (* a fetch of the list rejects, or its body does *)

Definition step (ev : Event) (s : State) : State :=
  match ev with
  | ClickToggle => toggleSidebar s
  | ClickOverlay => closeSidebar s
  | KeyUp value => filterRules value (set_searchRules value s)
  | ClickClear => clearSearch s
  | KeyEscape =>
      if sidebarOpen s then
        if negb (String.eqb (Js.trim (searchRules s)) "") then clearSearch s
        else closeSidebar s
      else s
  | KeyCtrlSlash => if sidebarOpen s then s else openSidebar s
  | RulesArrive data =>
      match fetching s with
      | O => s
      | S n => renderRulesList data (set_rulesData data (set_fetching n s))
      end
  | RulesFail =>
      match fetching s with
      | O => s
      | S n => set_sidebarContent LoadError (set_fetching n s)
      end
  end.

Definition run (evs : list Event) (s : State) : State :=
  foldl (λ q ev, step ev q) s evs.

(** The sidebar as the page delivers it, at address [path]. *)
Definition init (path : string) : State :=
  {| sidebarOpen := false; rulesSidebar_open := false;
     sidebarOverlay_show := false; mainContent_sidebar_open := false;
     searchRules := ""; rulesData := []; sidebarContent := Placeholder;
     pathname := path; fetching := 0 |}.

(** The flag and the three classes say the same. *)
Definition in_step (s : State) : Prop :=
  rulesSidebar_open s = sidebarOpen s
  ∧ sidebarOverlay_show s = sidebarOpen s
  ∧ mainContent_sidebar_open s = sidebarOpen s.

Definition classes : list (string * string) :=
  [("sms", "bg-success"); ("bank-sync", "bg-info"); ("archive", "bg-warning");
   ("email-forward", "bg-primary"); ("webhook", "bg-secondary");
   ("mark-read", "bg-dark")].

(** [getActionBadgeClass(action)], i.e. [classes[action] || 'bg-dark'];
    [None] when the result is not a string. *)
Definition getActionBadgeClass (action : string) : option string :=
  match list_to_map (M := gmap string string) classes !! action with
  | Some c => Some c
  | None => if bool_decide (action ∈ Sidebar.inherited) then None else Some "bg-dark"
  end.

(** The first [n] characters, [s.substring(0, n)]. *)
Fixpoint substring0 (n : nat) (s : string) : string :=
  match n, s with
  | S n', String c s' => String c (substring0 n' s')
  | _, _ => EmptyString
  end.

(** The description as an item shows it. *)
Definition preview (description : string) : string :=
  if (60 <? String.length description)%nat
  then substring0 60 description +:+ "..."
  else description.

(** A number in a template literal. *)
Definition show (x : Js.number) : string :=
  match x with
  | Some v => NilZero.string_of_int (Z.to_int v)
  | None => "NaN"
  end.

(** [Math.floor(x / d)] for a positive integer [d], on the integers (which
    is what the engine computes for the time differences it holds
    exactly). *)
Definition floor_div (x : Js.number) (d : Z) : Js.number := (λ v, v / d) <$> x.

(** [x > 0]; false for NaN. *)
Definition positive (x : Js.number) : bool :=
  match x with
  | Some v => 0 <? v
  | None => false
  end.

(** [formatRelativeDate(dateValue)] at the time [now].  [dateValue] is given
    by what the function asks of it: [None] when it is falsy, else the time
    value of the date built from it ([Some None] for an Invalid Date). *)
Definition formatRelativeDate (now : Z) (dateValue : option Js.number) : string :=
  match dateValue with
  | None => "Unknown"
  | Some date =>
      let diffMs := Js.date_sub (Some now) date in
      let diffDays := floor_div diffMs (1000 * 60 * 60 * 24) in
      let diffHours := floor_div diffMs (1000 * 60 * 60) in
      let diffMins := floor_div diffMs (1000 * 60) in
      if positive diffDays then show diffDays +:+ "d ago"
      else if positive diffHours then show diffHours +:+ "h ago"
      else if positive diffMins then show diffMins +:+ "m ago"
      else "Just now"
  end.

(** The theme: the class [dark-mode] of the body and the [theme] entry of
    [localStorage]. *)
Record Theme := {
  dark_mode : bool;
  theme : option string;
}.

(** [setupDarkModeToggle()] on a fresh page, with the stored entry [saved]
    and the system preference [prefersDark]. *)
Definition setupDarkModeToggle (prefersDark : bool) (saved : option string) : Theme :=
  {| dark_mode :=
       match saved with
       | Some t => String.eqb t "dark" || (negb (Js.truthy_str t) && prefersDark)
       | None => prefersDark
       end;
     theme := saved |}.

(** A click on [#themeToggle]. *)
Definition themeToggle_click (t : Theme) : Theme :=
  {| dark_mode := negb (dark_mode t);
     theme := Some (if negb (dark_mode t) then "dark" else "light") |}.

End Shell.

(** Two rules as [/api/rules] returns them, used in the examples below. *)
Module Listed.

Definition alpha : Sidebar.Rule :=
  {| Sidebar.rule_id := "1"; Sidebar.name := "Alpha";
     Sidebar.description := "first"; Sidebar.query := "from:bank";
     Sidebar.action := "sms" |}.

Definition beta : Sidebar.Rule :=
  {| Sidebar.rule_id := "2"; Sidebar.name := "Beta";
     Sidebar.description := "second"; Sidebar.query := "label:old";
     Sidebar.action := "archive" |}.

(** The sidebar of the page [/rule/2], opened, with both rules loaded. *)
Definition loaded : Shell.State :=
  Shell.run [Shell.ClickToggle; Shell.RulesArrive [alpha; beta]] (Shell.init "/rule/2").

End Listed.

(** * Properties *)

(** ** The model on small inputs *)

Example toLowerCase_ex : Js.toLowerCase "Alpha-1 Z" = "alpha-1 z".
Proof. reflexivity. Qed.

Example trim_ex : Js.trim "  a b	 " = "a b".
Proof. reflexivity. Qed.

Example includes_ex : Js.includes "bank-sync" "k-s" = true ∧ Js.includes "bank" "" = true
  ∧ Js.includes "bank" "bann" = false.
Proof. repeat split; reflexivity. Qed.

Example sort_ex :
  Js.sort (λ a b : Z, Some (a - b)) [3; 1; 2; 1] = [1; 1; 2; 3].
Proof. reflexivity. Qed.

Example parse_iso_ex :
  Sample.parse_iso "2024-01-01T00:00:00.000Z" = Some 1704067200000
  ∧ Sample.parse_iso "1970-01-01T00:00:01.500Z" = Some 1500
  ∧ Sample.parse_iso "None" = None ∧ Sample.parse_iso "" = None.
Proof. repeat split; reflexivity. Qed.

Example getActionName_ex :
  Sidebar.getActionName "sms" = Some "SMS"
  ∧ Sidebar.getActionName "custom" = Some "custom"
  ∧ Sidebar.getActionName "toString" = None.
Proof. repeat split; vm_compute; reflexivity. Qed.

Example scenario_loaded :
  Dashboard.rulesCount Scenario.page = Some 2%nat
  ∧ Dashboard.visible Scenario.page = [0; 1]%nat.
Proof. vm_compute. done. Qed.

(** ** Strings *)

Lemma app_cons (c : ascii) (t b : string) : String c t +:+ b = String c (t +:+ b).
Proof. reflexivity. Qed.

Lemma app_empty (b : string) : "" +:+ b = b.
Proof. reflexivity. Qed.

Lemma prefix_app (t s : string) :
  String.prefix t s = true ↔ ∃ b, s = t +:+ b.
Proof.
  revert s. induction t as [|c t IH]; intros s; simpl.
  - split; [intros _; by exists s | by destruct s].
  - destruct s as [|c' s]; simpl.
    + split; [done | intros [b Hb]; rewrite app_cons in Hb; discriminate].
    + destruct (Ascii.ascii_dec c c') as [->|Hne].
      * rewrite IH. split; intros [b Hb]; exists b; rewrite app_cons in *; congruence.
      * split; [done | intros [b Hb]; rewrite app_cons in Hb; congruence].
Qed.

(** [includes] decides the substring relation. *)
Lemma includes_spec (s t : string) :
  Js.includes s t = true ↔ ∃ a b, s = a +:+ t +:+ b.
Proof.
  induction s as [|c s IH].
  - change (Js.includes "" t) with (String.prefix t "" || false).
    rewrite orb_false_r, prefix_app. split.
    + intros [b Hb]. by exists EmptyString, b.
    + intros [a [b Hab]]. destruct a; [by exists b | rewrite app_cons in Hab; discriminate].
  - change (Js.includes (String c s) t)
      with (String.prefix t (String c s) || Js.includes s t).
    rewrite orb_true_iff, prefix_app, IH. split.
    + intros [[b Hb]|[a [b Hab]]].
      * by exists EmptyString, b.
      * exists (String c a), b. rewrite app_cons. by rewrite Hab.
    + intros [a [b Hab]]. destruct a as [|c' a].
      * left. by exists b.
      * right. exists a, b. rewrite app_cons in Hab. congruence.
Qed.

Lemma includes_empty (s : string) : Js.includes s "" = true.
Proof. destruct s; reflexivity. Qed.

Lemma or_default_empty (s : string) : Js.or_default s "" = s.
Proof. unfold Js.or_default, Js.truthy_str. by destruct s. Qed.

Lemma eqb_true (a b : string) : String.eqb a b = true ↔ a = b.
Proof. apply String.eqb_eq. Qed.

(** ** The sort *)

Section sort.
Context {A : Type} (comparefn : A → A → Js.number).

Local Abbreviation le := (Js.le comparefn).

Lemma insert_perm x l : Js.insert comparefn x l ≡ₚ x :: l.
Proof.
  induction l as [|y l IH]; simpl; [done|].
  destruct (_ <=? 0); [done|]. rewrite IH. apply Permutation_swap.
Qed.

Lemma sort_perm l : Js.sort comparefn l ≡ₚ l.
Proof.
  induction l as [|x l IH]; simpl; [done|]. by rewrite insert_perm, IH.
Qed.

Lemma sort_fixed l : Sorted le l → Js.sort comparefn l = l.
Proof.
  induction 1 as [|x l Hs IH Hhd]; simpl; [done|].
  rewrite IH. destruct Hhd as [|y l Hxy]; simpl; [done|].
  unfold Js.le in Hxy. by rewrite (proj2 (Z.leb_le _ _) Hxy).
Qed.

Section total.
Hypothesis total : ∀ x y, le x y ∨ le y x.

Lemma insert_sorted x l : Sorted le l → Sorted le (Js.insert comparefn x l).
Proof.
  induction 1 as [|y l Hs IH Hhd]; simpl.
  - repeat constructor.
  - destruct (Z.leb_spec (Js.SortCompare comparefn x y) 0) as [Hle|Hgt].
    + constructor; [by constructor | by constructor].
    + constructor; [done|].
      assert (le y x) as Hyx by (destruct (total x y) as [Hxy|]; [unfold Js.le in Hxy; lia | done]).
      destruct Hhd as [|z l Hyz]; simpl; [by constructor|].
      destruct (_ <=? 0); by constructor.
Qed.

Lemma sort_sorted l : Sorted le (Js.sort comparefn l).
Proof. induction l; simpl; [constructor | by apply insert_sorted]. Qed.

Lemma sort_idemp l :
  Js.sort comparefn (Js.sort comparefn l) = Js.sort comparefn l.
Proof. apply sort_fixed, sort_sorted. Qed.
End total.

(** Stability: the elements that satisfy [P] keep their order, provided
    two of them never compare as strictly out of order. *)
Lemma insert_filter (P : A → Prop) `{!∀ x, Decision (P x)} x l :
  (∀ y, P x → P y → le x y) →
  filter P (Js.insert comparefn x l) = filter P (x :: l).
Proof.
  intros HP. induction l as [|y l IH]; simpl; [done|].
  destruct (Z.leb_spec (Js.SortCompare comparefn x y) 0) as [Hle|Hgt]; [done|].
  rewrite !filter_cons in *.
  destruct (decide (P y)) as [Hy|Hy], (decide (P x)) as [Hx|Hx];
    try (rewrite IH; done).
  specialize (HP y Hx Hy). unfold Js.le in HP. lia.
Qed.

Lemma sort_filter (P : A → Prop) `{!∀ x, Decision (P x)} l :
  (∀ x y, P x → P y → le x y) →
  filter P (Js.sort comparefn l) = filter P l.
Proof.
  intros HP. induction l as [|x l IH]; simpl; [done|].
  rewrite insert_filter by eauto. rewrite !filter_cons, IH. done.
Qed.
End sort.

(** ** The loop of [filterRules] *)

Section filter_loop.
Import Dashboard.
Context (t : string) (all : bool) (acts stats : list string).

Local Abbreviation f := (filter_rule t all acts stats).
Local Abbreviation m := (matches t all acts stats).

Lemma filter_rule_fst st r :
  (f st r).1 = alter (set_display (display_for (m r))) (element r) st.1.
Proof. unfold filter_rule. by destruct (m r). Qed.

Lemma filter_rule_snd st r :
  (f st r).2 = (st.2 + if m r then 1 else 0)%nat.
Proof. unfold filter_rule. destruct (m r); simpl; lia. Qed.

Lemma loop_count rs st :
  (foldl f st rs).2 = (st.2 + length (filter (λ r, m r = true) rs))%nat.
Proof.
  revert st. induction rs as [|r rs IH]; intros st; simpl; [lia|].
  rewrite IH, filter_rule_snd, filter_cons.
  destruct (m r) eqn:Hm; case_decide; simpl; try congruence; lia.
Qed.

Lemma loop_lookup_notin rs st e :
  e ∉ element <$> rs → (foldl f st rs).1 !! e = st.1 !! e.
Proof.
  revert st. induction rs as [|r rs IH]; intros st Hin; simpl; [done|].
  rewrite fmap_cons, not_elem_of_cons in Hin. destruct Hin as [Hne Hin].
  rewrite IH by done. rewrite filter_rule_fst. by rewrite lookup_alter_ne.
Qed.

Lemma loop_lookup_in rs st r :
  NoDup (element <$> rs) → r ∈ rs →
  (foldl f st rs).1 !! element r
  = set_display (display_for (m r)) <$> st.1 !! element r.
Proof.
  revert st. induction rs as [|r' rs IH]; intros st Hnd Hin; [by inversion Hin|].
  rewrite fmap_cons, NoDup_cons in Hnd. destruct Hnd as [Hfresh Hnd].
  simpl. apply elem_of_cons in Hin as [->|Hin].
  - rewrite loop_lookup_notin by done.
    by rewrite filter_rule_fst, lookup_alter_eq.
  - rewrite IH by done. rewrite filter_rule_fst, lookup_alter_ne; [done|].
    intros Heq. apply Hfresh. rewrite Heq. by apply list_elem_of_fmap_2.
Qed.

(** The loop writes nothing but [style.display]. *)
Lemma loop_pres (Q : nat → RowElem → Prop) rs st :
  (∀ e row d, Q e row → Q e (set_display d row)) →
  map_Forall Q st.1 → map_Forall Q (foldl f st rs).1.
Proof.
  intros HQ. revert st. induction rs as [|r rs IH]; intros st Hst; simpl; [done|].
  apply IH. rewrite filter_rule_fst. intros e row.
  rewrite lookup_alter_Some. intros [(Heq & row0 & Hrow0 & ->)|[_ Hrow]].
  - by apply HQ, Hst.
  - by apply Hst.
Qed.

Lemma loop_is_Some rs st e :
  is_Some ((foldl f st rs).1 !! e) ↔ is_Some (st.1 !! e).
Proof.
  revert st. induction rs as [|r rs IH]; intros st; simpl; [done|].
  rewrite IH, filter_rule_fst.
  destruct (decide (element r = e)) as [->|Hne].
  - rewrite lookup_alter_eq. apply fmap_is_Some.
  - by rewrite lookup_alter_ne.
Qed.
End filter_loop.

(** ** What [filterRules] leaves alone, and what it computes *)

Section filterRules_fields.
Import Dashboard.
Implicit Types p : Page.

Lemma filterRules_tbody p : tbody (filterRules p) = tbody p.
Proof. unfold filterRules. destruct (allRules p) eqn:E; simpl; by rewrite ?E. Qed.

Lemma filterRules_allRules p : allRules (filterRules p) = loop_rules p.
Proof. unfold filterRules, loop_rules. destruct (allRules p) eqn:E; simpl; by rewrite ?E. Qed.

Lemma filterRules_searchInput p : searchInput (filterRules p) = searchInput p.
Proof. unfold filterRules. destruct (allRules p) eqn:E; simpl; by rewrite ?E. Qed.

Lemma filterRules_filterAll p : filterAll (filterRules p) = filterAll p.
Proof. unfold filterRules. destruct (allRules p) eqn:E; simpl; by rewrite ?E. Qed.

Lemma filterRules_action_filter p : action_filter (filterRules p) = action_filter p.
Proof. unfold filterRules. destruct (allRules p) eqn:E; simpl; by rewrite ?E. Qed.

Lemma filterRules_filterActive p : filterActive (filterRules p) = filterActive p.
Proof. unfold filterRules. destruct (allRules p) eqn:E; simpl; by rewrite ?E. Qed.

Lemma filterRules_filterInactive p : filterInactive (filterRules p) = filterInactive p.
Proof. unfold filterRules. destruct (allRules p) eqn:E; simpl; by rewrite ?E. Qed.

Lemma filterRules_alerts p : alerts (filterRules p) = alerts p.
Proof. unfold filterRules. destruct (allRules p) eqn:E; simpl; by rewrite ?E. Qed.

Lemma filterRules_pending p : pending (filterRules p) = pending p.
Proof. unfold filterRules. destruct (allRules p) eqn:E; simpl; by rewrite ?E. Qed.

Lemma filterRules_rows p : rows (filterRules p) = (loop_result p).1.
Proof. unfold filterRules, loop_result, loop_rules. destruct (allRules p) eqn:E; simpl; by rewrite ?E. Qed.

Lemma filterRules_rulesCount p :
  rulesCount (filterRules p)
  = match rulesCount p with Some _ => Some (loop_result p).2 | None => None end.
Proof. unfold filterRules, loop_result, loop_rules. destruct (allRules p) eqn:E; simpl; by rewrite ?E. Qed.

Lemma snapshot_elements p :
  (∀ e, e ∈ tbody p → is_Some (rows p !! e)) →
  element <$> snapshot p = tbody p.
Proof.
  unfold snapshot. induction (tbody p) as [|e l IH]; intros Hdom; simpl; [done|].
  destruct (Hdom e) as [row Hrow]; [left|]. rewrite Hrow. simpl.
  f_equal. apply IH. intros e' He'. apply Hdom. by right.
Qed.

Lemma snapshot_lookup p r :
  r ∈ snapshot p →
  ∃ row, rows p !! element r = Some row ∧ r = rule_of_row (element r) row.
Proof.
  unfold snapshot. rewrite list_elem_of_omap.
  intros (e & _ & Hr). destruct (rows p !! e) as [row|] eqn:Hrow; simplify_eq/=.
  eauto.
Qed.

Lemma rule_of_row_obj rules e row :
  row_of_rule rules e row → obj_of_rule rules (rule_of_row e row).
Proof.
  intros (rule & Hrule & Hn & Hd & Ha & Hq). exists rule. simpl.
  rewrite !or_default_empty. by rewrite Hn, Hd, Ha, Hq.
Qed.

Lemma snapshot_objs rules p :
  map_Forall (row_of_rule rules) (rows p) → Forall (obj_of_rule rules) (snapshot p).
Proof.
  intros Hrows. apply Forall_forall. intros r Hr.
  apply snapshot_lookup in Hr as (row & Hrow & ->).
  apply rule_of_row_obj. by apply Hrows.
Qed.

Lemma inv_loop_rules rules p : inv rules p → loop_rules p = allRules p.
Proof.
  intros Hinv. unfold loop_rules. destruct (allRules p) eqn:Hall; [|done].
  pose proof (inv_all _ _ Hinv) as Htb. rewrite Hall in Htb. simpl in Htb.
  unfold snapshot. by rewrite <- Htb.
Qed.

Lemma row_of_rule_display rules e row d :
  row_of_rule rules e row → row_of_rule rules e (set_display d row).
Proof. done. Qed.

Lemma inv_filterRules rules p : inv rules p → inv rules (filterRules p).
Proof.
  intros Hinv. pose proof (inv_loop_rules _ _ Hinv) as Hloop.
  destruct Hinv as [Hnd Hdom Hall Hlen Hcnt Hrows Hobjs]. split.
  - by rewrite filterRules_tbody.
  - intros e. rewrite filterRules_tbody, filterRules_rows. unfold loop_result.
    by rewrite loop_is_Some.
  - by rewrite filterRules_allRules, filterRules_tbody, Hloop.
  - by rewrite filterRules_tbody.
  - rewrite filterRules_rulesCount, Hcnt. by destruct (rulesCount p).
  - rewrite filterRules_rows. apply loop_pres; [|done].
    intros. by apply row_of_rule_display.
  - by rewrite filterRules_allRules, Hloop.
Qed.
End filterRules_fields.

(** ** The invariant of the dashboard *)

Section invariant.
Import Dashboard.
Context `{Builtins}.
Implicit Types (p : Page) (rules : list Server.Rule).

Lemma inv_set_searchInput rules s p : inv rules p → inv rules (set_searchInput s p).
Proof. by destruct 1. Qed.

Lemma inv_set_action_boxes rules a b p : inv rules p → inv rules (set_action_boxes a b p).
Proof. by destruct 1. Qed.

Lemma inv_set_status_boxes rules a b p : inv rules p → inv rules (set_status_boxes a b p).
Proof. by destruct 1. Qed.

Lemma inv_alert rules msg p : inv rules p → inv rules (alert msg p).
Proof. by destruct 1. Qed.

Lemma inv_set_pending rules q p : inv rules p → inv rules (set_pending q p).
Proof. by destruct 1. Qed.

Lemma inv_alter rules (g : RowElem → RowElem) e p :
  (∀ e row, row_of_rule rules e row → row_of_rule rules e (g row)) →
  inv rules p → inv rules (set_rows (alter g e) p).
Proof.
  intros Hg [Hnd Hdom Hall Hlen Hcnt Hrows Hobjs]. split; simpl; try done.
  - intros e'. rewrite Hdom. destruct (decide (e = e')) as [->|Hne].
    + by rewrite lookup_alter_eq, fmap_is_Some.
    + by rewrite lookup_alter_ne.
  - intros e' row. rewrite lookup_alter_Some.
    intros [(-> & row0 & Hrow0 & ->)|[_ Hrow]]; [apply Hg|]; by apply Hrows.
Qed.

Lemma elems_fst p :
  (∀ e, e ∈ tbody p → is_Some (rows p !! e)) →
  (rule_rows p).*1 = tbody p.
Proof.
  unfold rule_rows. induction (tbody p) as [|e l IH]; intros Hdom; simpl; [done|].
  destruct (Hdom e) as [row Hrow]; [left|]. rewrite Hrow. simpl.
  f_equal. apply IH. intros e' He'. apply Hdom. by right.
Qed.

Lemma elems_lookup p e row :
  (e, row) ∈ rule_rows p →
  e ∈ tbody p ∧ rows p !! e = Some row.
Proof.
  unfold rule_rows. rewrite list_elem_of_omap. intros (e' & He' & Heq).
  destruct (rows p !! e') eqn:Hrow; simplify_eq/=. done.
Qed.

Lemma sortRules_rows sortBy p : rows (sortRules sortBy p) = rows p.
Proof. done. Qed.

Lemma sortRules_tbody_perm sortBy p :
  (∀ e, e ∈ tbody p → is_Some (rows p !! e)) →
  tbody (sortRules sortBy p) ≡ₚ tbody p.
Proof.
  intros Hdom. simpl. rewrite sort_perm. by rewrite elems_fst.
Qed.

Lemma inv_sortRules rules sortBy p : inv rules p → inv rules (sortRules sortBy p).
Proof.
  intros [Hnd Hdom Hall Hlen Hcnt Hrows Hobjs].
  assert (tbody (sortRules sortBy p) ≡ₚ tbody p) as Hperm.
  { apply sortRules_tbody_perm. intros e. apply Hdom. }
  assert (∀ e, e ∈ tbody (sortRules sortBy p) ↔ is_Some (rows p !! e)) as Hdom'.
  { intros e. by rewrite Hperm. }
  split.
  - by rewrite Hperm.
  - done.
  - apply (snapshot_elements (set_tbody _ p)). intros e. apply Hdom'.
  - by rewrite Hperm.
  - done.
  - done.
  - by apply (snapshot_objs rules (set_tbody _ p)).
Qed.

Lemma row_of_rule_checked rules e row c :
  row_of_rule rules e row → row_of_rule rules e (set_checked c row).
Proof. done. Qed.

Lemma row_of_rule_restyle rules e row s on :
  row_of_rule rules e row →
  row_of_rule rules e (set_dataset_active s (restyle on row)).
Proof. done. Qed.

Lemma inv_toggleRuleStatus_begin rules id e p :
  inv rules p → inv rules (toggleRuleStatus_begin id e p).
Proof.
  intros Hinv. unfold toggleRuleStatus_begin.
  destruct (rows p !! e); [by apply inv_set_pending | done].
Qed.

Lemma inv_toggleRuleStatus_settle rules t r p :
  inv rules p → inv rules (toggleRuleStatus_settle t r p).
Proof.
  intros Hinv. unfold toggleRuleStatus_settle.
  destruct r as [msg|[] [msg|v]]; try apply inv_alert; apply inv_alter; try done;
    intros; by (apply row_of_rule_checked || apply row_of_rule_restyle).
Qed.

Lemma inv_step rules ev p : inv rules p → inv rules (step ev p).
Proof.
  intros Hinv. destruct ev as [s| |i|[]|value|e|k r]; simpl.
  - by apply inv_filterRules, inv_set_searchInput.
  - by apply inv_filterRules, inv_set_action_boxes, inv_filterRules, inv_set_action_boxes.
  - destruct (action_filter p !! i); [|done].
    by apply inv_filterRules, inv_set_action_boxes, inv_filterRules, inv_set_action_boxes.
  - by apply inv_filterRules, inv_set_status_boxes.
  - by apply inv_filterRules, inv_set_status_boxes.
  - by apply inv_sortRules.
  - destruct (rows p !! e); [|done].
    apply inv_toggleRuleStatus_begin, inv_alter; [|done].
    intros. by apply row_of_rule_checked.
  - destruct (pending p !! k); [|done].
    by apply inv_toggleRuleStatus_settle, inv_set_pending.
Qed.

Lemma inv_run rules evs p : inv rules p → inv rules (run evs p).
Proof.
  revert p. induction evs as [|ev evs IH]; intros p Hinv; simpl; [done|].
  by apply IH, inv_step.
Qed.

Lemma render_lookup kinds rules e :
  rows (render kinds rules) !! e = render_row <$> rules !! e.
Proof. simpl. by rewrite lookup_map_seq_0, list_lookup_fmap. Qed.

Lemma inv_loadRules kinds rules : inv rules (loadRules kinds rules).
Proof.
  apply inv_filterRules.
  assert (∀ e, e ∈ tbody (render kinds rules)
               ↔ is_Some (rows (render kinds rules) !! e)) as Hdom.
  { intros e. rewrite render_lookup, fmap_is_Some, lookup_lt_is_Some. simpl.
    rewrite elem_of_seq. lia. }
  assert (map_Forall (row_of_rule rules) (rows (render kinds rules))) as Hrows.
  { intros e row. rewrite render_lookup.
    destruct (rules !! e) as [rule|] eqn:Hrule; intros ?; simplify_eq/=.
    by exists rule. }
  split.
  - apply NoDup_seq.
  - done.
  - apply (snapshot_elements (render kinds rules)). intros e. apply Hdom.
  - simpl. by rewrite length_seq.
  - simpl. destruct rules; split; (done || by intros []).
  - done.
  - by apply (snapshot_objs rules (render kinds rules)).
Qed.

Lemma inv_reachable kinds rules evs : inv rules (run evs (loadRules kinds rules)).
Proof. apply inv_run, inv_loadRules. Qed.
End invariant.

(** ** The rows [filterRules] shows and the count it writes *)

Section visible.
Import Dashboard.
Implicit Types (p : Page) (rules : list Server.Rule).

(** Whether the rule passes the filters the controls of [p] stand for. *)
Local Abbreviation passes p :=
  (matches (Js.trim (Js.toLowerCase (searchInput p))) (filterAll p)
     (actionFilters p) (statusFilters p)).

Lemma filterRules_shown rules p r :
  inv rules p → r ∈ allRules p →
  shown (filterRules p) (element r) = passes p r.
Proof.
  intros Hinv Hr. unfold shown. rewrite filterRules_rows. unfold loop_result.
  rewrite (inv_loop_rules _ _ Hinv).
  rewrite loop_lookup_in; [| by rewrite (inv_all _ _ Hinv); apply (inv_nodup _ _ Hinv) | done].
  simpl. assert (is_Some (rows p !! element r)) as [row ->].
  { apply (inv_dom _ _ Hinv). rewrite <- (inv_all _ _ Hinv).
    by apply list_elem_of_fmap_2. }
  simpl. by destruct (passes p r).
Qed.

Lemma filter_fmap_element (g : nat → bool) (h : RuleObj → bool) (rs : list RuleObj) :
  (∀ r, r ∈ rs → g (element r) = h r) →
  filter (λ e, g e = true) (element <$> rs)
  = element <$> filter (λ r, h r = true) rs.
Proof.
  induction rs as [|r rs IH]; intros Hgh; [done|].
  rewrite fmap_cons, !filter_cons, IH by (intros; apply Hgh; by right).
  rewrite (Hgh r) by left. by destruct (decide (h r = true)).
Qed.

Lemma filterRules_visible rules p :
  inv rules p →
  visible (filterRules p) = element <$> filter (λ r, passes p r = true) (allRules p).
Proof.
  intros Hinv. unfold visible.
  rewrite filterRules_tbody, <- (inv_all _ _ Hinv).
  apply filter_fmap_element. intros r Hr. by eapply filterRules_shown.
Qed.

Lemma filterRules_visibleCount rules p :
  inv rules p →
  (loop_result p).2 = length (visible (filterRules p)).
Proof.
  intros Hinv. rewrite (filterRules_visible rules) by done.
  rewrite length_fmap. unfold loop_result.
  by rewrite loop_count, (inv_loop_rules _ _ Hinv).
Qed.

(** After [filterRules] the count line shows the number of visible rows. *)
Lemma filterRules_count rules p :
  inv rules p → rules ≠ [] →
  rulesCount (filterRules p) = Some (length (visible (filterRules p))).
Proof.
  intros Hinv Hne. rewrite filterRules_rulesCount.
  apply (inv_count _ _ Hinv) in Hne as [c ->].
  by rewrite (filterRules_visibleCount rules).
Qed.

Lemma filterRules_no_count rules p :
  inv rules p → rules = [] → rulesCount (filterRules p) = None.
Proof.
  intros Hinv Hnil. rewrite filterRules_rulesCount.
  destruct (rulesCount p) eqn:Hc; [|done].
  assert (rules ≠ []) by (apply (inv_count _ _ Hinv); by rewrite Hc). done.
Qed.

Lemma filter_none {A} (P : A → Prop) `{!∀ x, Decision (P x)} (l : list A) :
  (∀ x, x ∈ l → ¬ P x) → filter P l = [].
Proof.
  induction l as [|x l IH]; intros HP; [done|].
  rewrite filter_cons, decide_False by (apply HP; left).
  apply IH. intros y Hy. apply HP. by right.
Qed.

Lemma filter_all {A} (P : A → Prop) `{!∀ x, Decision (P x)} (l : list A) :
  (∀ x, x ∈ l → P x) → filter P l = l.
Proof.
  induction l as [|x l IH]; intros HP; [done|].
  rewrite filter_cons, decide_True by (apply HP; left).
  f_equal. apply IH. intros y Hy. apply HP. by right.
Qed.
End visible.

(** ** All Types and the action boxes *)

Section boxes.
Import Dashboard.
Context `{Builtins}.

Lemma forallb_const (b : bool) (l : list (string * bool)) :
  forallb snd ((λ cb, (cb.1, b)) <$> l) = match l with [] => true | _ => b end.
Proof.
  induction l as [|cb l IH]; [done|].
  rewrite fmap_cons. simpl. rewrite IH. destruct l, b; done.
Qed.

Lemma toggleRuleStatus_begin_boxes id e p :
  action_filter (toggleRuleStatus_begin id e p) = action_filter p
  ∧ filterAll (toggleRuleStatus_begin id e p) = filterAll p.
Proof. unfold toggleRuleStatus_begin. by destruct (rows p !! e). Qed.

Lemma toggleRuleStatus_settle_boxes t r p :
  action_filter (toggleRuleStatus_settle t r p) = action_filter p
  ∧ filterAll (toggleRuleStatus_settle t r p) = filterAll p.
Proof. by destruct r as [msg|[] [msg|v]]. Qed.

Local Ltac fields :=
  rewrite ?filterRules_action_filter, ?filterRules_filterAll;
  cbn [action_filter filterAll set_searchInput set_action_boxes set_status_boxes].

Lemma boxes_inv_step kinds ev p : boxes_inv kinds p → boxes_inv kinds (step ev p).
Proof.
  intros [Hlen Hall]. unfold boxes_inv.
  destruct ev as [s| |i|[]|value|e|k r]; cbn [step]; try (by repeat fields).
  - repeat fields. rewrite length_fmap. split; [done|]. intros Hne.
    rewrite forallb_const. destruct (action_filter p); [|done].
    destruct kinds; done.
  - destruct (action_filter p !! i) as [cb|]; [|done]. repeat fields.
    by rewrite length_insert.
  - destruct (rows p !! e); [|done].
    destruct (toggleRuleStatus_begin_boxes (onchange_ruleId r) e
                (set_rows (alter (set_checked (negb (checked r))) e) p)) as [-> ->].
    done.
  - destruct (pending p !! k) as [t|]; [|done].
    destruct (toggleRuleStatus_settle_boxes t r (set_pending (delete k (pending p)) p))
      as [-> ->].
    done.
Qed.

Lemma boxes_inv_loadRules kinds rules : boxes_inv kinds (loadRules kinds rules).
Proof.
  unfold boxes_inv, loadRules, DOMContentLoaded.
  rewrite filterRules_action_filter, filterRules_filterAll.
  cbn [action_filter filterAll set_allRules render].
  rewrite length_fmap. split; [done|]. intros _.
  clear. induction kinds as [|k kinds IH]; [done|]. by rewrite fmap_cons.
Qed.

(** On every page the user can reach, All Types is checked exactly when
    every action box is, provided there is an action box at all. *)
Lemma filterAll_every kinds rules evs :
  kinds ≠ [] →
  filterAll (run evs (loadRules kinds rules))
  = forallb snd (action_filter (run evs (loadRules kinds rules))).
Proof.
  assert (boxes_inv kinds (run evs (loadRules kinds rules))) as [_ Hall]; [|done].
  generalize (boxes_inv_loadRules kinds rules).
  generalize (loadRules kinds rules). induction evs as [|ev evs IH]; intros p Hp; [done|].
  simpl. by apply IH, boxes_inv_step.
Qed.
End boxes.

(** ** The filter *)

Section filter_matches.
Import Dashboard.

Lemma matchesStatus_nil r : matchesStatus [] r = false.
Proof. reflexivity. Qed.

Lemma matchesStatus_both r : matchesStatus ["active"; "inactive"] r = true.
Proof. unfold matchesStatus. by destruct (ruleIsActive r). Qed.

Lemma matchesAction_nil r : matchesAction false [] r = false.
Proof. reflexivity. Qed.
End filter_matches.

(** C6: on the page of a non-empty rule set, whatever the search term and the
    action selection the user has arrived at, running the filter with both
    status boxes unchecked writes the count 0 and leaves no row visible. *)
Theorem no_status_selected_shows_nothing `{Builtins}
    (kinds : list string) (rules : list Server.Rule) (evs : list Dashboard.Event) :
  rules ≠ [] →
  Dashboard.filterActive (Dashboard.run evs (Dashboard.loadRules kinds rules)) = false →
  Dashboard.filterInactive (Dashboard.run evs (Dashboard.loadRules kinds rules)) = false →
  Dashboard.rulesCount
    (Dashboard.filterRules (Dashboard.run evs (Dashboard.loadRules kinds rules)))
  = Some 0%nat
  ∧ Dashboard.visible
      (Dashboard.filterRules (Dashboard.run evs (Dashboard.loadRules kinds rules)))
    = [].
Proof.
  intros Hne Ha Hi.
  pose proof (inv_reachable kinds rules evs) as Hinv.
  assert (Dashboard.visible
            (Dashboard.filterRules (Dashboard.run evs (Dashboard.loadRules kinds rules)))
          = []) as Hvis.
  { rewrite (filterRules_visible rules) by done.
    rewrite filter_none; [done|]. intros r _.
    unfold Dashboard.matches, Dashboard.statusFilters. rewrite Ha, Hi. simpl.
    rewrite matchesStatus_nil, andb_false_r. done. }
  split; [|done].
  rewrite (filterRules_count rules) by done. by rewrite Hvis.
Qed.

Lemma no_status_selected_shows_nothing_witness :
  Dashboard.rulesCount
    (Dashboard.filterRules
       (@Dashboard.run Sample.builtins
          [Dashboard.Input "al"; Dashboard.ChangeStatusFilter true;
           Dashboard.ChangeActionFilter 2; Dashboard.ChangeStatusFilter false]
          (Dashboard.loadRules Scenario.kinds [Scenario.alpha; Scenario.beta])))
  = Some 0%nat
  ∧ Dashboard.visible
      (Dashboard.filterRules
         (@Dashboard.run Sample.builtins
            [Dashboard.Input "al"; Dashboard.ChangeStatusFilter true;
             Dashboard.ChangeActionFilter 2; Dashboard.ChangeStatusFilter false]
            (Dashboard.loadRules Scenario.kinds [Scenario.alpha; Scenario.beta])))
    = [].
Proof.
  apply (@no_status_selected_shows_nothing Sample.builtins);
    [discriminate | vm_compute; reflexivity | vm_compute; reflexivity].
Defined.

(** C7: with an empty search term, every action kind selected (All Types is
    checked, or there are action kinds and the box of each is checked, which
    by [filterAll_every] comes to the same) and both status boxes checked,
    the filter shows every row, and the count it writes is the number of
    loaded rules. *)
Theorem unrestricted_filter_shows_all `{Builtins}
    (kinds : list string) (rules : list Server.Rule) (evs : list Dashboard.Event) :
  Js.trim (Js.toLowerCase
    (Dashboard.searchInput (Dashboard.run evs (Dashboard.loadRules kinds rules)))) = "" →
  Dashboard.filterAll (Dashboard.run evs (Dashboard.loadRules kinds rules)) = true
  ∨ (kinds ≠ []
     ∧ forallb snd
         (Dashboard.action_filter (Dashboard.run evs (Dashboard.loadRules kinds rules)))
       = true) →
  Dashboard.filterActive (Dashboard.run evs (Dashboard.loadRules kinds rules)) = true →
  Dashboard.filterInactive (Dashboard.run evs (Dashboard.loadRules kinds rules)) = true →
  length (Dashboard.visible
    (Dashboard.filterRules (Dashboard.run evs (Dashboard.loadRules kinds rules))))
  = length rules
  ∧ Dashboard.visible
      (Dashboard.filterRules (Dashboard.run evs (Dashboard.loadRules kinds rules)))
    = Dashboard.tbody
        (Dashboard.filterRules (Dashboard.run evs (Dashboard.loadRules kinds rules)))
  ∧ Dashboard.rulesCount
      (Dashboard.filterRules (Dashboard.run evs (Dashboard.loadRules kinds rules)))
    = match rules with [] => None | _ => Some (length rules) end.
Proof.
  intros Ht Hall' Ha Hi.
  assert (Dashboard.filterAll (Dashboard.run evs (Dashboard.loadRules kinds rules)) = true)
    as Hall.
  { destruct Hall' as [?|[Hk Hboxes]]; [done|]. by rewrite filterAll_every. }
  pose proof (inv_reachable kinds rules evs) as Hinv.
  assert (Dashboard.visible
            (Dashboard.filterRules (Dashboard.run evs (Dashboard.loadRules kinds rules)))
          = Dashboard.tbody (Dashboard.run evs (Dashboard.loadRules kinds rules))) as Hvis.
  { rewrite (filterRules_visible rules) by done.
    rewrite filter_all; [apply (Dashboard.inv_all _ _ Hinv)|]. intros r _.
    unfold Dashboard.matches, Dashboard.statusFilters, Dashboard.matchesSearch,
      Dashboard.matchesAction.
    rewrite Ht, Hall, Ha, Hi. simpl. by rewrite matchesStatus_both. }
  assert (length (Dashboard.visible
            (Dashboard.filterRules (Dashboard.run evs (Dashboard.loadRules kinds rules))))
          = length rules) as Hlen.
  { rewrite Hvis. apply (Dashboard.inv_len _ _ Hinv). }
  split; [done|]. split; [by rewrite filterRules_tbody|].
  destruct rules as [|rule rules].
  - by apply (filterRules_no_count []).
  - rewrite (filterRules_count (rule :: rules)) by done. by rewrite Hlen.
Qed.

Lemma unrestricted_filter_shows_all_witness :
  length (Dashboard.visible
    (Dashboard.filterRules
       (@Dashboard.run Sample.builtins
          [Dashboard.ChangeStatusFilter true; Dashboard.ChangeSort "name";
           Dashboard.Input "   "; Dashboard.ChangeStatusFilter true]
          (Dashboard.loadRules Scenario.kinds [Scenario.alpha; Scenario.beta]))))
  = 2%nat.
Proof.
  refine (proj1 (@unrestricted_filter_shows_all Sample.builtins Scenario.kinds
                   [Scenario.alpha; Scenario.beta]
                   [Dashboard.ChangeStatusFilter true; Dashboard.ChangeSort "name";
                    Dashboard.Input "   "; Dashboard.ChangeStatusFilter true] _ _ _ _));
    [vm_compute; reflexivity
    | right; split; [discriminate | vm_compute; reflexivity]
    | vm_compute; reflexivity..].
Defined.

(** C5 as stated fails: after unchecking All Types on the two-rule page no
    action box is checked and no row is visible, while both rows are visible
    with every action selected. *)
Lemma empty_selection_unrestricted_fails :
  ¬ Stated.empty_selection_unrestricted Sample.builtins.
Proof.
  intros Hc.
  pose proof (Hc Scenario.kinds [Scenario.alpha; Scenario.beta]
                [Dashboard.ChangeFilterAll]) as Hx.
  vm_compute in Hx. specialize (Hx eq_refl eq_refl). discriminate.
Qed.

(** C5, amended: with All Types unchecked and no action box checked the
    filter hides every row and writes the count 0; the action boxes stop
    restricting only when All Types is checked, and then whichever of them
    are checked makes no difference. *)
Theorem empty_action_selection_hides_all `{Builtins}
    (kinds : list string) (rules : list Server.Rule) (evs : list Dashboard.Event) :
  Dashboard.filterAll (Dashboard.run evs (Dashboard.loadRules kinds rules)) = false →
  Dashboard.actionFilters (Dashboard.run evs (Dashboard.loadRules kinds rules)) = [] →
  Dashboard.visible
    (Dashboard.filterRules (Dashboard.run evs (Dashboard.loadRules kinds rules))) = []
  ∧ Dashboard.rulesCount
      (Dashboard.filterRules (Dashboard.run evs (Dashboard.loadRules kinds rules)))
    = match rules with [] => None | _ => Some 0%nat end
  ∧ ∀ boxes boxes' : list (string * bool),
      Dashboard.visible
        (Dashboard.filterRules
           (Dashboard.set_action_boxes true boxes
              (Dashboard.run evs (Dashboard.loadRules kinds rules))))
      = Dashboard.visible
          (Dashboard.filterRules
             (Dashboard.set_action_boxes true boxes'
                (Dashboard.run evs (Dashboard.loadRules kinds rules)))).
Proof.
  intros Hall Hacts.
  pose proof (inv_reachable kinds rules evs) as Hinv.
  assert (Dashboard.visible
            (Dashboard.filterRules (Dashboard.run evs (Dashboard.loadRules kinds rules)))
          = []) as Hvis.
  { rewrite (filterRules_visible rules) by done.
    rewrite filter_none; [done|]. intros r _.
    unfold Dashboard.matches. rewrite Hall, Hacts.
    rewrite matchesAction_nil, andb_false_r. done. }
  split; [done|]. split.
  - destruct rules as [|rule rules].
    + by apply (filterRules_no_count []).
    + rewrite (filterRules_count (rule :: rules)) by done. by rewrite Hvis.
  - intros boxes boxes'.
    rewrite !(filterRules_visible rules) by by apply inv_set_action_boxes.
    apply (f_equal (fmap Dashboard.element)), list_filter_iff. intros r. simpl.
    unfold Dashboard.matches, Dashboard.matchesAction. simpl. done.
Qed.

Lemma empty_action_selection_hides_all_witness :
  Dashboard.visible
    (Dashboard.filterRules
       (@Dashboard.run Sample.builtins [Dashboard.ChangeFilterAll]
          (Dashboard.loadRules Scenario.kinds [Scenario.alpha; Scenario.beta]))) = [].
Proof.
  refine (proj1 (@empty_action_selection_hides_all Sample.builtins Scenario.kinds
                   [Scenario.alpha; Scenario.beta] [Dashboard.ChangeFilterAll] _ _));
    vm_compute; reflexivity.
Defined.


(** ** The search term *)

Section search.
Import Dashboard.

Lemma matchesSearch_includes t r :
  matchesSearch t r = true →
  Js.includes (name r) t = true ∨ Js.includes (description r) t = true
  ∨ Js.includes (query r) t = true.
Proof.
  unfold matchesSearch. rewrite !orb_true_iff, !andb_true_iff, negb_true_iff.
  intros [[[Ht|[_ ?]]|[_ ?]]|[_ ?]]; auto.
  unfold Js.truthy_str in Ht. apply negb_false_iff, eqb_true in Ht. subst t.
  left. apply includes_empty.
Qed.

Lemma visible_passes rules p e :
  inv rules p → e ∈ visible (filterRules p) →
  ∃ r, r ∈ allRules p ∧ element r = e
       ∧ matches (Js.trim (Js.toLowerCase (searchInput p))) (filterAll p)
           (actionFilters p) (statusFilters p) r = true.
Proof.
  intros Hinv. rewrite (filterRules_visible rules) by done.
  rewrite list_elem_of_fmap. intros (r & -> & Hr).
  apply list_elem_of_filter in Hr as [Hpass Hr]. eauto.
Qed.

Lemma keep_true t (rule : Sidebar.Rule) :
  Sidebar.keep t rule = Some true →
  Js.includes (Js.toLowerCase (Sidebar.name rule)) t = true
  ∨ Js.includes (Js.toLowerCase (Sidebar.description rule)) t = true
  ∨ Js.includes (Js.toLowerCase (Sidebar.query rule)) t = true
  ∨ Js.includes (Js.toLowerCase (Sidebar.action rule)) t = true
  ∨ ∃ n, Sidebar.getActionName (Sidebar.action rule) = Some n
         ∧ Js.includes (Js.toLowerCase n) t = true.
Proof.
  unfold Sidebar.keep.
  destruct (_ || _ || _ || _) eqn:Hfour.
  - rewrite !orb_true_iff in Hfour. intros _. tauto.
  - destruct (Sidebar.getActionName (Sidebar.action rule)) as [n|]; [|done].
    simpl. intros ?. simplify_eq. do 4 right. eauto.
Qed.

Lemma filter_rules_elem t l out rule :
  Sidebar.filter_rules t l = Some out → rule ∈ out →
  rule ∈ l ∧ Sidebar.keep t rule = Some true.
Proof.
  revert out. induction l as [|r l IH]; intros out; simpl.
  - intros ?; simplify_eq. by intros ?%elem_of_nil.
  - destruct (Sidebar.keep t r) as [b|] eqn:Hk; [|done]. simpl.
    destruct (Sidebar.filter_rules t l) as [rest|]; [|done]. simpl.
    intros ?; simplify_eq. destruct b.
    + intros [->|Hin]%elem_of_cons; [split; [left|done]|].
      destruct (IH rest eq_refl Hin). split; [by right|done].
    + intros Hin. destruct (IH rest eq_refl Hin). split; [by right|done].
Qed.
End search.

(** C4 as stated fails in the sidebar: the search for [sms] lists the rule
    named Alpha, whose name, description and query do not contain it; the
    rule is listed for its action. *)
Lemma search_reads_three_fields_fails :
  ¬ Stated.search_reads_three_fields Sample.builtins.
Proof.
  intros [_ Hside].
  assert (("sms" : string) ≠ "") as Hne by discriminate.
  assert ({| Sidebar.rule_id := "1"; Sidebar.name := "Alpha";
             Sidebar.description := "first"; Sidebar.query := "from:bank";
             Sidebar.action := "sms" |}
          ∈ Sidebar.rendered (Sidebar.filterRules "sms" Scenario.sidebar)) as Hin.
  { vm_compute. apply list_elem_of_here. }
  destruct (Hside _ _ _ Hne Hin) as [Hx|[Hx|Hx]]; vm_compute in Hx; discriminate.
Qed.

Lemma inherited_unnamed (action : string) :
  action ∈ Sidebar.inherited → Sidebar.getActionName action = None.
Proof.
  unfold Sidebar.inherited. rewrite !elem_of_cons, elem_of_nil.
  intros Hin. repeat (destruct Hin as [->|Hin]; [by vm_compute|]). done.
Qed.

Lemma keep_None (t : string) (rule : Sidebar.Rule) :
  Sidebar.keep t rule = None ↔
  Sidebar.in_text t rule = false ∧ Sidebar.action rule ∈ Sidebar.inherited.
Proof.
  unfold Sidebar.keep, Sidebar.in_text. split.
  - destruct (_ || _ || _ || _); [done|].
    unfold Sidebar.getActionName.
    destruct (list_to_map Sidebar.names !! Sidebar.action rule); [done|].
    destruct (bool_decide _) eqn:Hin; [|done].
    apply bool_decide_eq_true in Hin. done.
  - intros [-> Hin]. by rewrite (inherited_unnamed _ Hin).
Qed.

Lemma filter_rules_None (t : string) (l : list Sidebar.Rule) :
  Sidebar.filter_rules t l = None ↔ ∃ rule, rule ∈ l ∧ Sidebar.keep t rule = None.
Proof.
  induction l as [|r l IH]; cbn [Sidebar.filter_rules].
  - split; [done|]. by intros (rule & ?%elem_of_nil & _).
  - destruct (Sidebar.keep t r) as [b|] eqn:Hk; cbn.
    + destruct (Sidebar.filter_rules t l) as [rest|]; cbn.
      * split; [done|]. intros (rule & [->|Hin]%elem_of_cons & Hnone); [congruence|].
        assert (Some rest = None) as Hn by (apply IH; eauto). done.
      * split; [|done]. intros _.
        destruct (proj1 IH eq_refl) as (rule & Hin & Hnone).
        exists rule. split; [by right|done].
    + split; [|done]. intros _. exists r. split; [left|done].
Qed.

Lemma filterRules_throws (searchTerm : string) (st : Sidebar.State) :
  Js.trim (Js.toLowerCase searchTerm) ≠ "" →
  Sidebar.filter_rules (Js.trim (Js.toLowerCase searchTerm)) (Sidebar.rulesData st) = None →
  Sidebar.filterRules searchTerm st = st.
Proof.
  intros Hterm Hnone. unfold Sidebar.filterRules. cbn zeta.
  apply String.eqb_neq in Hterm. by rewrite Hterm, Hnone.
Qed.

(** C4, amended: on the dashboard a row is visible after filtering only if
    the lower-cased, trimmed search term is a substring of the rule's
    lower-cased name, description or query.  In the sidebar, a search for a
    term that is not blank throws and leaves the list as it was when some
    loaded rule has an action that names an inherited member and none of
    its lower-cased name, description, query and action contains the term;
    when there is no such rule, every rule listed is a loaded rule and the
    term is a substring of its lower-cased name, description, query or
    action, or of the lower-cased display name of its action. *)
Theorem search_fields `{Builtins}
    (kinds : list string) (rules : list Server.Rule) (evs : list Dashboard.Event)
    (st : Sidebar.State) (searchTerm : string) :
  (∀ e rule,
     rules !! e = Some rule →
     e ∈ Dashboard.visible
           (Dashboard.filterRules (Dashboard.run evs (Dashboard.loadRules kinds rules))) →
     Js.includes (Js.toLowerCase (Server.name rule))
       (Js.trim (Js.toLowerCase
          (Dashboard.searchInput (Dashboard.run evs (Dashboard.loadRules kinds rules)))))
     = true
     ∨ Js.includes (Js.toLowerCase (Server.description rule))
         (Js.trim (Js.toLowerCase
            (Dashboard.searchInput (Dashboard.run evs (Dashboard.loadRules kinds rules)))))
       = true
     ∨ Js.includes (Js.toLowerCase (Server.query rule))
         (Js.trim (Js.toLowerCase
            (Dashboard.searchInput (Dashboard.run evs (Dashboard.loadRules kinds rules)))))
       = true)
  ∧ (∀ bad,
       Js.trim (Js.toLowerCase searchTerm) ≠ "" →
       bad ∈ Sidebar.rulesData st →
       Sidebar.action bad ∈ Sidebar.inherited →
       Sidebar.in_text (Js.trim (Js.toLowerCase searchTerm)) bad = false →
       Sidebar.filterRules searchTerm st = st)
  ∧ (∀ rule,
       Js.trim (Js.toLowerCase searchTerm) ≠ "" →
       (∀ bad, bad ∈ Sidebar.rulesData st →
               Sidebar.action bad ∈ Sidebar.inherited →
               Sidebar.in_text (Js.trim (Js.toLowerCase searchTerm)) bad = true) →
       rule ∈ Sidebar.rendered (Sidebar.filterRules searchTerm st) →
       rule ∈ Sidebar.rulesData st
       ∧ (Js.includes (Js.toLowerCase (Sidebar.name rule))
            (Js.trim (Js.toLowerCase searchTerm)) = true
          ∨ Js.includes (Js.toLowerCase (Sidebar.description rule))
              (Js.trim (Js.toLowerCase searchTerm)) = true
          ∨ Js.includes (Js.toLowerCase (Sidebar.query rule))
              (Js.trim (Js.toLowerCase searchTerm)) = true
          ∨ Js.includes (Js.toLowerCase (Sidebar.action rule))
              (Js.trim (Js.toLowerCase searchTerm)) = true
          ∨ ∃ n, Sidebar.getActionName (Sidebar.action rule) = Some n
                 ∧ Js.includes (Js.toLowerCase n)
                     (Js.trim (Js.toLowerCase searchTerm)) = true)).
Proof.
  split; [|split].
  - intros e rule Hrule Hvis.
    pose proof (inv_reachable kinds rules evs) as Hinv.
    destruct (visible_passes rules _ e Hinv Hvis) as (r & Hr & He & Hpass).
    unfold Dashboard.matches in Hpass. rewrite !andb_true_iff in Hpass.
    destruct Hpass as [[Hsearch _] _].
    pose proof (Dashboard.inv_objs _ _ Hinv) as Hobjs.
    rewrite Forall_forall in Hobjs.
    destruct (Hobjs r Hr) as (rule' & Hrule' & Hn & Hd & _ & Hq).
    rewrite He, Hrule in Hrule'. simplify_eq.
    apply matchesSearch_includes in Hsearch.
    by rewrite Hn, Hd, Hq in Hsearch.
  - intros bad Hterm Hin Hinh Htext.
    apply filterRules_throws; [done|].
    apply filter_rules_None. exists bad. split; [done|]. by apply keep_None.
  - intros rule Hterm Hok.
    destruct (Sidebar.filter_rules (Js.trim (Js.toLowerCase searchTerm))
                (Sidebar.rulesData st)) as [shown|] eqn:Hfilter.
    + assert (Sidebar.rendered (Sidebar.filterRules searchTerm st) = shown) as ->.
      { unfold Sidebar.filterRules. cbn zeta. rewrite Hfilter.
        destruct (String.eqb _ "") eqn:Heq; [|done].
        by apply eqb_true in Heq. }
      intros Hin. destruct (filter_rules_elem _ _ _ _ Hfilter Hin) as [Hdata Hkeep].
      split; [done|]. by apply keep_true.
    + apply filter_rules_None in Hfilter as (bad & Hbad & Hnone).
      apply keep_None in Hnone as [Htext Hinh].
      rewrite (Hok bad Hbad Hinh) in Htext. done.
Qed.

Lemma search_fields_witness :
  (Js.includes (Js.toLowerCase (Server.name Scenario.alpha)) "al" = true
   ∨ Js.includes (Js.toLowerCase (Server.description Scenario.alpha)) "al" = true
   ∨ Js.includes (Js.toLowerCase (Server.query Scenario.alpha)) "al" = true)
  ∧ Sidebar.filterRules "alp" Scenario.sidebar_valueOf = Scenario.sidebar_valueOf
  ∧ ({| Sidebar.rule_id := "1"; Sidebar.name := "Alpha";
         Sidebar.description := "first"; Sidebar.query := "from:bank";
         Sidebar.action := "sms" |} ∈ Sidebar.rulesData Scenario.sidebar
     ∧ (Js.includes "alpha" "sms" = true
        ∨ Js.includes "first" "sms" = true
        ∨ Js.includes "from:bank" "sms" = true
        ∨ Js.includes "sms" "sms" = true
        ∨ ∃ n, Sidebar.getActionName "sms" = Some n
               ∧ Js.includes (Js.toLowerCase n) "sms" = true)).
Proof.
  destruct (@search_fields Sample.builtins Scenario.kinds
              [Scenario.alpha; Scenario.beta] [Dashboard.Input " AL "]
              Scenario.sidebar_valueOf "alp") as (Hdash & Hthrows & _).
  destruct (@search_fields Sample.builtins Scenario.kinds
              [Scenario.alpha; Scenario.beta] [Dashboard.Input " AL "]
              Scenario.sidebar "SMS ") as (_ & _ & Hlisted).
  split; [|split].
  - apply (Hdash 0%nat Scenario.alpha); vm_compute; [reflexivity|].
    apply list_elem_of_here.
  - apply (Hthrows {| Sidebar.rule_id := "2"; Sidebar.name := "Beta";
                      Sidebar.description := "second"; Sidebar.query := "label:old";
                      Sidebar.action := "valueOf" |}).
    + vm_compute. discriminate.
    + apply list_elem_of_further, list_elem_of_here.
    + do 7 apply list_elem_of_further. apply list_elem_of_here.
    + vm_compute. reflexivity.
  - apply (Hlisted {| Sidebar.rule_id := "1"; Sidebar.name := "Alpha";
                      Sidebar.description := "first"; Sidebar.query := "from:bank";
                      Sidebar.action := "sms" |}).
    + vm_compute. discriminate.
    + intros bad Hbad Hinh.
      apply list_elem_of_singleton in Hbad as ->. vm_compute. reflexivity.
    + vm_compute. apply list_elem_of_here.
Defined.

(** ** The status switch *)

Section toggle.
Import Dashboard.
Context `{Builtins}.

Lemma delete_last {A} (l : list A) (x : A) : delete (length l) (l ++ [x]) = l.
Proof. induction l as [|y l IH]; [done|]. simpl. by rewrite IH. Qed.

Lemma lookup_last {A} (l : list A) (x : A) : (l ++ [x]) !! length l = Some x.
Proof. induction l as [|y l IH]; [done|]. by simpl. Qed.

Lemma set_checked_back row :
  set_checked (negb (negb (checked row))) (set_checked (negb (checked row)) row) = row.
Proof. destruct row. simpl. by rewrite negb_involutive. Qed.

Lemma alter_checked_back (m : gmap nat RowElem) e row :
  m !! e = Some row →
  alter (set_checked (negb (negb (checked row)))) e
    (alter (set_checked (negb (checked row))) e m) = m.
Proof.
  intros Hrow. apply map_eq. intros e'. destruct (decide (e = e')) as [<-|Hne].
  - rewrite !lookup_alter_eq, Hrow. simpl. by rewrite set_checked_back.
  - by rewrite !lookup_alter_ne.
Qed.

(** The page after a click on the switch of row [e]. *)
Lemma step_switch p e row :
  rows p !! e = Some row →
  step (ChangeStatusSwitch e) p
  = set_pending
      (pending p ++ [{| ruleId := onchange_ruleId row; checkbox := e;
                        originalChecked := negb (checked row) |}])
      (set_rows (alter (set_checked (negb (checked row))) e) p).
Proof.
  intros Hrow. cbn [step]. rewrite Hrow. unfold toggleRuleStatus_begin.
  cbn [rows set_rows]. by rewrite lookup_alter_eq, Hrow.
Qed.

Lemma toggle_then_fail p e row r :
  rows p !! e = Some row → failed r = true →
  ∃ msg, step (FetchSettles (length (pending p)) r) (step (ChangeStatusSwitch e) p)
         = alert msg p.
Proof.
  intros Hrow Hfail. rewrite (step_switch p e row Hrow).
  cbn [step pending set_pending]. rewrite lookup_last, delete_last.
  assert (∀ msg,
    alert msg
      (set_rows (alter (set_checked (negb (negb (checked row)))) e)
         (set_pending (pending p)
            (set_pending
               (pending p ++ [{| ruleId := onchange_ruleId row; checkbox := e;
                                 originalChecked := negb (checked row) |}])
               (set_rows (alter (set_checked (negb (checked row))) e) p))))
    = alert msg p) as Hback.
  { intros msg. unfold alert, set_rows, set_pending. cbn.
    rewrite (alter_checked_back _ _ _ Hrow). by destruct p. }
  destruct r as [msg|[] [msg|v]]; try discriminate; eexists; apply Hback.
Qed.

(** Whenever it arrives, a failed answer writes the switch and nothing else:
    the switch goes to the opposite of the state recorded after the click. *)
Lemma failed_settle_only_reverts q k t r :
  pending q !! k = Some t → failed r = true →
  ∃ msg, step (FetchSettles k r) q
         = alert msg
             (set_rows (alter (set_checked (negb (originalChecked t))) (checkbox t))
                (set_pending (delete k (pending q)) q)).
Proof.
  intros Ht Hfail. cbn [step]. rewrite Ht.
  destruct r as [msg|[] [msg|v]]; try discriminate; by eexists.
Qed.

Lemma detail_toggle_then_fail (dp : Detail.Page) r :
  failed r = true →
  ∃ msg, Detail.step (Detail.FetchSettles (length (Detail.pending dp)) r)
           (Detail.step Detail.ChangeStatusSwitch dp)
         = Detail.alert msg dp.
Proof.
  intros Hfail. cbn [Detail.step]. unfold Detail.toggleRuleStatus_begin.
  cbn [Detail.pending Detail.set_pending Detail.set_checked Detail.checked].
  rewrite lookup_last, delete_last.
  destruct r as [msg|[] [msg|v]]; try discriminate; eexists;
    unfold Detail.toggleRuleStatus_settle, Detail.alert, Detail.set_checked,
      Detail.set_pending; cbn; rewrite negb_involutive; by destruct dp.
Qed.
End toggle.

(** C1: a click on the status switch of a row followed by a failed request
    (the fetch rejects, the response is not ok, or its body cannot be read)
    leaves the dashboard exactly as it was before the click, switch, row
    styling, stored flag and every other row included, except for one more
    alert; and the same holds of the switch on the rule's detail page. *)
Theorem failed_toggle_restores `{Builtins}
    (p : Dashboard.Page) (e : nat) (row : Dashboard.RowElem)
    (dp : Detail.Page) (r : FetchResult) :
  Dashboard.rows p !! e = Some row →
  failed r = true →
  (∃ msg,
     Dashboard.step (Dashboard.FetchSettles (length (Dashboard.pending p)) r)
       (Dashboard.step (Dashboard.ChangeStatusSwitch e) p)
     = Dashboard.alert msg p)
  ∧ (∃ msg,
       Detail.step (Detail.FetchSettles (length (Detail.pending dp)) r)
         (Detail.step Detail.ChangeStatusSwitch dp)
       = Detail.alert msg dp).
Proof.
  intros Hrow Hfail. split.
  - by apply (toggle_then_fail p e row).
  - by apply detail_toggle_then_fail.
Qed.

Lemma failed_toggle_restores_witness :
  (∃ msg,
     @Dashboard.step Sample.builtins
       (Dashboard.FetchSettles (length (Dashboard.pending Scenario.page))
          (Response false (JsonData Js.Null)))
       (@Dashboard.step Sample.builtins (Dashboard.ChangeStatusSwitch 1) Scenario.page)
     = Dashboard.alert msg Scenario.page)
  ∧ (∃ msg,
       Detail.step
         (Detail.FetchSettles (length (Detail.pending Scenario.detail))
            (Response false (JsonData Js.Null)))
         (Detail.step Detail.ChangeStatusSwitch Scenario.detail)
       = Detail.alert msg Scenario.detail).
Proof.
  refine (@failed_toggle_restores Sample.builtins Scenario.page 1%nat
            (Dashboard.render_row Scenario.beta) Scenario.detail
            (Response false (JsonData Js.Null)) _ _);
    vm_compute; reflexivity.
Defined.

Example failed_toggle_scenario :
  let p := @Dashboard.run Sample.builtins
             [Dashboard.ChangeStatusFilter false; Dashboard.ChangeStatusSwitch 1;
              Dashboard.FetchSettles 0 (FetchRejects "Failed to fetch")]
             Scenario.page in
  Dashboard.visible p = [0%nat]
  ∧ Dashboard.rulesCount p = Some 1%nat
  ∧ Dashboard.checked <$> Dashboard.rows p !! 1%nat = Some false
  ∧ Dashboard.alerts p = ["Error toggling rule status: Failed to fetch"].
Proof. vm_compute. done. Qed.

Section toggle_success.
Import Dashboard.
Context `{Builtins}.


Lemma restyle_secondary on row :
  "table-secondary" ∈ classList (restyle on row) ↔ on = false.
Proof.
  destruct on; simpl.
  - unfold Js.classList_remove. rewrite list_elem_of_filter.
    split; [by intros [Hne _] | done].
  - unfold Js.classList_add. case_bool_decide; [done|].
    rewrite elem_of_app, list_elem_of_singleton. split; [done | by right].
Qed.

End toggle_success.

(** C3, at an input where the code departs from it: the first rule is active;
    its switch is clicked, and the server answers that the rule is active.
    The row is then styled and flagged as active, as the server said, but
    its switch is left off, where the click put it.  On the detail page the
    text and the badge follow the server and the switch does not. *)
Theorem success_keeps_optimistic_switch :
  (∃ row,
     Dashboard.rows
       (@Dashboard.run Sample.builtins
          [Dashboard.ChangeStatusSwitch 0;
           Dashboard.FetchSettles 0 (Response true (JsonData (Js.Bool true)))]
          Scenario.page) !! 0%nat = Some row
     ∧ Dashboard.checked row = false
     ∧ ("table-secondary" ∉ Dashboard.classList row)
     ∧ ("text-dark" ∈ Dashboard.link_classList row)
     ∧ Dashboard.pause_icon row = false
     ∧ Dashboard.dataset_active row = "true")
  ∧ Detail.checked
      (Detail.step (Detail.FetchSettles 0 (Response true (JsonData (Js.Bool true))))
         (Detail.step Detail.ChangeStatusSwitch Scenario.detail)) = false
  ∧ Detail.status_text
      (Detail.step (Detail.FetchSettles 0 (Response true (JsonData (Js.Bool true))))
         (Detail.step Detail.ChangeStatusSwitch Scenario.detail))
    = "Rule is active and processing emails"
  ∧ Detail.className
      (Detail.status_badge
         (Detail.step (Detail.FetchSettles 0 (Response true (JsonData (Js.Bool true))))
            (Detail.step Detail.ChangeStatusSwitch Scenario.detail)))
    = "badge bg-success ms-2".
Proof.
  split; [|by vm_compute].
  eexists. split; [vm_compute; reflexivity|]. cbn.
  repeat split; try done.
  - rewrite list_elem_of_In. simpl. intros [?|[]]. discriminate.
  - rewrite list_elem_of_In. simpl. auto.
Qed.

(** C2, at inputs where the code departs from it.  With only Active checked:
    (a) the active first rule is switched off and the server confirms; the
    filter is run again, and the row, now shown as inactive, is still visible
    and counted, because [allRules] keeps the flag it copied before;
    (b) the inactive second rule is switched on and the server confirms; the
    rows are sorted, which rebuilds [allRules], and the filter is run again:
    the row, now shown as active, is hidden and not counted, because its flag
    was stored as [true] and the filter looks for [True]. *)
Theorem count_after_toggle_diverges :
  (∃ row,
     Dashboard.rows
       (@Dashboard.run Sample.builtins
          [Dashboard.ChangeStatusFilter false; Dashboard.ChangeStatusSwitch 0;
           Dashboard.FetchSettles 0 (Response true (JsonData (Js.Bool false)));
           Dashboard.Input ""]
          Scenario.page) !! 0%nat = Some row
     ∧ Dashboard.checked row = false
     ∧ Dashboard.dataset_active row = "false"
     ∧ Dashboard.pause_icon row = true)
  ∧ Dashboard.statusFilters
      (@Dashboard.run Sample.builtins
         [Dashboard.ChangeStatusFilter false; Dashboard.ChangeStatusSwitch 0;
          Dashboard.FetchSettles 0 (Response true (JsonData (Js.Bool false)));
          Dashboard.Input ""]
         Scenario.page) = ["active"]
  ∧ Dashboard.visible
      (@Dashboard.run Sample.builtins
         [Dashboard.ChangeStatusFilter false; Dashboard.ChangeStatusSwitch 0;
          Dashboard.FetchSettles 0 (Response true (JsonData (Js.Bool false)));
          Dashboard.Input ""]
         Scenario.page) = [0%nat]
  ∧ Dashboard.rulesCount
      (@Dashboard.run Sample.builtins
         [Dashboard.ChangeStatusFilter false; Dashboard.ChangeStatusSwitch 0;
          Dashboard.FetchSettles 0 (Response true (JsonData (Js.Bool false)));
          Dashboard.Input ""]
         Scenario.page) = Some 1%nat
  ∧ (∃ row,
       Dashboard.rows
         (@Dashboard.run Sample.builtins
            [Dashboard.ChangeStatusFilter false; Dashboard.ChangeStatusSwitch 1;
             Dashboard.FetchSettles 0 (Response true (JsonData (Js.Bool true)));
             Dashboard.ChangeSort "name"; Dashboard.Input ""]
            Scenario.page) !! 1%nat = Some row
       ∧ Dashboard.checked row = true
       ∧ Dashboard.dataset_active row = "true"
       ∧ Dashboard.pause_icon row = false)
  ∧ Dashboard.visible
      (@Dashboard.run Sample.builtins
         [Dashboard.ChangeStatusFilter false; Dashboard.ChangeStatusSwitch 1;
          Dashboard.FetchSettles 0 (Response true (JsonData (Js.Bool true)));
          Dashboard.ChangeSort "name"; Dashboard.Input ""]
         Scenario.page) = [0%nat]
  ∧ Dashboard.rulesCount
      (@Dashboard.run Sample.builtins
         [Dashboard.ChangeStatusFilter false; Dashboard.ChangeStatusSwitch 1;
          Dashboard.FetchSettles 0 (Response true (JsonData (Js.Bool true)));
          Dashboard.ChangeSort "name"; Dashboard.Input ""]
         Scenario.page) = Some 1%nat.
Proof.
  split; [eexists; split; [vm_compute; reflexivity | by cbn]|].
  do 3 (split; [by vm_compute|]).
  split; [eexists; split; [vm_compute; reflexivity | by cbn]|].
  split; by vm_compute.
Qed.

Section active_flag.
Import Dashboard.
Context `{Builtins}.


End active_flag.



(** ** Sorting the rows *)

Section sortRules.
Import Dashboard.
Context `{Builtins}.
Implicit Types (p : Page) (l : list (nat * RowElem)).

Lemma bound_rule_rows p : bound p (rule_rows p).
Proof. intros e row Hin. by apply elems_lookup in Hin as [_ ?]. Qed.

Lemma bound_sort p (cmp : nat * RowElem → nat * RowElem → Js.number) l :
  bound p l → bound p (Js.sort cmp l).
Proof. intros Hb e row. rewrite sort_perm. apply Hb. Qed.

Lemma rule_rows_bound p l :
  bound p l → rule_rows (set_tbody (l.*1) p) = l.
Proof.
  unfold rule_rows. cbn. induction l as [|[e row] l IH]; intros Hb; [done|].
  rewrite fmap_cons. cbn. rewrite (Hb e row) by left. cbn.
  rewrite IH; [done|]. intros e' row' Hin. apply Hb. by right.
Qed.

Lemma sortRules_rule_rows sortBy p :
  rule_rows (sortRules sortBy p)
  = Js.sort (λ a b, compare_rows sortBy a.2 b.2) (rule_rows p).
Proof.
  unfold sortRules. cbn zeta.
  set (sorted := Js.sort _ (rule_rows p)).
  change (rule_rows (set_tbody (sorted.*1) p) = sorted).
  apply rule_rows_bound, bound_sort, bound_rule_rows.
Qed.

Lemma sortRules_twice sortBy p :
  Js.sort (λ a b, compare_rows sortBy a.2 b.2) (rule_rows (sortRules sortBy p))
  = rule_rows (sortRules sortBy p) →
  sortRules sortBy (sortRules sortBy p) = sortRules sortBy p.
Proof.
  intros Hfix. unfold sortRules at 1. cbn zeta. rewrite Hfix.
  rewrite sortRules_rule_rows. unfold sortRules. destruct p; reflexivity.
Qed.

Lemma filter_bound p l (P' : nat → bool) (P : nat * RowElem → bool) :
  (∀ e row, rows p !! e = Some row → P' e = P (e, row)) →
  bound p l →
  filter (λ e, P' e = true) (l.*1) = (filter (λ x, P x = true) l).*1.
Proof.
  intros HP. induction l as [|[e row] l IH]; intros Hb; [done|].
  rewrite fmap_cons, !filter_cons. cbn.
  rewrite (HP e row) by (apply Hb; left).
  rewrite IH by (intros e' row' Hin; apply Hb; by right).
  by destruct (decide (P (e, row) = true)).
Qed.

Lemma filter_tbody p (P' : nat → bool) (P : nat * RowElem → bool) :
  (∀ e row, rows p !! e = Some row → P' e = P (e, row)) →
  (∀ e, rows p !! e = None → P' e = false) →
  filter (λ e, P' e = true) (tbody p) = (filter (λ x, P x = true) (rule_rows p)).*1.
Proof.
  intros HP Hnone. unfold rule_rows.
  induction (tbody p) as [|e l IH]; [done|].
  rewrite filter_cons. cbn. destruct (rows p !! e) as [row|] eqn:Hrow; cbn.
  - rewrite (HP e row Hrow), IH.
    by destruct (decide (P (e, row) = true)).
  - rewrite (Hnone e Hrow), IH. by destruct (decide (false = true)).
Qed.

Section by_name.
Hypothesis anti : ∀ a b, Z.sgn (localeCompare b a) = - Z.sgn (localeCompare a b).
Hypothesis trans : ∀ a b c,
  localeCompare a b <= 0 → localeCompare b c <= 0 → localeCompare a c <= 0.

Local Abbreviation by_name := (λ a b : nat * RowElem, compare_rows "name" a.2 b.2).

Lemma le_by_name x y :
  Js.le by_name x y ↔ localeCompare (dataset_name x.2) (dataset_name y.2) <= 0.
Proof. done. Qed.

Lemma by_name_total x y : Js.le by_name x y ∨ Js.le by_name y x.
Proof.
  rewrite !le_by_name.
  pose proof (anti (dataset_name x.2) (dataset_name y.2)) as Ha.
  destruct (localeCompare (dataset_name x.2) (dataset_name y.2)),
    (localeCompare (dataset_name y.2) (dataset_name x.2)); simpl in Ha; lia.
Qed.

Lemma by_name_trans : Transitive (Js.le by_name).
Proof. intros x y z. rewrite !le_by_name. apply trans. Qed.

Lemma by_name_equiv s x y :
  localeCompare s (dataset_name x.2) = 0 → localeCompare s (dataset_name y.2) = 0 →
  Js.le by_name x y.
Proof.
  intros Hx Hy. rewrite le_by_name. apply (trans _ s); [|lia].
  pose proof (anti s (dataset_name x.2)) as Ha. rewrite Hx in Ha. simpl in Ha.
  destruct (localeCompare (dataset_name x.2) s); simpl in Ha; lia.
Qed.

Lemma sort_name_sorted p :
  StronglySorted (λ a b, localeCompare (dataset_name a) (dataset_name b) <= 0)
    (row_list (sortRules "name" p)).
Proof.
  unfold row_list. rewrite sortRules_rule_rows.
  apply (StronglySorted_fmap snd (Js.le by_name)); [by intros x y ?%le_by_name|].
  apply Sorted_StronglySorted; [apply by_name_trans|].
  apply sort_sorted, by_name_total.
Qed.

Lemma sort_name_stable p s :
  filter (λ e, name_equiv p s e = true) (tbody (sortRules "name" p))
  = filter (λ e, name_equiv p s e = true) (tbody p).
Proof.
  set (P := λ x : nat * RowElem, localeCompare s (dataset_name x.2) =? 0).
  assert (∀ e row, rows p !! e = Some row → name_equiv p s e = P (e, row)) as HP.
  { intros e row Hrow. unfold name_equiv. by rewrite Hrow. }
  rewrite (filter_tbody p _ P HP); [|intros e He; unfold name_equiv; by rewrite He].
  cbn [sortRules tbody set_allRules set_tbody].
  rewrite (filter_bound p _ _ P HP); [|apply bound_sort, bound_rule_rows].
  f_equal. apply sort_filter. intros x y Hx%Z.eqb_eq Hy%Z.eqb_eq.
  by apply (by_name_equiv s).
Qed.

Lemma sort_name_idemp p :
  sortRules "name" (sortRules "name" p) = sortRules "name" p.
Proof.
  apply sortRules_twice. rewrite sortRules_rule_rows.
  apply sort_idemp, by_name_total.
Qed.
End by_name.
End sortRules.

(** The code-unit order is a consistent collation. *)
Lemma codeunit_anti (a b : string) :
  Z.sgn (Sample.codeunit_compare b a) = - Z.sgn (Sample.codeunit_compare a b).
Proof.
  unfold Sample.codeunit_compare. rewrite (String.compare_antisym b a).
  by destruct (String.compare a b).
Qed.

Lemma codeunit_le (a b : string) : Sample.codeunit_compare a b <= 0 ↔ String.le a b.
Proof.
  unfold Sample.codeunit_compare, String.le, String.leb.
  destruct (String.compare a b); simpl; split; (done || lia).
Qed.

Lemma codeunit_trans (a b c : string) :
  Sample.codeunit_compare a b <= 0 → Sample.codeunit_compare b c <= 0 →
  Sample.codeunit_compare a c <= 0.
Proof. rewrite !codeunit_le. intros ??. by trans b. Qed.

(** C8 as stated fails: the sort compares the lower-cased names the template
    stored in the rows, so the rules named [a] and [A], listed in that
    order, tie and stay in that order, and their names are not in order. *)
Lemma names_unsorted_after_sort : ¬ Stated.sorted_by_displayed_name Sample.builtins.
Proof.
  intros Hsorted.
  specialize (Hsorted codeunit_anti codeunit_trans Scenario.kinds
                [Scenario.lower_a; Scenario.upper_a] []).
  replace (Stated.displayed_names _ _) with ["a"; "A"] in Hsorted
    by (vm_compute; reflexivity).
  apply StronglySorted_inv in Hsorted as [_ Hall].
  apply Forall_cons in Hall as [Hle _].
  revert Hle. vm_compute. intros Hle. by apply Hle.
Qed.

(** C8, amended: when [localeCompare] is a consistent comparator, sorting by
    name leaves the rows in non-decreasing order of the lower-cased names
    the template stored in them ([data-name]); rows whose lower-cased names
    collate as equal, such as names that differ in case only, keep the
    order they had; and sorting by name a second time changes nothing on
    the page. *)
Theorem sort_by_name `{Builtins} (p : Dashboard.Page) :
  (∀ a b, Z.sgn (localeCompare b a) = - Z.sgn (localeCompare a b)) →
  (∀ a b c, localeCompare a b <= 0 → localeCompare b c <= 0 → localeCompare a c <= 0) →
  StronglySorted
    (λ a b, localeCompare (Dashboard.dataset_name a) (Dashboard.dataset_name b) <= 0)
    (Dashboard.row_list (Dashboard.sortRules "name" p))
  ∧ (∀ s,
       filter (λ e, Dashboard.name_equiv p s e = true)
         (Dashboard.tbody (Dashboard.sortRules "name" p))
       = filter (λ e, Dashboard.name_equiv p s e = true) (Dashboard.tbody p))
  ∧ Dashboard.sortRules "name" (Dashboard.sortRules "name" p)
    = Dashboard.sortRules "name" p.
Proof.
  intros anti trans. split; [by apply sort_name_sorted|].
  split; [intros s; by apply sort_name_stable | by apply sort_name_idemp].
Qed.

Lemma sort_by_name_witness :
  @Dashboard.sortRules Sample.builtins "name"
    (@Dashboard.sortRules Sample.builtins "name" Scenario.page)
  = @Dashboard.sortRules Sample.builtins "name" Scenario.page.
Proof.
  exact (proj2 (proj2 (@sort_by_name Sample.builtins Scenario.page
                         codeunit_anti codeunit_trans))).
Defined.

Section by_modified.
Import Dashboard.
Context `{Builtins}.

Local Abbreviation by_modified :=
  (λ a b : nat * RowElem, compare_rows "modified" a.2 b.2).

Lemma compare_modified a b :
  compare_rows "modified" a b = Js.date_sub (modified_time b) (modified_time a).
Proof. reflexivity. Qed.

Lemma by_modified_total x y : Js.le by_modified x y ∨ Js.le by_modified y x.
Proof.
  unfold Js.le, Js.SortCompare. rewrite !compare_modified.
  destruct (modified_time x.2), (modified_time y.2); simpl; lia.
Qed.

(** A row without a date ties with every row. *)
Lemma undated_ties a b :
  modified_time a = None →
  Js.SortCompare (compare_rows "modified") a b = 0
  ∧ Js.SortCompare (compare_rows "modified") b a = 0.
Proof.
  intros Ha. unfold Js.SortCompare. rewrite !compare_modified, Ha.
  by destruct (modified_time b).
Qed.

Lemma newer_or_same_trans : Transitive newer_or_same.
Proof.
  intros a b c (ta & tb & Ha & Hb & Hab) (tb' & tc & Hb' & Hc & Hbc).
  exists ta, tc. repeat split; try done. simplify_eq. lia.
Qed.

Lemma dated_le x y :
  is_Some (modified_time x.2) → is_Some (modified_time y.2) →
  Js.le by_modified x y → newer_or_same x.2 y.2.
Proof.
  intros [tx Hx] [ty Hy]. unfold Js.le, Js.SortCompare.
  rewrite compare_modified, Hx, Hy. simpl. intros Hle.
  exists tx, ty. repeat split; try done. lia.
Qed.

Lemma dated_sorted (l : list (nat * RowElem)) :
  Forall (λ x, is_Some (modified_time x.2)) l →
  Sorted (Js.le by_modified) l → Sorted newer_or_same (l.*2).
Proof.
  intros Hd Hs. induction Hs as [|x l Hs IH Hhd]; [constructor|].
  apply Forall_cons in Hd as [Hx Hd]. rewrite fmap_cons. constructor; [by apply IH|].
  destruct Hhd as [|y l Hxy]; [constructor|].
  rewrite fmap_cons. constructor. apply Forall_cons in Hd as [Hy _].
  by apply dated_le.
Qed.

Lemma sort_modified_sorted p :
  Forall (λ row, is_Some (modified_time row)) (row_list p) →
  StronglySorted newer_or_same (row_list (sortRules "modified" p)).
Proof.
  intros Hd. apply Sorted_StronglySorted; [apply newer_or_same_trans|].
  unfold row_list. rewrite sortRules_rule_rows. apply dated_sorted.
  - unfold row_list in Hd. rewrite Forall_fmap in Hd. by rewrite sort_perm.
  - apply sort_sorted, by_modified_total.
Qed.
End by_modified.

(** C9 as stated fails: a page whose first rule has no modification date and
    whose second rule has one keeps that order when sorted by modification
    date. *)
Lemma undated_rules_last_fails : ¬ Stated.undated_rules_last Sample.builtins.
Proof.
  intros Hc.
  pose proof (Hc Scenario.kinds [Scenario.beta; Scenario.alpha] []
                0%nat 1%nat (Dashboard.render_row Scenario.beta)
                (Dashboard.render_row Scenario.alpha)) as Hx.
  apply Hx; [vm_compute; reflexivity | vm_compute; reflexivity | lia].
Qed.

(** C9, amended: when the modification date of every row parses, sorting by
    it leaves the rows newest first.  A row whose date does not parse, as
    for a null or missing date, makes the comparator return NaN, which the
    sort takes for a tie with every other row: such a row is given no place
    after the dated ones. *)
Theorem sort_by_modified `{Builtins} (p : Dashboard.Page) :
  Forall (λ row, is_Some (Dashboard.modified_time row)) (Dashboard.row_list p) →
  StronglySorted Dashboard.newer_or_same (Dashboard.row_list (Dashboard.sortRules "modified" p))
  ∧ Dashboard.row_list (Dashboard.sortRules "modified" p) ≡ₚ Dashboard.row_list p
  ∧ (∀ a b : Dashboard.RowElem,
       Dashboard.modified_time a = None →
       Js.SortCompare (Dashboard.compare_rows "modified") a b = 0
       ∧ Js.SortCompare (Dashboard.compare_rows "modified") b a = 0).
Proof.
  intros Hd. split; [by apply sort_modified_sorted|]. split.
  - unfold Dashboard.row_list. by rewrite sortRules_rule_rows, sort_perm.
  - apply undated_ties.
Qed.

Lemma sort_by_modified_witness :
  StronglySorted (@Dashboard.newer_or_same Sample.builtins)
    (Dashboard.row_list (@Dashboard.sortRules Sample.builtins "modified" Scenario.dated_page)).
Proof.
  refine (proj1 (@sort_by_modified Sample.builtins Scenario.dated_page _)).
  replace (Dashboard.row_list Scenario.dated_page)
    with [Dashboard.render_row Scenario.alpha; Dashboard.render_row Scenario.gamma]
    by (vm_compute; reflexivity).
  repeat (constructor; [vm_compute; eexists; reflexivity|]). constructor.
Defined.

(** ** More runs of the model *)

Example sort_by_action_scenario :
  Dashboard.tbody (@Dashboard.sortRules Sample.builtins "action" Scenario.page)
  = [1; 0]%nat.
Proof. vm_compute. reflexivity. Qed.

Example sort_by_modified_dated :
  Dashboard.tbody (@Dashboard.sortRules Sample.builtins "modified" Scenario.dated_page)
  = [1; 0]%nat.
Proof. vm_compute. reflexivity. Qed.

Example sort_by_modified_undated_first :
  Dashboard.tbody
    (@Dashboard.sortRules Sample.builtins "modified"
       (Dashboard.loadRules Scenario.kinds [Scenario.beta; Scenario.alpha]))
  = [0; 1]%nat
  ∧ Dashboard.tbody
      (@Dashboard.sortRules Sample.builtins "modified"
         (Dashboard.loadRules Scenario.kinds [Scenario.alpha; Scenario.beta]))
    = [0; 1]%nat.
Proof. vm_compute. done. Qed.

Example filter_alpha_scenario :
  Dashboard.visible (@Dashboard.run Sample.builtins [Dashboard.Input "alpha"] Scenario.page)
  = [0%nat].
Proof. vm_compute. reflexivity. Qed.

Example sidebar_search :
  Sidebar.rendered (Sidebar.filterRules "SMS " Scenario.sidebar)
  = Sidebar.rulesData Scenario.sidebar
  ∧ Sidebar.rendered (Sidebar.filterRules "beta" Scenario.sidebar) = [].
Proof. vm_compute. done. Qed.

(** * Further properties of the dashboard *)

(** ** The count line, the row order and the visible rows across events *)

Section across_events.
Import Dashboard DashboardExt.
Context `{Builtins}.
Implicit Types (p : Page) (rules : list Server.Rule).

Lemma shown_alter p (g : RowElem → RowElem) e e' :
  (∀ row, style_display (g row) = style_display row) →
  shown (set_rows (alter g e) p) e' = shown p e'.
Proof.
  intros Hg. unfold shown. cbn [rows set_rows].
  destruct (decide (e = e')) as [->|Hne].
  - rewrite lookup_alter_eq. destruct (rows p !! e'); cbn; [by rewrite Hg|done].
  - by rewrite lookup_alter_ne.
Qed.

Lemma visible_alter p (g : RowElem → RowElem) e :
  (∀ row, style_display (g row) = style_display row) →
  visible (set_rows (alter g e) p) = visible p.
Proof.
  intros Hg. unfold visible. cbn [tbody set_rows].
  apply list_filter_iff. intros e'. by rewrite shown_alter.
Qed.

Lemma visible_toggleRuleStatus_begin id e p :
  visible (toggleRuleStatus_begin id e p) = visible p
  ∧ rulesCount (toggleRuleStatus_begin id e p) = rulesCount p
  ∧ tbody (toggleRuleStatus_begin id e p) = tbody p.
Proof. unfold toggleRuleStatus_begin. by destruct (rows p !! e). Qed.

Lemma visible_toggleRuleStatus_settle t r p :
  visible (toggleRuleStatus_settle t r p) = visible p
  ∧ rulesCount (toggleRuleStatus_settle t r p) = rulesCount p
  ∧ tbody (toggleRuleStatus_settle t r p) = tbody p.
Proof.
  destruct r as [msg|[] [msg|v]]; cbn [toggleRuleStatus_settle];
    (split; [|done]);
    try (change (visible (alert ?m ?q)) with (visible q));
    by apply visible_alter.
Qed.

Lemma visible_sortRules rules sortBy p :
  inv rules p → visible (sortRules sortBy p) ≡ₚ visible p.
Proof.
  intros Hinv. unfold visible.
  rewrite (list_filter_iff _ (λ e, shown p e = true)) by done.
  apply filter_Permutation, sortRules_tbody_perm. intros e. apply (inv_dom _ _ Hinv).
Qed.

Lemma count_shown_step rules ev p :
  rules ≠ [] → inv rules p → count_shown p → count_shown (step ev p).
Proof.
  intros Hne Hinv Hc. unfold count_shown in *.
  destruct ev as [s| |i|[]|value|e|k r]; cbn [step].
  - apply (filterRules_count rules); [by apply inv_set_searchInput | done].
  - apply (filterRules_count rules); [|done].
    by apply inv_set_action_boxes, inv_filterRules, inv_set_action_boxes.
  - destruct (action_filter p !! i); [|done].
    apply (filterRules_count rules); [|done].
    by apply inv_set_action_boxes, inv_filterRules, inv_set_action_boxes.
  - apply (filterRules_count rules); [by apply inv_set_status_boxes | done].
  - apply (filterRules_count rules); [by apply inv_set_status_boxes | done].
  - rewrite (visible_sortRules rules) by done. exact Hc.
  - destruct (rows p !! e) as [row|]; [|done].
    destruct (visible_toggleRuleStatus_begin (onchange_ruleId row) e
                (set_rows (alter (set_checked (negb (checked row))) e) p))
      as (-> & -> & _).
    by rewrite visible_alter.
  - destruct (pending p !! k) as [t|]; [|done].
    by destruct (visible_toggleRuleStatus_settle t r
                   (set_pending (delete k (pending p)) p)) as (-> & -> & _).
Qed.

Lemma inv_rendered kinds rules :
  inv rules (set_allRules (snapshot (render kinds rules)) (render kinds rules)).
Proof.
  assert (∀ e, e ∈ tbody (render kinds rules)
               ↔ is_Some (rows (render kinds rules) !! e)) as Hdom.
  { intros e. rewrite render_lookup, fmap_is_Some, lookup_lt_is_Some. simpl.
    rewrite elem_of_seq. lia. }
  assert (map_Forall (row_of_rule rules) (rows (render kinds rules))) as Hrows.
  { intros e row. rewrite render_lookup.
    destruct (rules !! e) as [rule|] eqn:Hrule; intros ?; simplify_eq/=.
    by exists rule. }
  split.
  - apply NoDup_seq.
  - done.
  - apply (snapshot_elements (render kinds rules)). intros e. apply Hdom.
  - simpl. by rewrite length_seq.
  - simpl. destruct rules; split; (done || by intros []).
  - done.
  - by apply (snapshot_objs rules (render kinds rules)).
Qed.

Lemma count_shown_run rules evs p :
  rules ≠ [] → inv rules p → count_shown p → count_shown (run evs p).
Proof.
  intros Hne. revert p. induction evs as [|ev evs IH]; intros p Hinv Hc; [done|].
  cbn. apply IH; [by apply inv_step | by apply (count_shown_step rules)].
Qed.

Lemma step_tbody ev p : reorders ev = false → tbody (step ev p) = tbody p.
Proof.
  intros Hev. destruct ev as [s| |i|[]|value|e|k r]; try discriminate; cbn [step];
    rewrite ?filterRules_tbody; cbn [tbody set_searchInput set_action_boxes set_status_boxes];
    rewrite ?filterRules_tbody; try done.
  - destruct (action_filter p !! i); [|done].
    by repeat (rewrite filterRules_tbody; cbn [tbody set_action_boxes]).
  - destruct (rows p !! e) as [row|]; [|done].
    by destruct (visible_toggleRuleStatus_begin (onchange_ruleId row) e
                   (set_rows (alter (set_checked (negb (checked row))) e) p))
      as (_ & _ & ->).
  - destruct (pending p !! k) as [t|]; [|done].
    by destruct (visible_toggleRuleStatus_settle t r
                   (set_pending (delete k (pending p)) p)) as (_ & _ & ->).
Qed.
End across_events.

(** X1: on the page of a non-empty rule set the count line shows, after any
    sequence of searches, box clicks, sorts, switch clicks and answers, the
    number of rows that are on display. *)
Theorem count_line_counts_rows_on_display `{Builtins}
    (kinds : list string) (rules : list Server.Rule) (evs : list Dashboard.Event) :
  rules ≠ [] →
  Dashboard.rulesCount (Dashboard.run evs (Dashboard.loadRules kinds rules))
  = Some (length (Dashboard.visible (Dashboard.run evs (Dashboard.loadRules kinds rules)))).
Proof.
  intros Hne. apply (count_shown_run rules); [done | apply inv_loadRules |].
  apply (filterRules_count rules); [apply inv_rendered | done].
Qed.

Lemma count_line_counts_rows_on_display_witness :
  Dashboard.rulesCount
    (@Dashboard.run Sample.builtins
       [Dashboard.ChangeStatusFilter false; Dashboard.ChangeStatusSwitch 0;
        Dashboard.FetchSettles 0 (Response true (JsonData (Js.Bool false)));
        Dashboard.ChangeSort "action"]
       (Dashboard.loadRules Scenario.kinds [Scenario.alpha; Scenario.beta]))
  = Some (length (Dashboard.visible
       (@Dashboard.run Sample.builtins
          [Dashboard.ChangeStatusFilter false; Dashboard.ChangeStatusSwitch 0;
           Dashboard.FetchSettles 0 (Response true (JsonData (Js.Bool false)));
           Dashboard.ChangeSort "action"]
          (Dashboard.loadRules Scenario.kinds [Scenario.alpha; Scenario.beta])))).
Proof.
  refine (@count_line_counts_rows_on_display Sample.builtins Scenario.kinds
            [Scenario.alpha; Scenario.beta] _ _).
  discriminate.
Defined.

(** X2: as long as no sort key is chosen the rows stay in the order in which
    the server listed the rules: searching, checking boxes, clicking status
    switches and their answers never move a row. *)
Theorem only_sorting_moves_rows `{Builtins}
    (kinds : list string) (rules : list Server.Rule) (evs : list Dashboard.Event) :
  Forall (λ ev, DashboardExt.reorders ev = false) evs →
  Dashboard.tbody (Dashboard.run evs (Dashboard.loadRules kinds rules))
  = seq 0 (length rules).
Proof.
  intros Hevs.
  assert (Dashboard.tbody (Dashboard.loadRules kinds rules) = seq 0 (length rules)) as <-.
  { unfold Dashboard.loadRules, Dashboard.DOMContentLoaded. by rewrite filterRules_tbody. }
  generalize (Dashboard.loadRules kinds rules).
  induction Hevs as [|ev evs Hev Hevs IH]; intros p; [done|].
  change (Dashboard.tbody (Dashboard.run evs (Dashboard.step ev p)) = Dashboard.tbody p).
  by rewrite IH, step_tbody.
Qed.

Lemma only_sorting_moves_rows_witness :
  Dashboard.tbody
    (@Dashboard.run Sample.builtins
       [Dashboard.Input "beta"; Dashboard.ChangeStatusSwitch 1;
        Dashboard.FetchSettles 0 (Response true (JsonData (Js.Bool true)));
        Dashboard.ChangeFilterAll]
       (Dashboard.loadRules Scenario.kinds [Scenario.alpha; Scenario.beta]))
  = [0; 1]%nat.
Proof.
  refine (@only_sorting_moves_rows Sample.builtins Scenario.kinds
            [Scenario.alpha; Scenario.beta] _ _).
  repeat constructor.
Defined.

(** X3: choosing a sort key changes the order of the rows and nothing else
    about them: every row element is as it was, the same rows are on display
    and the count line is untouched. *)
Theorem sorting_keeps_rows_and_count `{Builtins}
    (kinds : list string) (rules : list Server.Rule) (evs : list Dashboard.Event)
    (sortBy : string) :
  Dashboard.rows (Dashboard.sortRules sortBy (Dashboard.run evs (Dashboard.loadRules kinds rules)))
  = Dashboard.rows (Dashboard.run evs (Dashboard.loadRules kinds rules))
  ∧ Dashboard.tbody
      (Dashboard.sortRules sortBy (Dashboard.run evs (Dashboard.loadRules kinds rules)))
    ≡ₚ Dashboard.tbody (Dashboard.run evs (Dashboard.loadRules kinds rules))
  ∧ Dashboard.visible
      (Dashboard.sortRules sortBy (Dashboard.run evs (Dashboard.loadRules kinds rules)))
    ≡ₚ Dashboard.visible (Dashboard.run evs (Dashboard.loadRules kinds rules))
  ∧ Dashboard.rulesCount
      (Dashboard.sortRules sortBy (Dashboard.run evs (Dashboard.loadRules kinds rules)))
    = Dashboard.rulesCount (Dashboard.run evs (Dashboard.loadRules kinds rules)).
Proof.
  pose proof (inv_reachable kinds rules evs) as Hinv.
  split; [done|]. split; [|split; [by apply (visible_sortRules rules) | done]].
  apply sortRules_tbody_perm. intros e. apply (Dashboard.inv_dom _ _ Hinv).
Qed.

(** ** Running the filter again, and narrowing a search *)

Section filter_again.
Import Dashboard.
Implicit Types (p : Page) (rules : list Server.Rule).

Lemma page_eq p q :
  rows p = rows q → tbody p = tbody q → allRules p = allRules q →
  searchInput p = searchInput q → filterAll p = filterAll q →
  action_filter p = action_filter q → filterActive p = filterActive q →
  filterInactive p = filterInactive q → rulesCount p = rulesCount q →
  alerts p = alerts q → console p = console q → pending p = pending q →
  p = q.
Proof. destruct p, q. cbn. intros. by simplify_eq. Qed.

Lemma filterRules_console p :
  allRules p ≠ [] → console (filterRules p) = console p.
Proof. unfold filterRules. by destruct (allRules p). Qed.

Lemma set_display_twice d row : set_display d (set_display d row) = set_display d row.
Proof. done. Qed.

Lemma loop_again t all acts stats (rs : list RuleObj) (m : gmap nat RowElem) :
  NoDup (element <$> rs) →
  foldl (filter_rule t all acts stats)
    ((foldl (filter_rule t all acts stats) (m, 0%nat) rs).1, 0%nat) rs
  = foldl (filter_rule t all acts stats) (m, 0%nat) rs.
Proof.
  intros Hnd.
  apply (injective_projections); [|by rewrite !loop_count].
  apply map_eq. intros e.
  destruct (decide (e ∈ element <$> rs)) as [Hin|Hnin].
  - apply list_elem_of_fmap in Hin as (r & -> & Hr).
    rewrite loop_lookup_in by done. cbn [fst].
    rewrite loop_lookup_in by done. cbn [fst].
    by destruct (m !! element r).
  - rewrite loop_lookup_notin by done. done.
Qed.

Lemma filterRules_again rules p :
  inv rules p → rules ≠ [] → filterRules (filterRules p) = filterRules p.
Proof.
  intros Hinv Hne.
  pose proof (inv_filterRules _ _ Hinv) as Hinv'.
  assert (allRules p ≠ []) as Hall.
  { intros Hnil. pose proof (inv_all _ _ Hinv) as Ha. pose proof (inv_len _ _ Hinv) as Hl.
    rewrite Hnil in Ha. rewrite <- Ha in Hl. by destruct rules. }
  assert (loop_result (filterRules p) = loop_result p) as Hloop.
  { unfold loop_result.
    rewrite (inv_loop_rules _ _ Hinv'), filterRules_allRules, (inv_loop_rules _ _ Hinv).
    rewrite filterRules_searchInput, filterRules_filterAll.
    unfold actionFilters, statusFilters.
    rewrite filterRules_action_filter, filterRules_filterActive, filterRules_filterInactive.
    rewrite filterRules_rows. unfold loop_result.
    rewrite (inv_loop_rules _ _ Hinv).
    apply loop_again. rewrite (inv_all _ _ Hinv). apply (inv_nodup _ _ Hinv). }
  apply page_eq.
  - by rewrite !filterRules_rows, Hloop.
  - by rewrite !filterRules_tbody.
  - by rewrite !filterRules_allRules, (inv_loop_rules _ _ Hinv'), filterRules_allRules.
  - by rewrite !filterRules_searchInput.
  - by rewrite !filterRules_filterAll.
  - by rewrite !filterRules_action_filter.
  - by rewrite !filterRules_filterActive.
  - by rewrite !filterRules_filterInactive.
  - rewrite !filterRules_rulesCount, Hloop. by destruct (rulesCount p).
  - by rewrite !filterRules_alerts.
  - rewrite filterRules_console; [done|].
    by rewrite filterRules_allRules, (inv_loop_rules _ _ Hinv).
  - by rewrite !filterRules_pending.
Qed.

Lemma string_app_assoc (a b c : string) : (a +:+ b) +:+ c = a +:+ (b +:+ c).
Proof. induction a as [|x a IH]; [done|]. by rewrite !app_cons, IH. Qed.

Lemma includes_trans (a b c : string) :
  Js.includes a b = true → Js.includes b c = true → Js.includes a c = true.
Proof.
  rewrite !includes_spec. intros (x & y & ->) (u & v & ->).
  exists (x +:+ u), (v +:+ y). by rewrite !string_app_assoc.
Qed.

Lemma includes_in_empty (t : string) : Js.includes "" t = true → t = "".
Proof.
  rewrite includes_spec. intros (a & b & Hab).
  destruct a; [|rewrite app_cons in Hab; discriminate].
  rewrite app_empty in Hab. destruct t; [done|]. rewrite app_cons in Hab. discriminate.
Qed.

Lemma matchesSearch_mono t t' r :
  Js.includes t' t = true → matchesSearch t' r = true → matchesSearch t r = true.
Proof.
  intros Htt. unfold matchesSearch.
  rewrite !orb_true_iff, !andb_true_iff, !negb_true_iff.
  intros [[[Ht'|[? Hin]]|[? Hin]]|[? Hin]].
  - unfold Js.truthy_str in Ht'. apply negb_false_iff, eqb_true in Ht'. subst t'.
    apply includes_in_empty in Htt. subst t. by do 3 left.
  - left; left; right. split; [done|]. by apply (includes_trans _ t').
  - left; right. split; [done|]. by apply (includes_trans _ t').
  - right. split; [done|]. by apply (includes_trans _ t').
Qed.
End filter_again.

(** X4: on the page of a non-empty rule set, running the filter a second
    time with nothing changed in between changes nothing at all. *)
Theorem filtering_twice_is_filtering_once `{Builtins}
    (kinds : list string) (rules : list Server.Rule) (evs : list Dashboard.Event) :
  rules ≠ [] →
  Dashboard.filterRules
    (Dashboard.filterRules (Dashboard.run evs (Dashboard.loadRules kinds rules)))
  = Dashboard.filterRules (Dashboard.run evs (Dashboard.loadRules kinds rules)).
Proof. intros Hne. apply (filterRules_again rules); [apply inv_reachable | done]. Qed.

Lemma filtering_twice_is_filtering_once_witness :
  Dashboard.filterRules
    (Dashboard.filterRules
       (@Dashboard.run Sample.builtins [Dashboard.ChangeSort "name"]
          (Dashboard.loadRules Scenario.kinds [Scenario.alpha; Scenario.beta])))
  = Dashboard.filterRules
      (@Dashboard.run Sample.builtins [Dashboard.ChangeSort "name"]
         (Dashboard.loadRules Scenario.kinds [Scenario.alpha; Scenario.beta])).
Proof.
  refine (@filtering_twice_is_filtering_once Sample.builtins Scenario.kinds
            [Scenario.alpha; Scenario.beta] _ _).
  discriminate.
Defined.

(** X5: narrowing a search never brings a row back.  If the trimmed,
    lower-cased term of one search contains that of another, every row the
    first search displays is displayed by the second as well, the boxes being
    the same. *)
Theorem narrower_search_shows_fewer `{Builtins}
    (kinds : list string) (rules : list Server.Rule) (evs : list Dashboard.Event)
    (s s' : string) (e : nat) :
  Js.includes (Js.trim (Js.toLowerCase s')) (Js.trim (Js.toLowerCase s)) = true →
  e ∈ Dashboard.visible
        (Dashboard.step (Dashboard.Input s')
           (Dashboard.run evs (Dashboard.loadRules kinds rules))) →
  e ∈ Dashboard.visible
        (Dashboard.step (Dashboard.Input s)
           (Dashboard.run evs (Dashboard.loadRules kinds rules))).
Proof.
  intros Hsub. cbn [Dashboard.step].
  pose proof (inv_reachable kinds rules evs) as Hinv.
  rewrite !(filterRules_visible rules) by by apply inv_set_searchInput.
  rewrite !list_elem_of_fmap. intros (r & -> & Hr). exists r. split; [done|].
  apply list_elem_of_filter in Hr as [Hpass Hr]. apply list_elem_of_filter.
  split; [|done]. cbn in *. unfold Dashboard.matches in *.
  rewrite !andb_true_iff in *. destruct Hpass as [[Hs ?] ?].
  repeat split; try done. by apply (matchesSearch_mono _ _ _ Hsub).
Qed.

Lemma narrower_search_shows_fewer_witness :
  0%nat ∈ Dashboard.visible
        (@Dashboard.step Sample.builtins (Dashboard.Input " Al")
           (@Dashboard.run Sample.builtins [Dashboard.ChangeSort "action"]
              (Dashboard.loadRules Scenario.kinds [Scenario.alpha; Scenario.beta]))).
Proof.
  refine (@narrower_search_shows_fewer Sample.builtins Scenario.kinds
            [Scenario.alpha; Scenario.beta] [Dashboard.ChangeSort "action"]
            " Al" "ALPHA " 0%nat _ _).
  - vm_compute. reflexivity.
  - vm_compute. apply list_elem_of_here.
Defined.

(** ** The other sort keys, and sorting by one key after another *)

Section by_key.
Import Dashboard DashboardExt.
Context `{Builtins}.
Implicit Types (p : Page) (l : list (nat * RowElem)).

Hypothesis anti : ∀ a b, Z.sgn (localeCompare b a) = - Z.sgn (localeCompare a b).
Hypothesis trans : ∀ a b c,
  localeCompare a b <= 0 → localeCompare b c <= 0 → localeCompare a c <= 0.

(** A key of [sortRules] that compares a text attribute [k] of the rows. *)
Context (sortBy : string) (k : RowElem → string).
Hypothesis text_key : ∀ a b, compare_rows sortBy a b = Some (localeCompare (k a) (k b)).

Local Abbreviation by_k := (λ a b : nat * RowElem, compare_rows sortBy a.2 b.2).

Lemma le_by_key x y : Js.le by_k x y ↔ localeCompare (k x.2) (k y.2) <= 0.
Proof. unfold Js.le, Js.SortCompare. by rewrite text_key. Qed.

Lemma collate_refl a : localeCompare a a = 0.
Proof. pose proof (anti a a). destruct (localeCompare a a); simpl in *; lia. Qed.

Lemma collate_flip a b : localeCompare a b <= 0 → localeCompare b a <= 0 → localeCompare a b = 0.
Proof.
  intros Hab Hba. pose proof (anti a b) as Ha.
  destruct (localeCompare a b), (localeCompare b a); simpl in *; lia.
Qed.

Lemma by_key_total x y : Js.le by_k x y ∨ Js.le by_k y x.
Proof.
  rewrite !le_by_key. pose proof (anti (k x.2) (k y.2)) as Ha.
  destruct (localeCompare (k x.2) (k y.2)), (localeCompare (k y.2) (k x.2));
    simpl in Ha; lia.
Qed.

Lemma by_key_trans : Transitive (Js.le by_k).
Proof. intros x y z. rewrite !le_by_key. apply trans. Qed.

Lemma by_key_equiv s x y :
  localeCompare s (k x.2) = 0 → localeCompare s (k y.2) = 0 → Js.le by_k x y.
Proof.
  intros Hx Hy. rewrite le_by_key. apply (trans _ s); [|lia].
  pose proof (anti s (k x.2)) as Ha. rewrite Hx in Ha. simpl in Ha.
  destruct (localeCompare (k x.2) s); simpl in Ha; lia.
Qed.

Lemma sort_key_pairs_sorted l : StronglySorted (Js.le by_k) (Js.sort by_k l).
Proof.
  apply Sorted_StronglySorted; [apply by_key_trans|].
  apply sort_sorted, by_key_total.
Qed.

Lemma sort_key_sorted p :
  StronglySorted (λ a b, localeCompare (k a) (k b) <= 0) (row_list (sortRules sortBy p)).
Proof.
  unfold row_list. rewrite sortRules_rule_rows.
  apply (StronglySorted_fmap snd (Js.le by_k)); [by intros x y ?%le_by_key|].
  apply sort_key_pairs_sorted.
Qed.

Lemma sort_key_pairs_stable s l :
  filter (λ x : nat * RowElem, (localeCompare s (k x.2) =? 0) = true) (Js.sort by_k l)
  = filter (λ x : nat * RowElem, (localeCompare s (k x.2) =? 0) = true) l.
Proof.
  apply sort_filter. intros x y Hx%Z.eqb_eq Hy%Z.eqb_eq. by apply (by_key_equiv s).
Qed.

Lemma sort_key_stable p (equiv : nat → bool) s :
  (∀ e row, rows p !! e = Some row → equiv e = (localeCompare s (k row) =? 0)) →
  (∀ e, rows p !! e = None → equiv e = false) →
  filter (λ e, equiv e = true) (tbody (sortRules sortBy p))
  = filter (λ e, equiv e = true) (tbody p).
Proof.
  intros Hsome Hnone.
  set (P := λ x : nat * RowElem, localeCompare s (k x.2) =? 0).
  rewrite (filter_tbody p equiv P) by done.
  cbn [sortRules tbody set_allRules set_tbody].
  rewrite (filter_bound p _ equiv P); [|done|apply bound_sort, bound_rule_rows].
  f_equal. apply sort_key_pairs_stable.
Qed.

Lemma sort_key_idemp p :
  sortRules sortBy (sortRules sortBy p) = sortRules sortBy p.
Proof.
  apply sortRules_twice. rewrite sortRules_rule_rows.
  apply sort_idemp, by_key_total.
Qed.
End by_key.

Section sorted_sublists.
Context {A : Type}.

Lemma StronglySorted_filter (R : relation A) (P : A → Prop) `{!∀ x, Decision (P x)}
    (l : list A) :
  StronglySorted R l → StronglySorted R (filter P l).
Proof.
  induction 1 as [|x l Hs IH Hall]; [constructor|].
  rewrite filter_cons. destruct (decide (P x)); [|done].
  constructor; [done|]. rewrite Forall_forall in *.
  intros y [_ Hy]%list_elem_of_filter. by apply Hall.
Qed.

(** Sorted by [RA], and sorted by [RN] within each class [P s]: then sorted
    by [RA] with ties in [RN] order, when tied elements share a class. *)
Lemma StronglySorted_lex {K} (RA RN : relation A) (key : A → K) (P : K → A → Prop)
    `{!∀ s x, Decision (P s x)} (l : list A) :
  (∀ x y, RA x y → RA y x → P (key x) x ∧ P (key x) y) →
  StronglySorted RA l →
  (∀ s, StronglySorted RN (filter (P s) l)) →
  StronglySorted (λ x y, RA x y ∧ (RA y x → RN x y)) l.
Proof.
  intros Htie HA. induction HA as [|x l HA IH Hall]; intros HN; [constructor|].
  constructor.
  - apply IH. intros s. specialize (HN s). rewrite filter_cons in HN.
    destruct (decide (P s x)); [by apply StronglySorted_inv in HN as [? _]|done].
  - rewrite Forall_forall in *. intros y Hy. split; [by apply Hall|].
    intros Hyx. destruct (Htie x y (Hall y Hy) Hyx) as [Px Py].
    specialize (HN (key x)). rewrite filter_cons, decide_True in HN by done.
    apply StronglySorted_inv in HN as [_ HN]. rewrite Forall_forall in HN.
    apply HN. by apply list_elem_of_filter.
Qed.
End sorted_sublists.

Section then_by.
Import Dashboard DashboardExt.
Context `{Builtins}.

Hypothesis anti : ∀ a b, Z.sgn (localeCompare b a) = - Z.sgn (localeCompare a b).
Hypothesis trans : ∀ a b c,
  localeCompare a b <= 0 → localeCompare b c <= 0 → localeCompare a c <= 0.

Lemma name_key a b :
  compare_rows "name" a b = Some (localeCompare (dataset_name a) (dataset_name b)).
Proof. reflexivity. Qed.

Lemma action_key a b :
  compare_rows "action" a b = Some (localeCompare (dataset_action a) (dataset_action b)).
Proof. reflexivity. Qed.

Lemma sort_name_then_action p :
  StronglySorted by_action_then_name
    (row_list (sortRules "action" (sortRules "name" p))).
Proof.
  unfold row_list. rewrite !sortRules_rule_rows.
  set (l1 := Js.sort (λ a b : nat * RowElem, compare_rows "name" a.2 b.2) (rule_rows p)).
  apply (StronglySorted_fmap snd
           (λ x y, Js.le (λ a b : nat * RowElem, compare_rows "action" a.2 b.2) x y
                   ∧ (Js.le (λ a b : nat * RowElem, compare_rows "action" a.2 b.2) y x →
                      Js.le (λ a b : nat * RowElem, compare_rows "name" a.2 b.2) x y))).
  { intros x y [Hxy Hyx]. split; [by apply (le_by_key "action" dataset_action action_key)|].
    intros Hba. apply (le_by_key "name" dataset_name name_key), Hyx.
    by apply (le_by_key "action" dataset_action action_key). }
  apply (@StronglySorted_lex _ string _ _ (λ x : nat * RowElem, dataset_action x.2)
           (λ s (x : nat * RowElem), (localeCompare s (dataset_action x.2) =? 0) = true)
           (λ s x, decide ((localeCompare s (dataset_action x.2) =? 0) = true))).
  - intros x y Hxy%(le_by_key "action" dataset_action action_key)
      Hyx%(le_by_key "action" dataset_action action_key).
    rewrite !Z.eqb_eq. split; [by apply collate_refl | by apply collate_flip].
  - by apply (sort_key_pairs_sorted anti trans "action" dataset_action action_key).
  - intros s.
    rewrite (sort_key_pairs_stable anti trans "action" dataset_action action_key).
    apply StronglySorted_filter.
    by apply (sort_key_pairs_sorted anti trans "name" dataset_name name_key).
Qed.
End then_by.

(** X6: when [localeCompare] is a consistent comparator, sorting by action
    leaves the rows in non-decreasing order of their actions, rows whose
    actions collate as equal keep the order they had, and sorting by action
    again changes nothing. *)
Theorem sort_by_action `{Builtins} (p : Dashboard.Page) :
  (∀ a b, Z.sgn (localeCompare b a) = - Z.sgn (localeCompare a b)) →
  (∀ a b c, localeCompare a b <= 0 → localeCompare b c <= 0 → localeCompare a c <= 0) →
  StronglySorted
    (λ a b, localeCompare (Dashboard.dataset_action a) (Dashboard.dataset_action b) <= 0)
    (Dashboard.row_list (Dashboard.sortRules "action" p))
  ∧ (∀ s,
       filter (λ e, DashboardExt.action_equiv p s e = true)
         (Dashboard.tbody (Dashboard.sortRules "action" p))
       = filter (λ e, DashboardExt.action_equiv p s e = true) (Dashboard.tbody p))
  ∧ Dashboard.sortRules "action" (Dashboard.sortRules "action" p)
    = Dashboard.sortRules "action" p.
Proof.
  intros anti trans. split; [|split].
  - by apply (sort_key_sorted anti trans "action" Dashboard.dataset_action action_key).
  - intros s.
    apply (sort_key_stable anti trans "action" Dashboard.dataset_action action_key p _ s).
    + intros e row Hrow. unfold DashboardExt.action_equiv. by rewrite Hrow.
    + intros e Hrow. unfold DashboardExt.action_equiv. by rewrite Hrow.
  - by apply (sort_key_idemp anti "action" Dashboard.dataset_action action_key).
Qed.

Lemma sort_by_action_witness :
  @Dashboard.sortRules Sample.builtins "action"
    (@Dashboard.sortRules Sample.builtins "action" Scenario.page)
  = @Dashboard.sortRules Sample.builtins "action" Scenario.page.
Proof.
  exact (proj2 (proj2 (@sort_by_action Sample.builtins Scenario.page
                         codeunit_anti codeunit_trans))).
Defined.

(** X7: when [localeCompare] is a consistent comparator, sorting by name and
    then by action leaves the rows in action order, and among the rows
    whose actions tie in the order of the lower-cased names the template
    stored in them ([data-name]): the second sort keeps what the first
    did. *)
Theorem sort_by_name_then_action `{Builtins} (p : Dashboard.Page) :
  (∀ a b, Z.sgn (localeCompare b a) = - Z.sgn (localeCompare a b)) →
  (∀ a b c, localeCompare a b <= 0 → localeCompare b c <= 0 → localeCompare a c <= 0) →
  StronglySorted DashboardExt.by_action_then_name
    (Dashboard.row_list (Dashboard.sortRules "action" (Dashboard.sortRules "name" p))).
Proof. intros anti trans. by apply sort_name_then_action. Qed.

Lemma sort_by_name_then_action_witness :
  StronglySorted (@DashboardExt.by_action_then_name Sample.builtins)
    (Dashboard.row_list
       (@Dashboard.sortRules Sample.builtins "action"
          (@Dashboard.sortRules Sample.builtins "name" Scenario.page))).
Proof.
  exact (@sort_by_name_then_action Sample.builtins Scenario.page
           codeunit_anti codeunit_trans).
Defined.

Section by_created.
Import Dashboard DashboardExt.
Context `{Builtins}.

Local Abbreviation by_created :=
  (λ a b : nat * RowElem, compare_rows "created" a.2 b.2).

Lemma compare_created a b :
  compare_rows "created" a b = Js.date_sub (created_time b) (created_time a).
Proof. reflexivity. Qed.

Lemma by_created_total x y : Js.le by_created x y ∨ Js.le by_created y x.
Proof.
  unfold Js.le, Js.SortCompare. rewrite !compare_created.
  destruct (created_time x.2), (created_time y.2); simpl; lia.
Qed.

Lemma created_newer_or_same_trans : Transitive created_newer_or_same.
Proof.
  intros a b c (ta & tb & Ha & Hb & Hab) (tb' & tc & Hb' & Hc & Hbc).
  exists ta, tc. repeat split; try done. simplify_eq. lia.
Qed.

Lemma created_le x y :
  is_Some (created_time x.2) → is_Some (created_time y.2) →
  Js.le by_created x y → created_newer_or_same x.2 y.2.
Proof.
  intros [tx Hx] [ty Hy]. unfold Js.le, Js.SortCompare.
  rewrite compare_created, Hx, Hy. simpl. intros Hle.
  exists tx, ty. repeat split; try done. lia.
Qed.

Lemma created_sorted (l : list (nat * RowElem)) :
  Forall (λ x, is_Some (created_time x.2)) l →
  Sorted (Js.le by_created) l → Sorted created_newer_or_same (l.*2).
Proof.
  intros Hd Hs. induction Hs as [|x l Hs IH Hhd]; [constructor|].
  apply Forall_cons in Hd as [Hx Hd]. rewrite fmap_cons. constructor; [by apply IH|].
  destruct Hhd as [|y l Hxy]; [constructor|].
  rewrite fmap_cons. constructor. apply Forall_cons in Hd as [Hy _].
  by apply created_le.
Qed.

Lemma sort_created_sorted p :
  Forall (λ row, is_Some (created_time row)) (row_list p) →
  StronglySorted created_newer_or_same (row_list (sortRules "created" p)).
Proof.
  intros Hd. apply Sorted_StronglySorted; [apply created_newer_or_same_trans|].
  unfold row_list. rewrite sortRules_rule_rows. apply created_sorted.
  - unfold row_list in Hd. rewrite Forall_fmap in Hd. by rewrite sort_perm.
  - apply sort_sorted, by_created_total.
Qed.

(** Any key other than the three named ones sorts as [modified] does. *)
Lemma default_key sortBy a b :
  sortBy ≠ "name" → sortBy ≠ "action" → sortBy ≠ "created" →
  compare_rows sortBy a b = compare_rows "modified" a b.
Proof.
  intros Hn Ha Hc. unfold compare_rows.
  apply String.eqb_neq in Hn, Ha, Hc. by rewrite Hn, Ha, Hc.
Qed.
End by_created.

(** X8: when the creation date of every row parses, sorting by creation date
    leaves the rows newest first, and the rows are the same rows as before. *)
Theorem sort_by_created `{Builtins} (p : Dashboard.Page) :
  Forall (λ row, is_Some (DashboardExt.created_time row)) (Dashboard.row_list p) →
  StronglySorted DashboardExt.created_newer_or_same
    (Dashboard.row_list (Dashboard.sortRules "created" p))
  ∧ Dashboard.row_list (Dashboard.sortRules "created" p) ≡ₚ Dashboard.row_list p.
Proof.
  intros Hd. split; [by apply sort_created_sorted|].
  unfold Dashboard.row_list. by rewrite sortRules_rule_rows, sort_perm.
Qed.

Lemma sort_by_created_witness :
  StronglySorted (@DashboardExt.created_newer_or_same Sample.builtins)
    (Dashboard.row_list (@Dashboard.sortRules Sample.builtins "created" Scenario.page)).
Proof.
  refine (proj1 (@sort_by_created Sample.builtins Scenario.page _)).
  replace (Dashboard.row_list Scenario.page)
    with [Dashboard.render_row Scenario.alpha; Dashboard.render_row Scenario.beta]
    by (vm_compute; reflexivity).
  repeat (constructor; [vm_compute; eexists; reflexivity|]). constructor.
Defined.

(** ** What an answer does to a row *)

Section answers.
Import Dashboard DashboardExt.
Context `{Builtins}.

Lemma classList_remove_twice c l :
  Js.classList_remove c (Js.classList_remove c l) = Js.classList_remove c l.
Proof.
  unfold Js.classList_remove. induction l as [|x l IH]; [done|].
  rewrite !filter_cons. destruct (decide (x ≠ c)); [|done].
  rewrite filter_cons, decide_True by done. by rewrite IH.
Qed.

Lemma classList_add_twice c l :
  Js.classList_add c (Js.classList_add c l) = Js.classList_add c l.
Proof.
  unfold Js.classList_add. destruct (bool_decide (c ∈ l)) eqn:Hin.
  - by rewrite Hin.
  - rewrite bool_decide_true; [done|]. apply elem_of_app. right. by left.
Qed.

Lemma classList_remove_add c d l :
  c ≠ d →
  Js.classList_remove c (Js.classList_add d l) = Js.classList_add d (Js.classList_remove c l).
Proof.
  intros Hne. unfold Js.classList_add, Js.classList_remove.
  assert (d ∈ filter (λ x, x ≠ c) l ↔ d ∈ l) as Hiff.
  { rewrite list_elem_of_filter. split; [by intros [_ ?]|].
    intros Hd. split; [|done]. intros Heq. by apply Hne. }
  rewrite (bool_decide_ext _ _ Hiff).
  destruct (bool_decide (d ∈ l)); [done|].
  rewrite filter_app. f_equal. rewrite filter_cons, decide_True by done. done.
Qed.

Lemma restyle_twice on row : restyle on (restyle on row) = restyle on row.
Proof.
  destruct row. unfold restyle. cbn -[Js.classList_add Js.classList_remove].
  destruct on.
  - f_equal; [apply classList_remove_twice|].
    rewrite classList_remove_add by done.
    by rewrite classList_remove_twice, classList_add_twice.
  - f_equal; [apply classList_add_twice|].
    rewrite classList_remove_add by done.
    by rewrite classList_remove_twice, classList_add_twice.
Qed.

Lemma answer_twice v row :
  set_dataset_active (Js.ToString v)
    (restyle (Js.truthy v) (set_dataset_active (Js.ToString v) (restyle (Js.truthy v) row)))
  = set_dataset_active (Js.ToString v) (restyle (Js.truthy v) row).
Proof.
  change (restyle (Js.truthy v) (set_dataset_active (Js.ToString v) (restyle (Js.truthy v) row)))
    with (set_dataset_active (Js.ToString v) (restyle (Js.truthy v) (restyle (Js.truthy v) row))).
  by rewrite restyle_twice.
Qed.

Lemma settle_other_rows t r p e :
  e ≠ checkbox t → rows (toggleRuleStatus_settle t r p) !! e = rows p !! e.
Proof.
  intros Hne. destruct r as [msg|[] [msg|v]]; cbn; by rewrite lookup_alter_ne.
Qed.

Lemma settle_own_row t r p row' :
  rows (toggleRuleStatus_settle t r p) !! checkbox t = Some row' →
  ∃ row, rows p !! checkbox t = Some row
    ∧ dataset_name row' = dataset_name row
    ∧ dataset_action row' = dataset_action row
    ∧ dataset_description row' = dataset_description row
    ∧ dataset_created row' = dataset_created row
    ∧ dataset_modified row' = dataset_modified row
    ∧ query_preview row' = query_preview row
    ∧ style_display row' = style_display row
    ∧ onchange_ruleId row' = onchange_ruleId row.
Proof.
  destruct r as [msg|[] [msg|v]]; cbn; rewrite lookup_alter_eq;
    destruct (rows p !! checkbox t) as [row|]; cbn; intros ?; simplify_eq;
    exists row; done.
Qed.

Lemma run_app evs evs' p : run (evs ++ evs') p = run evs' (run evs p).
Proof. unfold run. by rewrite foldl_app. Qed.

Lemma alert_all_snoc msgs msg p : alert_all (msgs ++ [msg]) p = alert msg (alert_all msgs p).
Proof. unfold alert_all. by rewrite foldl_app. Qed.

Lemma alert_all_fields msgs p :
  rows (alert_all msgs p) = rows p ∧ pending (alert_all msgs p) = pending p.
Proof.
  induction msgs as [|msg msgs IH] using rev_ind; [done|].
  rewrite alert_all_snoc. cbn. done.
Qed.

Lemma failed_toggles ers p :
  Forall (λ er, is_Some (rows p !! er.1) ∧ failed er.2 = true) ers →
  ∃ msgs, length msgs = length ers
    ∧ run (ers ≫= failed_toggle p) p = alert_all msgs p.
Proof.
  induction ers as [|er ers IH] using rev_ind; intros Hall.
  - by exists [].
  - apply Forall_app in Hall as [Hall Her]. apply Forall_singleton in Her as [[row Hrow] Hfail].
    destruct (IH Hall) as (msgs & Hlen & Hrun).
    destruct (alert_all_fields msgs p) as [Hrows Hpend].
    destruct (toggle_then_fail (alert_all msgs p) er.1 row er.2) as [msg Hmsg];
      [by rewrite Hrows | done |].
    exists (msgs ++ [msg]). split; [rewrite !length_app; cbn; lia|].
    rewrite bind_app, run_app, Hrun, alert_all_snoc.
    rewrite <- Hmsg, Hpend. reflexivity.
Qed.
End answers.

(** X9: what a successful answer makes of a freshly rendered row is what the
    template would have rendered for the rule in the answered state, up to
    the text of the stored flag and the switch: class tokens of the row and
    of its link, pause icon and every data attribute agree. *)
Theorem restyled_row_is_template_row (rule : Server.Rule) (b : bool) :
  Dashboard.set_checked b
    (Dashboard.set_dataset_active (if b then "True" else "False")
       (Dashboard.restyle b (Dashboard.render_row rule)))
  = Dashboard.render_row (DashboardExt.with_active b rule).
Proof.
  destruct rule as [id name desc q act [| |[]] mx cnt cd md]; destruct b; reflexivity.
Qed.

(** X10: a successful answer brings a row to a state in which the same answer
    changes nothing more: no class token and no pause icon is added twice,
    on the row and on the page. *)
Theorem same_answer_twice_changes_nothing
    (t : Dashboard.Toggle) (v : Js.value) (p : Dashboard.Page) (row : Dashboard.RowElem) :
  Dashboard.restyle (Js.truthy v) (Dashboard.restyle (Js.truthy v) row)
  = Dashboard.restyle (Js.truthy v) row
  ∧ Dashboard.toggleRuleStatus_settle t (Response true (JsonData v))
      (Dashboard.toggleRuleStatus_settle t (Response true (JsonData v)) p)
    = Dashboard.toggleRuleStatus_settle t (Response true (JsonData v)) p.
Proof.
  split; [apply restyle_twice|].
  cbn. unfold Dashboard.set_rows. cbn. f_equal.
  apply map_eq. intros e. destruct (decide (Dashboard.checkbox t = e)) as [<-|Hne].
  - rewrite !lookup_alter_eq. destruct (Dashboard.rows p !! Dashboard.checkbox t); [|done].
    cbn. by rewrite answer_twice.
  - by rewrite !lookup_alter_ne.
Qed.

(** X11: the page stays usable after failed toggles.  Any number of clicks on
    switches of existing rows, each followed by the failure of its request,
    leave the page exactly as it was, with one alert shown for each. *)
Theorem failed_toggles_leave_page `{Builtins}
    (p : Dashboard.Page) (ers : list (nat * FetchResult)) :
  Forall (λ er, is_Some (Dashboard.rows p !! er.1) ∧ failed er.2 = true) ers →
  ∃ msgs, length msgs = length ers
    ∧ Dashboard.run (ers ≫= DashboardExt.failed_toggle p) p
      = DashboardExt.alert_all msgs p.
Proof. apply failed_toggles. Qed.

Lemma failed_toggles_leave_page_witness :
  ∃ msgs, length msgs = 2%nat
    ∧ @Dashboard.run Sample.builtins
        ([(1%nat, FetchRejects "offline"); (0%nat, Response false (JsonData Js.Null))]
           ≫= DashboardExt.failed_toggle Scenario.page) Scenario.page
      = DashboardExt.alert_all msgs Scenario.page.
Proof.
  refine (@failed_toggles_leave_page Sample.builtins Scenario.page
            [(1%nat, FetchRejects "offline"); (0%nat, Response false (JsonData Js.Null))] _).
  repeat (constructor; [split; [vm_compute; eexists; reflexivity | reflexivity]|]).
  constructor.
Defined.

(** X12: an answer, whatever it is, touches one row only.  No row element is
    created or removed and every other row element is left as it was; of
    the row of the switch the name, action, description, dates, query,
    visibility and rule id are left as they were; the row order, the copies
    in [allRules], the search box, the All Types box, every action box, the
    two status boxes, the count line, the console and the calls still
    waiting are not written; and a failure shows one alert, a success
    none. *)
Theorem answer_touches_one_row
    (t : Dashboard.Toggle) (r : FetchResult) (p : Dashboard.Page) :
  (∀ e, e ≠ Dashboard.checkbox t →
        Dashboard.rows (Dashboard.toggleRuleStatus_settle t r p) !! e
        = Dashboard.rows p !! e)
  ∧ (∀ row',
       Dashboard.rows (Dashboard.toggleRuleStatus_settle t r p) !! Dashboard.checkbox t
       = Some row' →
       ∃ row, Dashboard.rows p !! Dashboard.checkbox t = Some row
         ∧ Dashboard.dataset_name row' = Dashboard.dataset_name row
         ∧ Dashboard.dataset_action row' = Dashboard.dataset_action row
         ∧ Dashboard.dataset_description row' = Dashboard.dataset_description row
         ∧ Dashboard.dataset_created row' = Dashboard.dataset_created row
         ∧ Dashboard.dataset_modified row' = Dashboard.dataset_modified row
         ∧ Dashboard.query_preview row' = Dashboard.query_preview row
         ∧ Dashboard.style_display row' = Dashboard.style_display row
         ∧ Dashboard.onchange_ruleId row' = Dashboard.onchange_ruleId row)
  ∧ Dashboard.tbody (Dashboard.toggleRuleStatus_settle t r p) = Dashboard.tbody p
  ∧ Dashboard.allRules (Dashboard.toggleRuleStatus_settle t r p) = Dashboard.allRules p
  ∧ Dashboard.searchInput (Dashboard.toggleRuleStatus_settle t r p)
    = Dashboard.searchInput p
  ∧ Dashboard.statusFilters (Dashboard.toggleRuleStatus_settle t r p)
    = Dashboard.statusFilters p
  ∧ Dashboard.actionFilters (Dashboard.toggleRuleStatus_settle t r p)
    = Dashboard.actionFilters p
  ∧ Dashboard.rulesCount (Dashboard.toggleRuleStatus_settle t r p)
    = Dashboard.rulesCount p
  ∧ Dashboard.filterAll (Dashboard.toggleRuleStatus_settle t r p)
    = Dashboard.filterAll p
  ∧ Dashboard.action_filter (Dashboard.toggleRuleStatus_settle t r p)
    = Dashboard.action_filter p
  ∧ Dashboard.filterActive (Dashboard.toggleRuleStatus_settle t r p)
    = Dashboard.filterActive p
  ∧ Dashboard.filterInactive (Dashboard.toggleRuleStatus_settle t r p)
    = Dashboard.filterInactive p
  ∧ Dashboard.console (Dashboard.toggleRuleStatus_settle t r p)
    = Dashboard.console p
  ∧ Dashboard.pending (Dashboard.toggleRuleStatus_settle t r p)
    = Dashboard.pending p
  ∧ (∀ e, is_Some (Dashboard.rows (Dashboard.toggleRuleStatus_settle t r p) !! e)
          ↔ is_Some (Dashboard.rows p !! e))
  ∧ (if failed r
     then ∃ msg, Dashboard.alerts (Dashboard.toggleRuleStatus_settle t r p)
                 = Dashboard.alerts p ++ [msg]
     else Dashboard.alerts (Dashboard.toggleRuleStatus_settle t r p)
          = Dashboard.alerts p).
Proof.
  split; [intros e He; by apply settle_other_rows|].
  split; [apply settle_own_row|].
  do 12 (split; [by destruct r as [msg|[] [msg|v]]|]).
  split.
  - intros e. destruct (decide (e = Dashboard.checkbox t)) as [->|Hne].
    + destruct r as [msg|[] [msg|v]]; cbn; rewrite lookup_alter_eq;
        destruct (Dashboard.rows p !! Dashboard.checkbox t); cbn;
        by rewrite <- ?not_eq_None_Some.
    + by rewrite settle_other_rows.
  - destruct r as [msg|[] [msg|v]]; cbn; eauto.
Qed.

(** * Properties of the sidebar script *)

(** ** The rule id in the address *)

Section address.
Import Shell.

Lemma strip_prefix_app pre s : strip_prefix pre (pre +:+ s) = Some s.
Proof.
  induction pre as [|c pre IH]; [by destruct s|].
  rewrite app_cons. cbn. by rewrite Ascii.eqb_refl.
Qed.

Lemma strip_prefix_Some pre s x : strip_prefix pre s = Some x → s = pre +:+ x.
Proof.
  revert s. induction pre as [|c pre IH]; intros s; cbn.
  - destruct s; intros ?; by simplify_eq.
  - destruct s as [|c' s]; [done|].
    destruct (Ascii.eqb c c') eqn:Hc; [|done].
    apply Ascii.eqb_eq in Hc as ->. intros ->%IH. by rewrite app_cons.
Qed.

Lemma count_slash_app a b : count_slash (a +:+ b) = (count_slash a + count_slash b)%nat.
Proof. induction a as [|c a IH]; [done|]. rewrite app_cons. cbn. rewrite IH. lia. Qed.

Lemma no_slash_count s : no_slash s = true → count_slash s = 0%nat.
Proof.
  induction s as [|c s IH]; [done|]. cbn.
  destruct (Ascii.eqb c "/"); [done|]. cbn. intros ?. by rewrite IH.
Qed.

Lemma match_here_Some s x :
  match_here s = Some x ↔ s = "/rule/" +:+ x ∧ x ≠ "" ∧ no_slash x = true.
Proof.
  unfold match_here. split.
  - destruct (strip_prefix "/rule/" s) as [y|] eqn:Hy; [|done].
    apply strip_prefix_Some in Hy as ->.
    destruct (String.eqb y "") eqn:Hempty; [done|]. cbn.
    destruct (no_slash y) eqn:Hns; [|done]. intros ?; simplify_eq.
    split; [done|]. split; [|done]. by apply String.eqb_neq.
  - intros (-> & Hne & Hns). rewrite strip_prefix_app.
    apply String.eqb_neq in Hne. by rewrite Hne, Hns.
Qed.

Lemma match_rule_found pre id :
  id ≠ "" → no_slash id = true → match_rule (pre +:+ "/rule/" +:+ id) = Some id.
Proof.
  intros Hne Hns. induction pre as [|c pre IH].
  - rewrite app_empty. destruct id as [|c id]; [done|].
    assert (match_here ("/rule/" +:+ String c id) = Some (String c id)) as Hhere
      by by apply match_here_Some.
    change (match_rule ("/rule/" +:+ String c id))
      with (match match_here ("/rule/" +:+ String c id) with
            | Some x => Some x
            | None => match_rule ("rule/" +:+ String c id)
            end).
    by rewrite Hhere.
  - rewrite app_cons.
    change (match_rule (String c (pre +:+ "/rule/" +:+ id)))
      with (match match_here (String c (pre +:+ "/rule/" +:+ id)) with
            | Some x => Some x
            | None => match_rule (pre +:+ "/rule/" +:+ id)
            end).
    destruct (match_here (String c (pre +:+ "/rule/" +:+ id))) as [x|] eqn:Hhere; [|done].
    exfalso. apply match_here_Some in Hhere as (Heq & _ & Hx).
    rewrite (app_cons "/" "rule/" x) in Heq. injection Heq as -> Heq.
    apply (f_equal count_slash) in Heq.
    rewrite !count_slash_app, (no_slash_count x), (no_slash_count id) in Heq by done.
    change (count_slash "/rule/") with 2%nat in Heq.
    change (count_slash "rule/") with 1%nat in Heq. lia.
Qed.

Lemma match_rule_sound path id :
  match_rule path = Some id →
  id ≠ "" ∧ no_slash id = true ∧ ∃ pre, path = pre +:+ "/rule/" +:+ id.
Proof.
  induction path as [|c path IH].
  - cbn. done.
  - change (match_rule (String c path))
      with (match match_here (String c path) with
            | Some x => Some x
            | None => match_rule path
            end).
    destruct (match_here (String c path)) as [x|] eqn:Hhere.
    + intros ?; simplify_eq. apply match_here_Some in Hhere as (Heq & ? & ?).
      split; [done|]. split; [done|]. exists "". by rewrite app_empty.
    + intros (? & ? & pre & ->)%IH. split; [done|]. split; [done|].
      exists (String c pre). by rewrite app_cons.
Qed.
End address.

(** X13: [getCurrentRuleId] reads back exactly the ids [selectRule] can
    write.  The id found in an address is [id] if and only if [id] is not
    empty, holds no [/], and the address ends with the address
    [selectRule(id)] navigates to. *)
Theorem current_rule_id_is_selected_rule (path id : string) :
  Shell.getCurrentRuleId path = Some id ↔
  id ≠ "" ∧ Shell.no_slash id = true ∧ ∃ pre, path = pre +:+ Shell.selectRule id.
Proof.
  unfold Shell.getCurrentRuleId, Shell.selectRule. split.
  - apply match_rule_sound.
  - intros (? & ? & pre & ->). by apply match_rule_found.
Qed.

Example getCurrentRuleId_ex :
  Shell.getCurrentRuleId "/rule/42" = Some "42"
  ∧ Shell.getCurrentRuleId "/rule/new" = Some "new"
  ∧ Shell.getCurrentRuleId "/rule/42/edit" = None
  ∧ Shell.getCurrentRuleId "/rule/42/" = None
  ∧ Shell.getCurrentRuleId "/" = None
  ∧ Shell.getCurrentRuleId "/admin/rule/rule/7" = Some "7".
Proof. vm_compute. done. Qed.

(** ** The badge of an action *)

(** X14: the sidebar's script and the templates give an action the same
    badge class, for every action that is not the name of a member object
    literals inherit. *)
Theorem sidebar_badge_is_template_badge (action : string) :
  action ∉ Sidebar.inherited →
  Shell.getActionBadgeClass action = Some (DashboardExt.badge_class action).
Proof.
  intros Hin. unfold Shell.getActionBadgeClass, DashboardExt.badge_class.
  destruct (String.eqb action "sms") eqn:E1;
    [apply String.eqb_eq in E1 as ->; by vm_compute|].
  destruct (String.eqb action "bank-sync") eqn:E2;
    [apply String.eqb_eq in E2 as ->; by vm_compute|].
  destruct (String.eqb action "archive") eqn:E3;
    [apply String.eqb_eq in E3 as ->; by vm_compute|].
  destruct (String.eqb action "email-forward") eqn:E4;
    [apply String.eqb_eq in E4 as ->; by vm_compute|].
  destruct (String.eqb action "webhook") eqn:E5;
    [apply String.eqb_eq in E5 as ->; by vm_compute|].
  destruct (String.eqb action "mark-read") eqn:E6;
    [apply String.eqb_eq in E6 as ->; by vm_compute|].
  apply String.eqb_neq in E1, E2, E3, E4, E5, E6.
  rewrite (not_elem_of_list_to_map_1 (M := gmap string)).
  - by rewrite bool_decide_eq_false_2.
  - cbn. rewrite !elem_of_cons, elem_of_nil.
    intros Hx. repeat (destruct Hx as [Hx|Hx]; [congruence|]). exact Hx.
Qed.

Lemma sidebar_badge_is_template_badge_witness :
  Shell.getActionBadgeClass "webhook" = Some (DashboardExt.badge_class "webhook").
Proof.
  apply (sidebar_badge_is_template_badge "webhook").
  unfold Sidebar.inherited. rewrite !elem_of_cons, elem_of_nil.
  intros Hin. repeat (destruct Hin as [Hin|Hin]; [discriminate Hin|]). exact Hin.
Defined.

(** ** The list the sidebar draws *)

Section drawn_list.
Import Shell.

Lemma drawn_renderRulesList rules s : drawn (renderRulesList rules s) = rules.
Proof. by destruct rules. Qed.

Lemma rulesData_renderRulesList rules s :
  rulesData (renderRulesList rules s) = rulesData s.
Proof. by destruct rules. Qed.

Lemma searchRules_renderRulesList rules s :
  searchRules (renderRulesList rules s) = searchRules s.
Proof. by destruct rules. Qed.

Lemma sidebarOpen_renderRulesList rules s :
  sidebarOpen (renderRulesList rules s) = sidebarOpen s.
Proof. by destruct rules. Qed.

Lemma fetching_renderRulesList rules s :
  fetching (renderRulesList rules s) = fetching s.
Proof. by destruct rules. Qed.

Lemma in_step_renderRulesList rules s :
  in_step (renderRulesList rules s) ↔ in_step s.
Proof. by destruct rules. Qed.

Lemma filter_rules_sublist term l out :
  Sidebar.filter_rules term l = Some out → out `sublist_of` l.
Proof.
  revert out. induction l as [|rule l IH]; intros out; cbn.
  - intros ?; simplify_eq. constructor.
  - destruct (Sidebar.keep term rule) as [b|]; [|done]. cbn.
    destruct (Sidebar.filter_rules term l) as [rest|]; [|done]. cbn.
    intros ?; simplify_eq. destruct b; constructor; by apply IH.
Qed.

Lemma filterRules_cases v s :
  (drawn (filterRules v s) `sublist_of` rulesData s ∨ filterRules v s = s)
  ∧ rulesData (filterRules v s) = rulesData s
  ∧ sidebarOpen (filterRules v s) = sidebarOpen s
  ∧ (in_step (filterRules v s) ↔ in_step s).
Proof.
  unfold filterRules. cbn zeta.
  destruct (String.eqb (Js.trim (Js.toLowerCase v)) "").
  - rewrite drawn_renderRulesList, rulesData_renderRulesList,
      sidebarOpen_renderRulesList, in_step_renderRulesList. by split; [left|].
  - destruct (Sidebar.filter_rules _ (rulesData s)) as [out|] eqn:Hout.
    + rewrite drawn_renderRulesList, rulesData_renderRulesList,
        sidebarOpen_renderRulesList, in_step_renderRulesList.
      split; [left; by eapply filter_rules_sublist|done].
    + split; [by right|done].
Qed.

Lemma step_drawn ev s :
  drawn s `sublist_of` rulesData s →
  drawn (step ev s) `sublist_of` rulesData (step ev s).
Proof.
  intros Hs. destruct ev; cbn [step].
  - unfold toggleSidebar. by destruct (sidebarOpen s).
  - done.
  - destruct (filterRules_cases value (set_searchRules value s)) as ([Hd|Heq] & Hr & _).
    + by rewrite Hr.
    + by rewrite Heq.
  - unfold clearSearch. by rewrite drawn_renderRulesList, rulesData_renderRulesList.
  - destruct (sidebarOpen s); [|done].
    destruct (negb _); [|done].
    unfold clearSearch. by rewrite drawn_renderRulesList, rulesData_renderRulesList.
  - by destruct (sidebarOpen s).
  - destruct (fetching s); [done|].
    by rewrite drawn_renderRulesList, rulesData_renderRulesList.
  - destruct (fetching s); [done|]. cbn. apply sublist_nil_l.
Qed.

Lemma step_in_step ev s : in_step s → in_step (step ev s).
Proof.
  intros Hs. destruct ev; cbn [step].
  - unfold toggleSidebar. by destruct (sidebarOpen s).
  - done.
  - by apply filterRules_cases.
  - unfold clearSearch. by apply in_step_renderRulesList.
  - destruct (sidebarOpen s) eqn:Hopen; [|done].
    destruct (negb _); [|done].
    unfold clearSearch. by apply in_step_renderRulesList.
  - by destruct (sidebarOpen s).
  - destruct (fetching s); [done|]. by apply in_step_renderRulesList.
  - by destruct (fetching s).
Qed.

Lemma shell_run_snoc evs ev s : run (evs ++ [ev]) s = step ev (run evs s).
Proof. unfold run. by rewrite foldl_app. Qed.

Lemma run_in_step evs path : in_step (run evs (init path)).
Proof.
  induction evs as [|ev evs IH] using rev_ind; [done|].
  rewrite shell_run_snoc. by apply step_in_step.
Qed.

Lemma escape_once s :
  sidebarOpen (step KeyEscape s) = false
  ∨ sidebarOpen (step KeyEscape s) = true ∧ searchRules (step KeyEscape s) = "".
Proof.
  cbn [step]. destruct (sidebarOpen s) eqn:Hopen; [|by left].
  destruct (negb _); [|by left].
  right. unfold clearSearch.
  by rewrite sidebarOpen_renderRulesList, searchRules_renderRulesList.
Qed.

Lemma escape_blank s :
  sidebarOpen s = true → Js.trim (searchRules s) = "" →
  step KeyEscape s = closeSidebar s.
Proof. intros Hopen Hs. cbn [step]. by rewrite Hopen, Hs. Qed.

Lemma escape_closed s : sidebarOpen s = false → step KeyEscape s = s.
Proof. intros Hopen. cbn [step]. by rewrite Hopen. Qed.

End drawn_list.

(** X15: whatever the user and the network do, the items in the sidebar are
    rules of [rulesData], in the order [rulesData] has them: the list is
    never drawn from anything but the last data that arrived. *)
Theorem sidebar_draws_loaded_rules (evs : list Shell.Event) (path : string) :
  Shell.drawn (Shell.run evs (Shell.init path))
    `sublist_of` Shell.rulesData (Shell.run evs (Shell.init path)).
Proof.
  induction evs as [|ev evs IH] using rev_ind; [constructor|].
  rewrite shell_run_snoc. by apply step_drawn.
Qed.

(** X16: the flag [sidebarOpen] and the classes [open], [show] and
    [sidebar-open] always agree, and two presses of Escape close the
    sidebar from any state it can be in.  When the sidebar is open and the
    search box holds something that is not blank, the first press leaves it
    open, empties the box and draws all loaded rules, without a new fetch,
    and the second press closes it and does nothing else; otherwise the
    first press closes an open sidebar, leaves a closed one alone, and the
    second press does nothing. *)
Theorem escape_twice_closes (evs : list Shell.Event) (path : string) :
  let s := Shell.run evs (Shell.init path) in
  let s1 := Shell.step Shell.KeyEscape s in
  let s2 := Shell.step Shell.KeyEscape s1 in
  Shell.in_step s
  ∧ (if Shell.sidebarOpen s && negb (String.eqb (Js.trim (Shell.searchRules s)) "")
     then Shell.sidebarOpen s1 = true
          ∧ Shell.searchRules s1 = ""
          ∧ Shell.drawn s1 = Shell.rulesData s
          ∧ Shell.rulesData s1 = Shell.rulesData s
          ∧ Shell.fetching s1 = Shell.fetching s
          ∧ s2 = Shell.closeSidebar s1
     else s1 = (if Shell.sidebarOpen s then Shell.closeSidebar s else s)
          ∧ s2 = s1)
  ∧ Shell.sidebarOpen s2 = false
  ∧ Shell.rulesSidebar_open s2 = false
  ∧ Shell.sidebarOverlay_show s2 = false
  ∧ Shell.mainContent_sidebar_open s2 = false.
Proof.
  intros s s1 s2. split; [apply run_in_step|].
  assert (Shell.sidebarOpen s2 = false) as Hclosed.
  { subst s2 s1. destruct (escape_once s) as [Hc|[Ho Hs]].
    - by rewrite (escape_closed _ Hc).
    - rewrite (escape_blank _ Ho); [done|]. by rewrite Hs. }
  assert (Shell.in_step s2) as (H1 & H2 & H3).
  { subst s2 s1. do 2 apply step_in_step. apply run_in_step. }
  split; [|by rewrite H1, H2, H3].
  clear Hclosed H1 H2 H3. subst s2 s1. generalize s. clear s. intros s.
  destruct (Shell.sidebarOpen s) eqn:Hopen; cbn [andb].
  - destruct (negb (String.eqb (Js.trim (Shell.searchRules s)) "")) eqn:Hsearch.
    + assert (Shell.step Shell.KeyEscape s = Shell.clearSearch s) as ->.
      { cbn [Shell.step]. by rewrite Hopen, Hsearch. }
      assert (Shell.sidebarOpen (Shell.clearSearch s) = true
              ∧ Shell.searchRules (Shell.clearSearch s) = "") as [Ho Hs].
      { unfold Shell.clearSearch.
        by rewrite sidebarOpen_renderRulesList, searchRules_renderRulesList. }
      split; [done|]. split; [done|].
      split; [unfold Shell.clearSearch; by rewrite drawn_renderRulesList|].
      split; [unfold Shell.clearSearch; by rewrite rulesData_renderRulesList|].
      split; [unfold Shell.clearSearch; by rewrite fetching_renderRulesList|].
      apply (escape_blank _ Ho). by rewrite Hs.
    + apply negb_false_iff, String.eqb_eq in Hsearch.
      rewrite (escape_blank _ Hopen Hsearch). split; [done|].
      by apply escape_closed.
  - rewrite (escape_closed _ Hopen). split; [done|]. by apply escape_closed.
Qed.

Example escape_ex :
  let typed := Shell.step (Shell.KeyUp "alp") Listed.loaded in
  Shell.drawn typed = [Listed.alpha]
  ∧ Shell.sidebarOpen (Shell.step Shell.KeyEscape typed) = true
  ∧ Shell.searchRules (Shell.step Shell.KeyEscape typed) = ""
  ∧ Shell.drawn (Shell.step Shell.KeyEscape typed) = [Listed.alpha; Listed.beta]
  ∧ Shell.sidebarOpen (Shell.run [Shell.KeyEscape; Shell.KeyEscape] typed) = false.
Proof. vm_compute. done. Qed.

Example sidebar_loaded :
  Shell.sidebarContent Listed.loaded = Shell.Items [Listed.alpha; Listed.beta] (Some 1%nat)
  ∧ Shell.sidebarOpen Listed.loaded = true
  ∧ Shell.fetching Listed.loaded = 0%nat.
Proof. vm_compute. done. Qed.

(** ** The sidebar's search *)

Lemma getActionName_action_name (action : string) :
  action ∉ Sidebar.inherited →
  Sidebar.getActionName action = Some (Shell.action_name action).
Proof.
  intros Hin. unfold Sidebar.getActionName, Shell.action_name.
  destruct (list_to_map Sidebar.names !! action); [done|].
  by rewrite bool_decide_eq_false_2.
Qed.

Lemma keep_hits (term : string) (rule : Sidebar.Rule) :
  Sidebar.action rule ∉ Sidebar.inherited →
  Sidebar.keep term rule = Some (Shell.hits term rule).
Proof.
  intros Hin. unfold Sidebar.keep, Shell.hits.
  rewrite (getActionName_action_name _ Hin).
  by destruct (_ || _ || _ || _).
Qed.

Lemma filter_rules_hits (term : string) (l : list Sidebar.Rule) :
  Forall (λ rule, Sidebar.action rule ∉ Sidebar.inherited) l →
  Sidebar.filter_rules term l = Some (filter (λ rule, Shell.hits term rule = true) l).
Proof.
  induction 1 as [|rule l Hrule _ IH]; [done|].
  cbn [Sidebar.filter_rules]. rewrite (keep_hits _ _ Hrule), IH, filter_cons.
  by destruct (Shell.hits term rule).
Qed.

(** X17: when no rule's action names an inherited member, a key released in
    the search box with a term that is not blank never fails, and the
    sidebar then lists exactly the loaded rules the term occurs in (name,
    description, query, action key or action display name), in the order
    they were loaded. *)
Theorem sidebar_search_lists_all_hits (value : string) (s : Shell.State) :
  Forall (λ rule, Sidebar.action rule ∉ Sidebar.inherited) (Shell.rulesData s) →
  Js.trim (Js.toLowerCase value) ≠ "" →
  Shell.drawn (Shell.step (Shell.KeyUp value) s)
  = filter (λ rule, Shell.hits (Js.trim (Js.toLowerCase value)) rule = true)
      (Shell.rulesData s)
  ∧ Shell.searchRules (Shell.step (Shell.KeyUp value) s) = value.
Proof.
  intros Hok Hterm. cbn [Shell.step]. unfold Shell.filterRules. cbn zeta.
  apply String.eqb_neq in Hterm. rewrite Hterm.
  change (Shell.rulesData (Shell.set_searchRules value s)) with (Shell.rulesData s).
  rewrite (filter_rules_hits _ _ Hok).
  by rewrite drawn_renderRulesList, searchRules_renderRulesList.
Qed.

Lemma sidebar_search_lists_all_hits_witness :
  Shell.drawn (Shell.step (Shell.KeyUp " ARCH") Listed.loaded)
  = filter (λ rule, Shell.hits (Js.trim (Js.toLowerCase " ARCH")) rule = true)
      (Shell.rulesData Listed.loaded)
  ∧ Shell.searchRules (Shell.step (Shell.KeyUp " ARCH") Listed.loaded) = " ARCH".
Proof.
  apply (sidebar_search_lists_all_hits " ARCH" Listed.loaded).
  - change (Shell.rulesData Listed.loaded) with [Listed.alpha; Listed.beta].
    repeat constructor; unfold Sidebar.inherited; cbn [Sidebar.action Listed.alpha Listed.beta];
      rewrite !elem_of_cons, elem_of_nil;
      intros Hin; repeat (destruct Hin as [Hin|Hin]; [discriminate Hin|]); exact Hin.
  - vm_compute. discriminate.
Defined.

Example sidebar_search_ex :
  Shell.drawn (Shell.step (Shell.KeyUp " ARCH") Listed.loaded) = [Listed.beta]
  ∧ Shell.sidebarContent (Shell.step (Shell.KeyUp "zzz") Listed.loaded) = Shell.Notice true
  ∧ Shell.drawn (Shell.step (Shell.KeyUp "  ") Listed.loaded) = [Listed.alpha; Listed.beta].
Proof. vm_compute. done. Qed.

(** X18: rules that arrive are drawn in full, whatever the search box
    holds: a term typed while the list was on its way stays in the box but
    is not applied to the list. *)
Theorem arriving_rules_ignore_search
    (value : string) (data : list Sidebar.Rule) (s : Shell.State) :
  (0 < Shell.fetching s)%nat →
  let s' := Shell.run [Shell.KeyUp value; Shell.RulesArrive data] s in
  Shell.drawn s' = data
  ∧ Shell.rulesData s' = data
  ∧ Shell.searchRules s' = value
  ∧ Shell.fetching s' = pred (Shell.fetching s).
Proof.
  intros Hfetch s'. subst s'. unfold Shell.run. cbn [foldl].
  assert (Shell.fetching (Shell.step (Shell.KeyUp value) s) = Shell.fetching s
          ∧ Shell.searchRules (Shell.step (Shell.KeyUp value) s) = value) as [Hf Hv].
  { cbn [Shell.step]. unfold Shell.filterRules. cbn zeta.
    destruct (String.eqb _ ""); [by destruct (Shell.rulesData _)|].
    destruct (Sidebar.filter_rules _ _) as [[|]|]; done. }
  generalize dependent (Shell.step (Shell.KeyUp value) s). intros t Hf Hv.
  cbn [Shell.step]. destruct (Shell.fetching t) as [|n] eqn:Hn; [lia|].
  rewrite drawn_renderRulesList, rulesData_renderRulesList, searchRules_renderRulesList.
  rewrite <- Hf. cbn. split; [done|]. split; [done|]. split; [done|].
  by destruct data.
Qed.

Lemma arriving_rules_ignore_search_witness :
  let s' := Shell.run [Shell.KeyUp "beta"; Shell.RulesArrive [Listed.alpha]]
              (Shell.step Shell.ClickToggle (Shell.init "/")) in
  Shell.drawn s' = [Listed.alpha]
  ∧ Shell.rulesData s' = [Listed.alpha]
  ∧ Shell.searchRules s' = "beta"
  ∧ Shell.fetching s' = pred (Shell.fetching (Shell.step Shell.ClickToggle (Shell.init "/"))).
Proof.
  apply (arriving_rules_ignore_search "beta" [Listed.alpha]
           (Shell.step Shell.ClickToggle (Shell.init "/"))).
  vm_compute. lia.
Defined.

(** ** The highlighted item *)

(** X19: the item of a rule that was clicked is the one highlighted on the
    page the click leads to.  When the address is the one [selectRule] wrote
    for a rule of the arriving list, whose id is not empty and holds no [/],
    the list is drawn with that rule's first item active. *)
Theorem selected_rule_is_highlighted
    (rules : list Sidebar.Rule) (i : nat) (rule : Sidebar.Rule) (s : Shell.State) :
  rules !! i = Some rule →
  (∀ j other, rules !! j = Some other → (j < i)%nat →
     Sidebar.rule_id other ≠ Sidebar.rule_id rule) →
  Sidebar.rule_id rule ≠ "" →
  Shell.no_slash (Sidebar.rule_id rule) = true →
  Shell.pathname s = Shell.selectRule (Sidebar.rule_id rule) →
  (0 < Shell.fetching s)%nat →
  Shell.sidebarContent (Shell.step (Shell.RulesArrive rules) s)
  = Shell.Items rules (Some i).
Proof.
  intros Hi Hfirst Hne Hns Hpath Hfetch. cbn [Shell.step].
  destruct (Shell.fetching s) as [|n]; [lia|].
  assert (Shell.current_item (Shell.pathname s) rules = Some i) as Hcur.
  { unfold Shell.current_item. rewrite Hpath.
    assert (Shell.getCurrentRuleId (Shell.selectRule (Sidebar.rule_id rule))
            = Some (Sidebar.rule_id rule)) as ->.
    { exact (match_rule_found "" _ Hne Hns). }
    assert (list_find (λ r, Sidebar.rule_id r = Sidebar.rule_id rule) rules
            = Some (i, rule)) as ->; [|done].
    apply list_find_Some. split; [done|]. split; [done|]. exact Hfirst. }
  destruct rules as [|r rules]; [done|].
  unfold Shell.renderRulesList. cbn [Shell.sidebarContent Shell.set_sidebarContent].
  f_equal. exact Hcur.
Qed.

Lemma selected_rule_is_highlighted_witness :
  Shell.sidebarContent
    (Shell.step (Shell.RulesArrive [Listed.alpha; Listed.beta])
       (Shell.step Shell.ClickToggle (Shell.init "/rule/2")))
  = Shell.Items [Listed.alpha; Listed.beta] (Some 1%nat).
Proof.
  refine (selected_rule_is_highlighted [Listed.alpha; Listed.beta] 1 Listed.beta
            (Shell.step Shell.ClickToggle (Shell.init "/rule/2")) _ _ _ _ _ _).
  - reflexivity.
  - intros [|[|j]] other Hj Hlt; [|lia..].
    injection Hj as <-. discriminate.
  - discriminate.
  - reflexivity.
  - reflexivity.
  - vm_compute. lia.
Defined.

(** ** What an item shows *)

Lemma length_app (a b : string) :
  String.length (a +:+ b) = (String.length a + String.length b)%nat.
Proof. induction a as [|c a IH]; [done|]. rewrite app_cons. cbn. by rewrite IH. Qed.

Lemma app_empty_r (a : string) : a +:+ "" = a.
Proof. induction a as [|c a IH]; [done|]. by rewrite app_cons, IH. Qed.

Lemma length_substring0 (n : nat) (s : string) :
  String.length (Shell.substring0 n s) = (n `min` String.length s)%nat.
Proof.
  revert s. induction n as [|n IH]; intros [|c s]; cbn; [done..|]. by rewrite IH.
Qed.

Lemma substring0_prefix (n : nat) (s : string) :
  ∃ rest, s = Shell.substring0 n s +:+ rest.
Proof.
  revert s. induction n as [|n IH]; intros s.
  - exists s. by destruct s.
  - destruct s as [|c s]; [by exists ""|].
    destruct (IH s) as [rest Hrest]. exists rest. cbn [Shell.substring0].
    by rewrite app_cons, <- Hrest.
Qed.

(** X20: the description an item shows is never longer than 63 characters.
    A description of at most 60 characters is shown whole; of a longer one
    the item shows the first 60 characters and three dots. *)
Theorem preview_is_short (description : string) :
  (String.length (Shell.preview description) ≤ 63)%nat
  ∧ String.length (Shell.preview description)
    = (if (60 <? String.length description)%nat then 63%nat
       else String.length description)
  ∧ (if (String.length description <=? 60)%nat
     then Shell.preview description = description
     else ∃ head rest,
            description = head +:+ rest
            ∧ String.length head = 60%nat
            ∧ rest ≠ ""
            ∧ Shell.preview description = head +:+ "...").
Proof.
  unfold Shell.preview.
  destruct (Nat.ltb_spec 60 (String.length description)) as [Hlong|Hshort].
  - assert (String.length (Shell.substring0 60 description +:+ "...") = 63%nat) as Hlen.
    { rewrite length_app, length_substring0.
      change (String.length "...") with 3%nat. lia. }
    split; [lia|]. split; [done|].
    destruct (Nat.leb_spec (String.length description) 60) as [?|_]; [lia|].
    destruct (substring0_prefix 60 description) as [rest Hrest].
    exists (Shell.substring0 60 description), rest. split; [done|].
    split; [rewrite length_substring0; lia|]. split; [|done].
    intros ->. apply (f_equal String.length) in Hrest.
    rewrite length_app, length_substring0 in Hrest.
    change (String.length "") with 0%nat in Hrest. lia.
  - split; [lia|]. split; [done|].
    by destruct (Nat.leb_spec (String.length description) 60) as [_|?]; [|lia].
Qed.

Example preview_ex :
  Shell.preview "short" = "short"
  ∧ Shell.preview
      "0123456789012345678901234567890123456789012345678901234567890123456789"
    = "012345678901234567890123456789012345678901234567890123456789...".
Proof. vm_compute. done. Qed.

(** ** Relative dates *)

Lemma positive_floor_div (a d : Z) :
  0 < d → Shell.positive (Shell.floor_div (Some a) d) = (d <=? a).
Proof.
  intros Hd. cbn.
  destruct (Z.leb_spec d a) as [Hle|Hlt], (Z.ltb_spec 0 (a / d)) as [Hpos|Hnon];
    try done; exfalso.
  - assert (1 <= a / d) by (apply Z.div_le_lower_bound; lia). lia.
  - assert (a / d < 1) by (apply Z.div_lt_upper_bound; lia). lia.
Qed.

(** X21: the relative date of an item goes by three thresholds.  A missing
    date reads [Unknown]; a date that is invalid, in the future or less than
    a minute old reads [Just now]; an older one shows whole minutes up to
    an hour, whole hours up to a day, and whole days from then on. *)
Theorem relative_date_thresholds (now t : Z) :
  Shell.formatRelativeDate now None = "Unknown"
  ∧ Shell.formatRelativeDate now (Some None) = "Just now"
  ∧ Shell.formatRelativeDate now (Some (Some t))
    = (let age := now - t in
       if age <? 60000 then "Just now"
       else if age <? 3600000 then Shell.show (Some (age / 60000)) +:+ "m ago"
       else if age <? 86400000 then Shell.show (Some (age / 3600000)) +:+ "h ago"
       else Shell.show (Some (age / 86400000)) +:+ "d ago").
Proof.
  split; [done|]. split; [done|].
  - unfold Shell.formatRelativeDate. cbn zeta.
    change (Js.date_sub (Some now) (Some t)) with (Some (now - t)).
    change (1000 * 60 * 60 * 24) with 86400000.
    change (1000 * 60 * 60) with 3600000.
    change (1000 * 60) with 60000.
    rewrite !positive_floor_div by lia.
    generalize (now - t). intros age.
    destruct (Z.leb_spec 86400000 age), (Z.leb_spec 3600000 age),
      (Z.leb_spec 60000 age), (Z.ltb_spec age 60000), (Z.ltb_spec age 3600000),
      (Z.ltb_spec age 86400000); try lia; reflexivity.
Qed.

Example formatRelativeDate_ex :
  Shell.formatRelativeDate 1700000000000 (Some (Some 1699999999000)) = "Just now"
  ∧ Shell.formatRelativeDate 1700000000000 (Some (Some 1699999940000)) = "1m ago"
  ∧ Shell.formatRelativeDate 1700000000000 (Some (Some 1699992800001)) = "1h ago"
  ∧ Shell.formatRelativeDate 1700000000000 (Some (Some 1699740800000)) = "3d ago"
  ∧ Shell.formatRelativeDate 1700000000000 (Some (Some 1800000000000)) = "Just now".
Proof. vm_compute. done. Qed.

(** ** The theme *)

(** X22: the theme survives a reload.  After a click on the theme button
    the stored entry alone, whatever the system prefers, brings back the
    class the body has; a second click undoes the first; and while nothing
    is stored the body follows the system preference. *)
Theorem theme_survives_reload (t : Shell.Theme) (prefersDark : bool) :
  Shell.dark_mode
    (Shell.setupDarkModeToggle prefersDark (Shell.theme (Shell.themeToggle_click t)))
  = Shell.dark_mode (Shell.themeToggle_click t)
  ∧ Shell.dark_mode (Shell.themeToggle_click (Shell.themeToggle_click t))
    = Shell.dark_mode t
  ∧ Shell.dark_mode (Shell.setupDarkModeToggle prefersDark None) = prefersDark.
Proof.
  destruct t as [[] saved], prefersDark; by vm_compute.
Qed.

(** ** The badge of the detail page *)

